(** * Brief: a shallow embedding of the bytecode VM

    The development follows the two copies of the VM that live in the
    repository, and the framing library of the earlier one:

    - [Brief]    : [src/Brief.cpp], the later copy (direct serial framing,
                   opcodes 0..59);
    - [Firmware] : [Firmware/libraries/Brief/Brief.cpp], the earlier copy
                   (frames delivered by Reflecta);
    - [Reflecta] : [Firmware/libraries/ReflectaFramesSerial], the framing
                   under the earlier copy: escapes, checksum, sequence
                   numbers and the parser of incoming frames.

    C globals become fields of a record, every function becomes a
    computation in a small state-and-failure monad.  Cells declared
    [int16_t] hold mathematical integers that are wrapped with [s16] at
    each assignment or parameter passing; bytes are wrapped with [u8]. *)

From stdpp Require Import base list.
From Stdlib Require Import ZArith Lia.

Local Open Scope Z_scope.

(** ** Machine integers *)

Definition s16 (x : Z) : Z := (x + 32768) mod 65536 - 32768.
Definition u8 (x : Z) : Z := x mod 256.
Definition s8 (x : Z) : Z := (x + 128) mod 256 - 128.

Arguments s16 : simpl never.
Arguments u8 : simpl never.
Arguments s8 : simpl never.

(** ** Compile-time configuration ([Brief.h]) and environment

    [MEM_SIZE], [DATA_STACK_SIZE] and [RETURN_STACK_SIZE] are compile-time
    parameters.  [platform] answers calls into the Arduino core from the
    history of earlier calls.  [indeterminate] is the value a caller
    receives from [pop]/[rpop] when they run off their end without a
    [return] statement. *)

Inductive io : Type :=
| PinMode (a b : Z)
| DigitalRead (pin : Z)
| DigitalWrite (pin level : Z)
| AnalogRead (pin : Z)
| AnalogWrite (pin v : Z)
| AttachInterrupt (line mode : Z)
| DetachInterrupt (line : Z)
| Millis
| PulseIn (a b : Z).

Class Config : Type := {
  MEM_SIZE : Z;
  DATA_STACK_SIZE : Z;
  RETURN_STACK_SIZE : Z;
  platform : list io -> io -> Z;
  indeterminate : Z
}.

(** Modelled from the spec: the header included by [src/Brief.cpp] is not
    part of the tree; the constants below take the values of sections 4.7,
    6 and 7 of the specification, which are also those of
    [Firmware/libraries/Brief/Brief.h]. *)
Definition MAX_PRIMITIVES : Z := 128.
Definition MAX_INTERRUPTS : Z := 6.
Definition BOOT_EVENT_ID : Z := 0xFF.
Definition VM_EVENT_ID : Z := 0xFE.
Definition VM_ERROR_RETURN_STACK_UNDERFLOW : Z := 0.
Definition VM_ERROR_RETURN_STACK_OVERFLOW : Z := 1.
Definition VM_ERROR_DATA_STACK_UNDERFLOW : Z := 2.
Definition VM_ERROR_DATA_STACK_OVERFLOW : Z := 3.
Definition VM_ERROR_OUT_OF_MEMORY : Z := 4.
Definition INT8_MIN : Z := -128.
Definition INT8_MAX : Z := 127.

(** ** Outcomes

    An access outside a fixed-size array, a call through an unbound slot of
    the instruction table and a division by zero have no defined behaviour
    in the source; the model stops there with a [Fault] that records the
    state reached.  [OutOfFuel] is the model running out of steps. *)

Inductive array : Type := Memory | Dstack | Rstack | Isrs.

Inductive fault : Type :=
| OutOfBounds (a : array) (i : Z)
| UnboundInstruction (i : Z)
| DivideByZero
| SerialStarved.

Inductive result (S A : Type) : Type :=
| Ok (x : A) (st : S)
| Fault (f : fault) (st : S)
| OutOfFuel.

Arguments Ok {S A} x st.
Arguments Fault {S A} f st.
Arguments OutOfFuel {S A}.

Definition M (S A : Type) : Type := S -> result S A.

Definition pure {S A} (x : A) : M S A := fun st => Ok x st.

Definition bind {S A B} (m : M S A) (k : A -> M S B) : M S B :=
  fun st =>
    match m st with
    | Ok x st' => k x st'
    | Fault f st' => Fault f st'
    | OutOfFuel => OutOfFuel
    end.

Definition get {S A} (f : S -> A) : M S A := fun st => Ok (f st) st.
Definition modify {S} (f : S -> S) : M S unit := fun st => Ok tt (f st).
Definition crash {S A} (f : fault) : M S A := fun st => Fault f st.
Definition when {S} (b : bool) (m : M S unit) : M S unit :=
  if b then m else pure tt.

Declare Scope vm_scope.
Delimit Scope vm_scope with vm.
Notation "x <- m ;; k" := (bind m (fun x => k))
  (at level 100, m at next level, right associativity) : vm_scope.
Notation "m ;; k" := (bind m (fun _ => k))
  (at level 100, right associativity) : vm_scope.
Local Open Scope vm_scope.

(** Reading and writing a cell of a fixed array of [size] elements. *)

Definition array_get {S} (a : array) (size : Z) (l : list Z) (i : Z) : M S Z :=
  if (0 <=? i) && (i <? size)
  then match l !! Z.to_nat i with
       | Some v => pure v
       | None => crash (OutOfBounds a i)
       end
  else crash (OutOfBounds a i).

Definition array_set {S} (a : array) (size : Z) (l : list Z) (i v : Z)
    (store : list Z -> S -> S) : M S unit :=
  if (0 <=? i) && (i <? size)
  then modify (store (<[Z.to_nat i := v]> l))
  else crash (OutOfBounds a i).

(** * The later copy: [src/Brief.cpp] *)

Module Brief.

(** ** Global state

    [s] and [r] are the offsets of the stack pointers from [dstack] and
    [rstack]; [-1] is the empty stack.  [tx] collects the bytes handed to
    [Serial.write], [rx] is the stream [Serial.read] consumes, [calls] the
    history of calls into the Arduino core. *)

Record VM : Type := mkVM {
  memory : list Z;
  dstack : list Z;
  s : Z;
  rstack : list Z;
  r : Z;
  p : Z;
  here : Z;
  last : Z;
  eventBuffer : Z;
  loopword : Z;
  loopIterations : Z;
  isrs : list Z;
  tx : list Z;
  rx : list Z;
  calls : list io
}.

Definition set_memory (v : list Z) (st : VM) : VM :=
  mkVM v (dstack st) (s st) (rstack st) (r st) (p st) (here st) (last st)
       (eventBuffer st) (loopword st) (loopIterations st) (isrs st) (tx st)
       (rx st) (calls st).
Definition set_dstack (v : list Z) (st : VM) : VM :=
  mkVM (memory st) v (s st) (rstack st) (r st) (p st) (here st) (last st)
       (eventBuffer st) (loopword st) (loopIterations st) (isrs st) (tx st)
       (rx st) (calls st).
Definition set_s (v : Z) (st : VM) : VM :=
  mkVM (memory st) (dstack st) v (rstack st) (r st) (p st) (here st) (last st)
       (eventBuffer st) (loopword st) (loopIterations st) (isrs st) (tx st)
       (rx st) (calls st).
Definition set_rstack (v : list Z) (st : VM) : VM :=
  mkVM (memory st) (dstack st) (s st) v (r st) (p st) (here st) (last st)
       (eventBuffer st) (loopword st) (loopIterations st) (isrs st) (tx st)
       (rx st) (calls st).
Definition set_r (v : Z) (st : VM) : VM :=
  mkVM (memory st) (dstack st) (s st) (rstack st) v (p st) (here st) (last st)
       (eventBuffer st) (loopword st) (loopIterations st) (isrs st) (tx st)
       (rx st) (calls st).
Definition set_p (v : Z) (st : VM) : VM :=
  mkVM (memory st) (dstack st) (s st) (rstack st) (r st) v (here st) (last st)
       (eventBuffer st) (loopword st) (loopIterations st) (isrs st) (tx st)
       (rx st) (calls st).
Definition set_here (v : Z) (st : VM) : VM :=
  mkVM (memory st) (dstack st) (s st) (rstack st) (r st) (p st) v (last st)
       (eventBuffer st) (loopword st) (loopIterations st) (isrs st) (tx st)
       (rx st) (calls st).
Definition set_last (v : Z) (st : VM) : VM :=
  mkVM (memory st) (dstack st) (s st) (rstack st) (r st) (p st) (here st) v
       (eventBuffer st) (loopword st) (loopIterations st) (isrs st) (tx st)
       (rx st) (calls st).
Definition set_eventBuffer (v : Z) (st : VM) : VM :=
  mkVM (memory st) (dstack st) (s st) (rstack st) (r st) (p st) (here st)
       (last st) v (loopword st) (loopIterations st) (isrs st) (tx st)
       (rx st) (calls st).
Definition set_loopword (v : Z) (st : VM) : VM :=
  mkVM (memory st) (dstack st) (s st) (rstack st) (r st) (p st) (here st)
       (last st) (eventBuffer st) v (loopIterations st) (isrs st) (tx st)
       (rx st) (calls st).
Definition set_loopIterations (v : Z) (st : VM) : VM :=
  mkVM (memory st) (dstack st) (s st) (rstack st) (r st) (p st) (here st)
       (last st) (eventBuffer st) (loopword st) v (isrs st) (tx st)
       (rx st) (calls st).
Definition set_isrs (v : list Z) (st : VM) : VM :=
  mkVM (memory st) (dstack st) (s st) (rstack st) (r st) (p st) (here st)
       (last st) (eventBuffer st) (loopword st) (loopIterations st) v (tx st)
       (rx st) (calls st).
Definition set_tx (v : list Z) (st : VM) : VM :=
  mkVM (memory st) (dstack st) (s st) (rstack st) (r st) (p st) (here st)
       (last st) (eventBuffer st) (loopword st) (loopIterations st) (isrs st)
       v (rx st) (calls st).
Definition set_rx (v : list Z) (st : VM) : VM :=
  mkVM (memory st) (dstack st) (s st) (rstack st) (r st) (p st) (here st)
       (last st) (eventBuffer st) (loopword st) (loopIterations st) (isrs st)
       (tx st) v (calls st).
Definition set_calls (v : list io) (st : VM) : VM :=
  mkVM (memory st) (dstack st) (s st) (rstack st) (r st) (p st) (here st)
       (last st) (eventBuffer st) (loopword st) (loopIterations st) (isrs st)
       (tx st) (rx st) v.

Abbreviation VMM := (M VM).

Section Machine.
Context {cfg : Config}.

(** The machine as [setup] leaves it before its boot event: zeroed
    [memory] and stacks, both stacks empty, [eventBuffer] still at its
    initial [MEM_SIZE], no loop word, no interrupt word; [input] is what the
    host will send. *)
Definition boot (input : list Z) : VM :=
  mkVM (replicate (Z.to_nat MEM_SIZE) 0)
       (replicate (Z.to_nat DATA_STACK_SIZE) 0) (-1)
       (replicate (Z.to_nat RETURN_STACK_SIZE) 0) (-1)
       0 0 0 MEM_SIZE (-1) 0
       (replicate (Z.to_nat MAX_INTERRUPTS) (-1)) [] input [].

(** Cells of the four arrays. *)
Definition memory_at (i : Z) : VMM Z :=
  fun st => array_get Memory MEM_SIZE (memory st) i st.
Definition memory_put (i v : Z) : VMM unit :=
  fun st => array_set Memory MEM_SIZE (memory st) i v set_memory st.
Definition dstack_at (i : Z) : VMM Z :=
  fun st => array_get Dstack DATA_STACK_SIZE (dstack st) i st.
Definition dstack_put (i v : Z) : VMM unit :=
  fun st => array_set Dstack DATA_STACK_SIZE (dstack st) i v set_dstack st.
Definition rstack_at (i : Z) : VMM Z :=
  fun st => array_get Rstack RETURN_STACK_SIZE (rstack st) i st.
Definition rstack_put (i v : Z) : VMM unit :=
  fun st => array_set Rstack RETURN_STACK_SIZE (rstack st) i v set_rstack st.
Definition isrs_put (i v : Z) : VMM unit :=
  fun st => array_set Isrs MAX_INTERRUPTS (isrs st) i v set_isrs st.
Definition isrs_at (i : Z) : VMM Z :=
  fun st => array_get Isrs MAX_INTERRUPTS (isrs st) i st.

(** [Serial.write] of one byte. *)
Definition Serial_write (b : Z) : VMM unit :=
  modify (fun st => set_tx (tx st ++ [u8 b]) st).

(** A call into the Arduino core, answered by the environment. *)
Definition arduino (c : io) : VMM Z :=
  fun st => Ok (platform (calls st) c) (set_calls (calls st ++ [c]) st).

(** ** Everything that is written against the forward declaration of
    [error] *)
Section WithError.
Variable error : Z -> VMM unit.

(** [uint8_t memget(int16_t address)] *)
Definition memget (address : Z) : VMM Z :=
  let address := s16 address in
  if (address <? 0) || (address >=? MEM_SIZE)
  then error VM_ERROR_OUT_OF_MEMORY ;; pure 0
  else memory_at address.

(** [void memset(int16_t address, uint8_t value)]: only the upper bound is
    tested. *)
Definition memset (address value : Z) : VMM unit :=
  let address := s16 address in
  if address >=? MEM_SIZE
  then error VM_ERROR_OUT_OF_MEMORY
  else memory_put address (u8 value).

(** [void push(int16_t x)]: [s >= dstack + DATA_STACK_SIZE], else
    [*(++s) = x]. *)
Definition push (x : Z) : VMM unit :=
  sp <- get s ;;
  if sp >=? DATA_STACK_SIZE
  then error VM_ERROR_DATA_STACK_OVERFLOW
  else modify (set_s (sp + 1)) ;; dstack_put (sp + 1) (s16 x).

(** [int16_t pop()]: [s < dstack] reports the error and falls off the end
    of the function; otherwise [return *s--]. *)
Definition pop : VMM Z :=
  sp <- get s ;;
  if sp <? 0
  then error VM_ERROR_DATA_STACK_UNDERFLOW ;; pure indeterminate
  else x <- dstack_at sp ;; modify (set_s (sp - 1)) ;; pure x.

Definition rpush (x : Z) : VMM unit :=
  rp <- get r ;;
  if rp >=? RETURN_STACK_SIZE
  then error VM_ERROR_RETURN_STACK_OVERFLOW
  else modify (set_r (rp + 1)) ;; rstack_put (rp + 1) (s16 x).

Definition rpop : VMM Z :=
  rp <- get r ;;
  if rp <? 0
  then error VM_ERROR_RETURN_STACK_UNDERFLOW ;; pure indeterminate
  else x <- rstack_at rp ;; modify (set_r (rp - 1)) ;; pure x.

(** [x++] on an [int16_t] global: yields the old value. *)
Definition post_incr (rd : VM -> Z) (wr : Z -> VM -> VM) : VMM Z :=
  v <- get rd ;; modify (wr (s16 (v + 1))) ;; pure v.

(** In a call [f(a, b)] whose two arguments have side effects the operands
    are evaluated from right to left, as avr-gcc does. *)

Definition eventHeader : VMM unit :=
  h <- get here ;;
  modify (set_eventBuffer h) ;;
  x <- pop ;;
  a <- post_incr eventBuffer set_eventBuffer ;;
  memset a x.

Definition eventBody8 : VMM unit :=
  x <- pop ;;
  a <- post_incr eventBuffer set_eventBuffer ;;
  memset a x.

Definition eventBody16 : VMM unit :=
  val <- pop ;;
  a <- post_incr eventBuffer set_eventBuffer ;;
  memset a (Z.shiftr val 8) ;;
  b <- post_incr eventBuffer set_eventBuffer ;;
  memset b val.

(** The [for] loop of [eventFooter]: [n] bytes left, [i] the index. *)
Fixpoint eventFooter_loop (n : nat) (i : Z) : VMM unit :=
  match n with
  | O => pure tt
  | S n' =>
      h <- get here ;;
      b <- memget (h + i) ;;
      Serial_write b ;;
      eventFooter_loop n' (i + 1)
  end.

Definition eventFooter : VMM unit :=
  e <- get eventBuffer ;;
  h <- get here ;;
  let len := u8 (e - h) in
  Serial_write (len - 1) ;;
  eventFooter_loop (Z.to_nat len) 0.

(** [void event(uint8_t id, int16_t val)] *)
Definition event (id val : Z) : VMM unit :=
  let id := u8 id in
  let val := s16 val in
  push id ;;
  eventHeader ;;
  (if val =? 0 then pure tt
   else if (val >=? INT8_MIN) && (val <=? INT8_MAX)
        then push val ;; eventBody8
        else push val ;; eventBody16) ;;
  eventFooter.


(** ** The primitive instructions *)

(** [*s] as an rvalue and as an lvalue. *)
Definition top : VMM Z := sp <- get s ;; dstack_at sp.
Definition set_top (v : Z) : VMM unit := sp <- get s ;; dstack_put sp (s16 v).

Definition ret : VMM unit := x <- rpop ;; modify (set_p x).

Definition eventOp : VMM unit :=
  id <- pop ;;
  val <- pop ;;
  event (s8 id) val.

Definition mem16 (address : Z) : VMM Z :=
  let address := s16 address in
  hi <- memget address ;;
  let x := s16 (Z.shiftl hi 8) in
  lo <- memget (address + 1) ;;
  pure (s16 (Z.lor x lo)).

Definition fetch8 : VMM unit := a <- top ;; b <- memget a ;; set_top b.

Definition store8 : VMM unit := v <- pop ;; a <- pop ;; memset a (u8 v).

Definition fetch16 : VMM unit := a <- top ;; x <- mem16 a ;; set_top x.

Definition store16 : VMM unit :=
  a <- pop ;; v <- pop ;;
  memset a (Z.shiftr v 8) ;;
  memset (a + 1) v.

Definition lit8 : VMM unit :=
  a <- post_incr p set_p ;; b <- memget a ;; push b.

Definition lit16 : VMM unit :=
  a <- post_incr p set_p ;; x <- mem16 a ;; push x ;;
  _ <- post_incr p set_p ;; pure tt.

(** [int16_t x = pop(); *s = *s op x;] *)
Definition binary (op : Z -> Z -> Z) : VMM unit :=
  x <- pop ;; a <- top ;; set_top (op a x).

Definition unary (op : Z -> Z) : VMM unit := a <- top ;; set_top (op a).

Definition add : VMM unit := binary Z.add.
Definition sub : VMM unit := binary Z.sub.
Definition mul : VMM unit := binary Z.mul.

Definition div : VMM unit :=
  x <- pop ;; a <- top ;;
  if x =? 0 then crash DivideByZero else set_top (Z.quot a x).

Definition mod_ : VMM unit :=
  x <- pop ;; a <- top ;;
  if x =? 0 then crash DivideByZero else set_top (Z.rem a x).

Definition andb : VMM unit := binary Z.land.
Definition orb : VMM unit := binary Z.lor.
Definition xorb : VMM unit := binary Z.lxor.

Definition shift : VMM unit :=
  x <- pop ;; a <- top ;;
  if x <? 0 then set_top (Z.shiftl a (- x)) else set_top (Z.shiftr a x).

(** [return b ? 0xFFFF : 0;] converted to [int16_t]. *)
Definition boolval (b : bool) : Z := if b then s16 0xFFFF else 0.

Definition eq : VMM unit := binary (fun a x => boolval (a =? x)).
Definition neq : VMM unit := binary (fun a x => boolval (negb (a =? x))).
Definition gt : VMM unit := binary (fun a x => boolval (a >? x)).
Definition geq : VMM unit := binary (fun a x => boolval (a >=? x)).
Definition lt : VMM unit := binary (fun a x => boolval (a <? x)).
Definition leq : VMM unit := binary (fun a x => boolval (a <=? x)).

Definition notb : VMM unit := unary Z.lnot.
Definition neg : VMM unit := unary Z.opp.
Definition inc : VMM unit := unary Z.succ.
Definition dec : VMM unit := unary Z.pred.

(** [void drop() { s--; }] *)
Definition drop : VMM unit := modify (fun st => set_s (s st - 1) st).

Definition dup : VMM unit := x <- top ;; push x.

Definition swap : VMM unit :=
  sp <- get s ;;
  t <- dstack_at sp ;;
  n <- dstack_at (sp - 1) ;;
  dstack_put sp n ;;
  dstack_put (sp - 1) t.

Definition pick : VMM unit :=
  n <- pop ;; sp <- get s ;; x <- dstack_at (sp - n) ;; push x.

(** [for (i = s - n; i < s; i++) *i = *(i + 1);] *)
Fixpoint roll_loop (k : nat) (i : Z) : VMM unit :=
  match k with
  | O => pure tt
  | S k' => x <- dstack_at (i + 1) ;; dstack_put i x ;; roll_loop k' (i + 1)
  end.

Definition roll : VMM unit :=
  n <- pop ;;
  sp <- get s ;;
  t <- dstack_at (sp - n) ;;
  roll_loop (Z.to_nat n) (sp - n) ;;
  dstack_put sp t.

Definition clr : VMM unit := modify (set_s (-1)).

Definition pushr : VMM unit := x <- pop ;; rpush x.
Definition popr : VMM unit := x <- rpop ;; push x.
Definition peekr : VMM unit := rp <- get r ;; x <- rstack_at rp ;; push x.

(** [void forget()]: [i = pop(); if (i < here) here = i;] *)
Definition forget : VMM unit :=
  i <- pop ;;
  h <- get here ;;
  when (i <? h) (modify (set_here i)).

Definition call : VMM unit :=
  pc <- get p ;; rpush pc ;; x <- pop ;; modify (set_p x).

Definition quote : VMM unit :=
  a <- post_incr p set_p ;;
  len <- memget a ;;
  pc <- get p ;;
  push pc ;;
  pc <- get p ;;
  modify (set_p (s16 (pc + u8 len))).

Definition choice : VMM unit :=
  f <- pop ;; t <- pop ;;
  pc <- get p ;; rpush pc ;;
  c <- pop ;;
  modify (set_p (if c =? 0 then f else t)).

Definition chooseIf : VMM unit :=
  t <- pop ;;
  c <- pop ;;
  if negb (c =? 0)
  then pc <- get p ;; rpush pc ;; modify (set_p t)
  else pure tt.

Definition next : VMM unit :=
  x <- rpop ;;
  let count := s16 (x - 1) in
  a <- post_incr p set_p ;;
  rel <- memget a ;;
  if count >? 0
  then rpush count ;;
       pc <- get p ;;
       modify (set_p (s16 (pc - (rel + 2))))
  else pure tt.

Definition nop : VMM unit := pure tt.

Definition loopTicks : VMM unit :=
  n <- get loopIterations ;; push (Z.land n 0x7FFF).

Definition setLoop : VMM unit :=
  modify (set_loopIterations 0) ;;
  x <- pop ;; modify (set_loopword x).

Definition stopLoop : VMM unit := modify (set_loopword (-1)).

Definition resetBoard : VMM unit :=
  clr ;;
  modify (set_last 0) ;;
  modify (set_here 0) ;;
  modify (set_loopword (-1)) ;;
  modify (set_loopIterations 0).

(** Arduino adapters. *)
Definition pinMode : VMM unit :=
  b <- pop ;; a <- pop ;; _ <- arduino (PinMode (u8 a) (u8 b)) ;; pure tt.

Definition digitalRead : VMM unit :=
  a <- pop ;; x <- arduino (DigitalRead (u8 a)) ;;
  push (if x =? 0 then 0 else -1).

Definition digitalWrite : VMM unit :=
  v <- pop ;; a <- pop ;;
  _ <- arduino (DigitalWrite (u8 a) (if v =? 0 then 0 else 1)) ;; pure tt.

Definition analogRead : VMM unit :=
  a <- pop ;; x <- arduino (AnalogRead (u8 a)) ;; push x.

Definition analogWrite : VMM unit :=
  v <- pop ;; a <- pop ;; _ <- arduino (AnalogWrite (u8 a) v) ;; pure tt.

(** The [switch] of [attachISR] has no [break]: every line from the
    requested one up to 6 is attached. *)
Definition attachISR : VMM unit :=
  m <- pop ;;
  let mode := u8 m in
  i <- pop ;;
  let interrupt := u8 i in
  w <- pop ;;
  isrs_put interrupt w ;;
  if interrupt <=? 6
  then foldr (fun k rest => _ <- arduino (AttachInterrupt k mode) ;; rest)
             (pure tt)
             (map (fun k => interrupt + Z.of_nat k)
                  (seq 0 (Z.to_nat (7 - interrupt))))
  else pure tt.

Definition detachISR : VMM unit :=
  interrupt <- pop ;;
  isrs_put interrupt (-1) ;;
  _ <- arduino (DetachInterrupt (u8 interrupt)) ;; pure tt.

Definition milliseconds : VMM unit := x <- arduino Millis ;; push x.

Definition pulseIn : VMM unit :=
  b <- pop ;; a <- pop ;; x <- arduino (PulseIn (u8 a) (u8 b)) ;; push x.

(** ** The instruction table as bound by [setup] *)
Definition instructions (i : Z) : option (VMM unit) :=
  match i with
  | 0 => Some ret | 1 => Some lit8 | 2 => Some lit16 | 3 => Some quote
  | 4 => Some eventHeader | 5 => Some eventBody8 | 6 => Some eventBody16
  | 7 => Some eventFooter | 8 => Some eventOp
  | 9 => Some fetch8 | 10 => Some store8 | 11 => Some fetch16
  | 12 => Some store16
  | 13 => Some add | 14 => Some sub | 15 => Some mul | 16 => Some div
  | 17 => Some mod_ | 18 => Some andb | 19 => Some orb | 20 => Some xorb
  | 21 => Some shift
  | 22 => Some eq | 23 => Some neq | 24 => Some gt | 25 => Some geq
  | 26 => Some lt | 27 => Some leq
  | 28 => Some notb | 29 => Some neg | 30 => Some inc | 31 => Some dec
  | 32 => Some drop | 33 => Some dup | 34 => Some swap | 35 => Some pick
  | 36 => Some roll | 37 => Some clr
  | 38 => Some pushr | 39 => Some popr | 40 => Some peekr
  | 41 => Some forget | 42 => Some call | 43 => Some choice
  | 44 => Some chooseIf
  | 45 => Some loopTicks | 46 => Some setLoop | 47 => Some stopLoop
  | 48 => Some resetBoard
  | 49 => Some pinMode | 50 => Some digitalRead | 51 => Some digitalWrite
  | 52 => Some analogRead | 53 => Some analogWrite
  | 54 => Some attachISR | 55 => Some detachISR
  | 56 => Some milliseconds | 57 => Some pulseIn
  | 58 => Some next | 59 => Some nop
  | _ => None
  end.

(** ** The interpreter *)

(** One turn of the [do ... while] of [run]. *)
Definition step : VMM unit :=
  a <- post_incr p set_p ;;
  i <- memget a ;;
  if Z.land i 0x80 =? 0
  then match instructions i with
       | Some f => f
       | None => crash (UnboundInstruction i)
       end
  else pc <- get p ;;
       nxt <- memget (pc + 1) ;;
       when (negb (nxt =? 0)) (pc <- get p ;; rpush (pc + 1)) ;;
       pc <- get p ;;
       lo <- memget pc ;;
       modify (set_p (s16 (Z.lor (Z.land (Z.shiftl i 8) 0x7F00) lo))).

Fixpoint run (steps : nat) : VMM unit :=
  match steps with
  | O => fun _ => OutOfFuel
  | S steps' =>
      step ;;
      pc <- get p ;;
      if pc >=? 0 then run steps' else pure tt
  end.

Definition exec (steps : nat) (address : Z) : VMM unit :=
  modify (set_r (-1)) ;;
  rpush (-1) ;;
  modify (set_p (s16 address)) ;;
  run steps.

(** [void interrupt(int16_t n)], the body of [interrupt0] .. [interrupt6]. *)
Definition interrupt (steps : nat) (n : Z) : VMM unit :=
  w <- isrs_at n ;;
  if negb (w =? -1) then exec steps w else pure tt.

(** The Wire and Servo adapters of the source are bound to no opcode by
    [setup] and are not modelled. *)

(** [Serial.read()] where the source has made sure, or busy-waits until, a
    byte is available; a wait on an exhausted input is [SerialStarved]. *)
Definition Serial_read : VMM Z :=
  fun st =>
    match rx st with
    | b :: rest => Ok (u8 b) (set_rx rest st)
    | [] => Fault SerialStarved st
    end.

(** [for (; len > 0; len--) memset(here++, Serial.read());] *)
Fixpoint receive (len : nat) : VMM unit :=
  match len with
  | O => pure tt
  | S len' =>
      b <- Serial_read ;;
      a <- post_incr here set_here ;;
      memset a b ;;
      receive len'
  end.

(** [void loop()] *)
Definition loop (steps : nat) : VMM unit :=
  input <- get rx ;;
  (if bool_decide (input = [])
   then pure tt
   else x <- Serial_read ;;
        let b := s8 x in
        let isExec := Z.land b 0x80 =? 0x80 in
        let len := s8 (Z.land b 0x7F) in
        receive (Z.to_nat len) ;;
        if isExec
        then a <- post_incr here set_here ;;
             memset a 0 ;;
             l <- get last ;;
             modify (set_here l) ;;
             h <- get here ;;
             exec steps h
        else h <- get here ;; modify (set_last h)) ;;
  w <- get loopword ;;
  if w >=? 0
  then exec steps w ;;
       n <- get loopIterations ;;
       modify (set_loopIterations (s16 (n + 1)))
  else pure tt.

(** [void setup()]: the table is [instructions]; the rest is the reset, the
    interrupt map and the boot event. *)
Definition setup : VMM unit :=
  resetBoard ;;
  modify (set_isrs (replicate (Z.to_nat MAX_INTERRUPTS) (-1))) ;;
  event BOOT_EVENT_ID 0.

End WithError.

(** [void error(uint8_t code) { event(code, VM_EVENT_ID); }].  [error] and
    the stack and memory operations call one another; [fuel] bounds the
    depth of that recursion. *)
Fixpoint error (fuel : nat) (code : Z) : VMM unit :=
  match fuel with
  | O => fun _ => OutOfFuel
  | S fuel' => event (error fuel') (u8 code) VM_EVENT_ID
  end.

(** ** Vocabulary of the statements *)

(** The arrays have their declared sizes. *)
Definition sized (st : VM) : Prop :=
  length (memory st) = Z.to_nat MEM_SIZE /\
  length (dstack st) = Z.to_nat DATA_STACK_SIZE /\
  length (rstack st) = Z.to_nat RETURN_STACK_SIZE.

(** The body bytes [event] appends after the id, by the three cases of the
    source. *)
Definition body (val : Z) : list Z :=
  if val =? 0 then []
  else if (val >=? INT8_MIN) && (val <=? INT8_MAX) then [u8 val]
  else [u8 (Z.shiftr val 8); u8 val].

(** [bytes] stored from address [a] on. *)
Fixpoint stage (bytes : list Z) (a : Z) (m : list Z) : list Z :=
  match bytes with
  | [] => m
  | b :: bs => stage bs (a + 1) (<[Z.to_nat a := b]> m)
  end.

(** The state [event] leaves: the packet staged at [here], the cell above
    the stack top used as scratch, the cursor past the packet, the packet
    sent. *)
Definition sent (id val : Z) (st : VM) : VM :=
  mkVM (stage (id :: body val) (here st) (memory st))
       (<[Z.to_nat (s st + 1) := if val =? 0 then id else val]> (dstack st))
       (s st) (rstack st) (r st) (p st) (here st) (last st)
       (here st + 1 + Z.of_nat (length (body val)))
       (loopword st) (loopIterations st) (isrs st)
       (tx st ++ Z.of_nat (length (body val)) :: id :: body val)
       (rx st) (calls st).

(** [keeps m]: whatever state [m] ends in, [here] and [last] are what they
    were. *)
Definition keeps {A} (m : VMM A) : Prop :=
  forall st,
    match m st with
    | Ok _ st' | Fault _ st' => here st' = here st /\ last st' = last st
    | OutOfFuel => True
    end.

(** The second half of [loop]: the loop word, if one is set. *)
Definition tick (error : Z -> VMM unit) (steps : nat) : VMM unit :=
  w <- get loopword ;;
  if w >=? 0
  then exec error steps w ;;
       n <- get loopIterations ;;
       modify (set_loopIterations (s16 (n + 1)))
  else pure tt.

(** The dictionary cursors are ordered and inside the dictionary. *)
Definition cursors_ok (st : VM) : Prop :=
  0 <= last st /\ last st <= here st /\ here st <= MEM_SIZE.

End Machine.
End Brief.

(** * The earlier copy: [Firmware/libraries/Brief/Brief.cpp] *)

Module Firmware.

(** ** Global state

    As in the later copy, with the [locals] pointer of the IL instructions
    and the outgoing sequence number and checksum of Reflecta
    ([ReflectaFramesSerial.cpp]).  Incoming frames are written into
    [memory] by Reflecta before [frameReceived] runs, so there is no [rx]. *)

Record VM : Type := mkVM {
  memory : list Z;
  dstack : list Z;
  s : Z;
  rstack : list Z;
  r : Z;
  p : Z;
  here : Z;
  last : Z;
  locals : Z;
  eventBuffer : Z;
  loopword : Z;
  loopIterations : Z;
  isrs : list Z;
  readSequence : Z;
  writeSequence : Z;
  writeChecksum : Z;
  tx : list Z;
  calls : list io
}.

Definition set_memory (v : list Z) (st : VM) : VM :=
  mkVM v (dstack st) (s st) (rstack st) (r st) (p st) (here st) (last st)
    (locals st) (eventBuffer st) (loopword st) (loopIterations st) (isrs st)
    (readSequence st) (writeSequence st) (writeChecksum st) (tx st)
    (calls st).
Definition set_dstack (v : list Z) (st : VM) : VM :=
  mkVM (memory st) v (s st) (rstack st) (r st) (p st) (here st) (last st)
    (locals st) (eventBuffer st) (loopword st) (loopIterations st) (isrs st)
    (readSequence st) (writeSequence st) (writeChecksum st) (tx st)
    (calls st).
Definition set_s (v : Z) (st : VM) : VM :=
  mkVM (memory st) (dstack st) v (rstack st) (r st) (p st) (here st)
    (last st) (locals st) (eventBuffer st) (loopword st) (loopIterations st)
    (isrs st) (readSequence st) (writeSequence st) (writeChecksum st) (tx st)
    (calls st).
Definition set_rstack (v : list Z) (st : VM) : VM :=
  mkVM (memory st) (dstack st) (s st) v (r st) (p st) (here st) (last st)
    (locals st) (eventBuffer st) (loopword st) (loopIterations st) (isrs st)
    (readSequence st) (writeSequence st) (writeChecksum st) (tx st)
    (calls st).
Definition set_r (v : Z) (st : VM) : VM :=
  mkVM (memory st) (dstack st) (s st) (rstack st) v (p st) (here st)
    (last st) (locals st) (eventBuffer st) (loopword st) (loopIterations st)
    (isrs st) (readSequence st) (writeSequence st) (writeChecksum st) (tx st)
    (calls st).
Definition set_p (v : Z) (st : VM) : VM :=
  mkVM (memory st) (dstack st) (s st) (rstack st) (r st) v (here st)
    (last st) (locals st) (eventBuffer st) (loopword st) (loopIterations st)
    (isrs st) (readSequence st) (writeSequence st) (writeChecksum st) (tx st)
    (calls st).
Definition set_here (v : Z) (st : VM) : VM :=
  mkVM (memory st) (dstack st) (s st) (rstack st) (r st) (p st) v (last st)
    (locals st) (eventBuffer st) (loopword st) (loopIterations st) (isrs st)
    (readSequence st) (writeSequence st) (writeChecksum st) (tx st)
    (calls st).
Definition set_last (v : Z) (st : VM) : VM :=
  mkVM (memory st) (dstack st) (s st) (rstack st) (r st) (p st) (here st) v
    (locals st) (eventBuffer st) (loopword st) (loopIterations st) (isrs st)
    (readSequence st) (writeSequence st) (writeChecksum st) (tx st)
    (calls st).
Definition set_locals (v : Z) (st : VM) : VM :=
  mkVM (memory st) (dstack st) (s st) (rstack st) (r st) (p st) (here st)
    (last st) v (eventBuffer st) (loopword st) (loopIterations st) (isrs st)
    (readSequence st) (writeSequence st) (writeChecksum st) (tx st)
    (calls st).
Definition set_eventBuffer (v : Z) (st : VM) : VM :=
  mkVM (memory st) (dstack st) (s st) (rstack st) (r st) (p st) (here st)
    (last st) (locals st) v (loopword st) (loopIterations st) (isrs st)
    (readSequence st) (writeSequence st) (writeChecksum st) (tx st)
    (calls st).
Definition set_loopword (v : Z) (st : VM) : VM :=
  mkVM (memory st) (dstack st) (s st) (rstack st) (r st) (p st) (here st)
    (last st) (locals st) (eventBuffer st) v (loopIterations st) (isrs st)
    (readSequence st) (writeSequence st) (writeChecksum st) (tx st)
    (calls st).
Definition set_loopIterations (v : Z) (st : VM) : VM :=
  mkVM (memory st) (dstack st) (s st) (rstack st) (r st) (p st) (here st)
    (last st) (locals st) (eventBuffer st) (loopword st) v (isrs st)
    (readSequence st) (writeSequence st) (writeChecksum st) (tx st)
    (calls st).
Definition set_isrs (v : list Z) (st : VM) : VM :=
  mkVM (memory st) (dstack st) (s st) (rstack st) (r st) (p st) (here st)
    (last st) (locals st) (eventBuffer st) (loopword st) (loopIterations st)
    v (readSequence st) (writeSequence st) (writeChecksum st) (tx st)
    (calls st).
Definition set_readSequence (v : Z) (st : VM) : VM :=
  mkVM (memory st) (dstack st) (s st) (rstack st) (r st) (p st) (here st)
    (last st) (locals st) (eventBuffer st) (loopword st) (loopIterations st)
    (isrs st) v (writeSequence st) (writeChecksum st) (tx st) (calls st).
Definition set_writeSequence (v : Z) (st : VM) : VM :=
  mkVM (memory st) (dstack st) (s st) (rstack st) (r st) (p st) (here st)
    (last st) (locals st) (eventBuffer st) (loopword st) (loopIterations st)
    (isrs st) (readSequence st) v (writeChecksum st) (tx st) (calls st).
Definition set_writeChecksum (v : Z) (st : VM) : VM :=
  mkVM (memory st) (dstack st) (s st) (rstack st) (r st) (p st) (here st)
    (last st) (locals st) (eventBuffer st) (loopword st) (loopIterations st)
    (isrs st) (readSequence st) (writeSequence st) v (tx st) (calls st).
Definition set_tx (v : list Z) (st : VM) : VM :=
  mkVM (memory st) (dstack st) (s st) (rstack st) (r st) (p st) (here st)
    (last st) (locals st) (eventBuffer st) (loopword st) (loopIterations st)
    (isrs st) (readSequence st) (writeSequence st) (writeChecksum st) v
    (calls st).
Definition set_calls (v : list io) (st : VM) : VM :=
  mkVM (memory st) (dstack st) (s st) (rstack st) (r st) (p st) (here st)
    (last st) (locals st) (eventBuffer st) (loopword st) (loopIterations st)
    (isrs st) (readSequence st) (writeSequence st) (writeChecksum st) (tx st)
    v.

Abbreviation VMM := (M VM).

Section Machine.
Context {cfg : Config}.

(** The statically initialised globals.  [locals] is set by [resetBoard],
    which [setup] runs first; [boot] starts it there. *)
Definition boot : VM :=
  mkVM (replicate (Z.to_nat MEM_SIZE) 0)
       (replicate (Z.to_nat DATA_STACK_SIZE) 0) (-1)
       (replicate (Z.to_nat RETURN_STACK_SIZE) 0) (-1)
       0 0 0 MEM_SIZE MEM_SIZE (-1) 0
       (replicate (Z.to_nat MAX_INTERRUPTS) (-1)) 0 0 0 [] [].

Definition memory_at (i : Z) : VMM Z :=
  fun st => array_get Memory MEM_SIZE (memory st) i st.
Definition memory_put (i v : Z) : VMM unit :=
  fun st => array_set Memory MEM_SIZE (memory st) i v set_memory st.
Definition dstack_at (i : Z) : VMM Z :=
  fun st => array_get Dstack DATA_STACK_SIZE (dstack st) i st.
Definition dstack_put (i v : Z) : VMM unit :=
  fun st => array_set Dstack DATA_STACK_SIZE (dstack st) i v set_dstack st.
Definition rstack_at (i : Z) : VMM Z :=
  fun st => array_get Rstack RETURN_STACK_SIZE (rstack st) i st.
Definition rstack_put (i v : Z) : VMM unit :=
  fun st => array_set Rstack RETURN_STACK_SIZE (rstack st) i v set_rstack st.
Definition isrs_put (i v : Z) : VMM unit :=
  fun st => array_set Isrs MAX_INTERRUPTS (isrs st) i v set_isrs st.
Definition isrs_at (i : Z) : VMM Z :=
  fun st => array_get Isrs MAX_INTERRUPTS (isrs st) i st.

Definition Serial_write (b : Z) : VMM unit :=
  modify (fun st => set_tx (tx st ++ [u8 b]) st).

Definition arduino (c : io) : VMM Z :=
  fun st => Ok (platform (calls st) c) (set_calls (calls st ++ [c]) st).

(** ** Reflecta: [writeEscaped] and [sendFrame] *)

Definition END : Z := 0xC0.
Definition ESCAPE : Z := 0xDB.
Definition ESCAPED_END : Z := 0xDC.
Definition ESCAPED_ESCAPE : Z := 0xDD.

Definition writeEscaped (b : Z) : VMM unit :=
  let b := u8 b in
  (if b =? END then Serial_write ESCAPE ;; Serial_write ESCAPED_END
   else if b =? ESCAPE then Serial_write ESCAPE ;; Serial_write ESCAPED_ESCAPE
   else Serial_write b) ;;
  modify (fun st => set_writeChecksum (Z.lxor (writeChecksum st) b) st).

(** The [for] loop of [sendFrame] over [frame = memory + base]. *)
Fixpoint sendFrame_loop (n : nat) (base frameIndex : Z) : VMM unit :=
  match n with
  | O => pure tt
  | S n' =>
      b <- memory_at (base + frameIndex) ;;
      writeEscaped b ;;
      sendFrame_loop n' base (frameIndex + 1)
  end.

Definition sendFrame (base frameLength : Z) : VMM Z :=
  let frameLength := u8 frameLength in
  modify (set_writeChecksum 0) ;;
  q <- get writeSequence ;;
  writeEscaped q ;;
  sendFrame_loop (Z.to_nat frameLength) base 0 ;;
  c <- get writeChecksum ;;
  writeEscaped c ;;
  Serial_write END ;;
  q <- get writeSequence ;;
  modify (set_writeSequence (u8 (q + 1))) ;;
  pure q.

(** [reflectaFrames::reset()] *)
Definition reflecta_reset : VMM unit :=
  modify (set_readSequence 0) ;;
  modify (set_writeSequence 0).

(** [x++] on an [int16_t] global: yields the old value. *)
Definition post_incr (rd : VM -> Z) (wr : Z -> VM -> VM) : VMM Z :=
  v <- get rd ;; modify (wr (s16 (v + 1))) ;; pure v.

(** ** Everything that is written against the forward declaration of
    [error] *)
Section WithError.
Variable error : Z -> VMM unit.

(** [uint8_t mem(int16_t address)] *)
Definition mem (address : Z) : VMM Z :=
  let address := s16 address in
  if (address <? 0) || (address >=? MEM_SIZE)
  then error VM_ERROR_OUT_OF_MEMORY ;; pure 0
  else memory_at address.

Definition memset (address value : Z) : VMM unit :=
  let address := s16 address in
  if address >=? MEM_SIZE
  then error VM_ERROR_OUT_OF_MEMORY
  else memory_put address (u8 value).

(** [push] and [pop] empty the stack before they report. *)
Definition push (x : Z) : VMM unit :=
  sp <- get s ;;
  if sp >=? DATA_STACK_SIZE
  then modify (set_s (-1)) ;; error VM_ERROR_DATA_STACK_OVERFLOW
  else modify (set_s (sp + 1)) ;; dstack_put (sp + 1) (s16 x).

Definition pop : VMM Z :=
  sp <- get s ;;
  if sp <? 0
  then modify (set_s (-1)) ;;
       error VM_ERROR_DATA_STACK_UNDERFLOW ;; pure indeterminate
  else x <- dstack_at sp ;; modify (set_s (sp - 1)) ;; pure x.

Definition rpush (x : Z) : VMM unit :=
  rp <- get r ;;
  if rp >=? RETURN_STACK_SIZE
  then error VM_ERROR_RETURN_STACK_OVERFLOW
  else modify (set_r (rp + 1)) ;; rstack_put (rp + 1) (s16 x).

Definition rpop : VMM Z :=
  rp <- get r ;;
  if rp <? 0
  then error VM_ERROR_RETURN_STACK_UNDERFLOW ;; pure indeterminate
  else x <- rstack_at rp ;; modify (set_r (rp - 1)) ;; pure x.

Definition eventHeader : VMM unit :=
  h <- get here ;;
  modify (set_eventBuffer h) ;;
  x <- pop ;;
  a <- post_incr eventBuffer set_eventBuffer ;;
  memset a x.

Definition eventBody8 : VMM unit :=
  x <- pop ;;
  a <- post_incr eventBuffer set_eventBuffer ;;
  memset a x.

Definition eventBody16 : VMM unit :=
  val <- pop ;;
  a <- post_incr eventBuffer set_eventBuffer ;;
  memset a (Z.shiftr val 8) ;;
  b <- post_incr eventBuffer set_eventBuffer ;;
  memset b val.

(** [reflectaFrames::sendFrame(memory + here, eventBuffer - here)] *)
Definition eventFooter : VMM unit :=
  e <- get eventBuffer ;;
  h <- get here ;;
  _ <- sendFrame h (e - h) ;; pure tt.

Definition event (id val : Z) : VMM unit :=
  let id := u8 id in
  let val := s16 val in
  push id ;;
  eventHeader ;;
  (if val =? 0 then pure tt
   else if (val >=? INT8_MIN) && (val <=? INT8_MAX)
        then push val ;; eventBody8
        else push val ;; eventBody16) ;;
  eventFooter.

(** The body of [error]; the knot is tied by [error] below. *)
Definition error_body (code : Z) : VMM unit :=
  let code := u8 code in
  push code ;;
  push VM_EVENT_ID ;;
  eventHeader ;;
  eventBody8 ;;
  eventFooter.

(** ** The primitive instructions *)

Definition top : VMM Z := sp <- get s ;; dstack_at sp.
Definition set_top (v : Z) : VMM unit := sp <- get s ;; dstack_put sp (s16 v).

Definition ret : VMM unit := x <- rpop ;; modify (set_p x).

Definition eventOp : VMM unit :=
  id <- pop ;;
  val <- pop ;;
  event (s8 id) val.

Definition mem16 (address : Z) : VMM Z :=
  let address := s16 address in
  hi <- mem address ;;
  let x := s16 (Z.shiftl hi 8) in
  lo <- mem (address + 1) ;;
  pure (s16 (Z.lor x lo)).

Definition fetch8 : VMM unit := a <- top ;; b <- mem a ;; set_top b.

Definition store8 : VMM unit := v <- pop ;; a <- pop ;; memset a (u8 v).

Definition fetch16 : VMM unit := a <- top ;; x <- mem16 a ;; set_top x.

Definition store16 : VMM unit :=
  a <- pop ;; v <- pop ;;
  memset a (Z.shiftr v 8) ;;
  memset (a + 1) v.

(** [push((int8_t)mem(p++))] *)
Definition lit8 : VMM unit :=
  a <- post_incr p set_p ;; b <- mem a ;; push (s8 b).

Definition lit16 : VMM unit :=
  a <- post_incr p set_p ;; x <- mem16 a ;; push x ;;
  _ <- post_incr p set_p ;; pure tt.

Definition binary (op : Z -> Z -> Z) : VMM unit :=
  x <- pop ;; a <- top ;; set_top (op a x).

Definition unary (op : Z -> Z) : VMM unit := a <- top ;; set_top (op a).

Definition add : VMM unit := binary Z.add.
Definition sub : VMM unit := binary Z.sub.
Definition mul : VMM unit := binary Z.mul.

Definition div : VMM unit :=
  x <- pop ;; a <- top ;;
  if x =? 0 then crash DivideByZero else set_top (Z.quot a x).

Definition mod_ : VMM unit :=
  x <- pop ;; a <- top ;;
  if x =? 0 then crash DivideByZero else set_top (Z.rem a x).

Definition andb : VMM unit := binary Z.land.
Definition orb : VMM unit := binary Z.lor.
Definition xorb : VMM unit := binary Z.lxor.

Definition shift : VMM unit :=
  x <- pop ;; a <- top ;;
  if x <? 0 then set_top (Z.shiftl a (- x)) else set_top (Z.shiftr a x).

Definition boolval (b : bool) : Z := if b then s16 0xFFFF else 0.

Definition eq : VMM unit := binary (fun a x => boolval (a =? x)).
Definition neq : VMM unit := binary (fun a x => boolval (negb (a =? x))).
Definition gt : VMM unit := binary (fun a x => boolval (a >? x)).
Definition geq : VMM unit := binary (fun a x => boolval (a >=? x)).
Definition lt : VMM unit := binary (fun a x => boolval (a <? x)).
Definition leq : VMM unit := binary (fun a x => boolval (a <=? x)).

Definition notb : VMM unit := unary Z.lnot.
Definition neg : VMM unit := unary Z.opp.
Definition inc : VMM unit := unary Z.succ.
Definition dec : VMM unit := unary Z.pred.

Definition drop : VMM unit := modify (fun st => set_s (s st - 1) st).

Definition dup : VMM unit := x <- top ;; push x.

Definition swap : VMM unit :=
  sp <- get s ;;
  t <- dstack_at sp ;;
  n <- dstack_at (sp - 1) ;;
  dstack_put sp n ;;
  dstack_put (sp - 1) t.

Definition pick : VMM unit :=
  n <- pop ;; sp <- get s ;; x <- dstack_at (sp - n) ;; push x.

Fixpoint roll_loop (k : nat) (i : Z) : VMM unit :=
  match k with
  | O => pure tt
  | S k' => x <- dstack_at (i + 1) ;; dstack_put i x ;; roll_loop k' (i + 1)
  end.

Definition roll : VMM unit :=
  n <- pop ;;
  sp <- get s ;;
  t <- dstack_at (sp - n) ;;
  roll_loop (Z.to_nat n) (sp - n) ;;
  dstack_put sp t.

Definition clr : VMM unit := modify (set_s (-1)).

Definition pushr : VMM unit := x <- pop ;; rpush x.
Definition popr : VMM unit := x <- rpop ;; push x.
Definition peekr : VMM unit := rp <- get r ;; x <- rstack_at rp ;; push x.

Definition forget : VMM unit :=
  i <- pop ;;
  h <- get here ;;
  when (i <? h) (modify (set_here i)).

(** [for (i = locals; i < locals + len; i++) memset(i, 0);] *)
Fixpoint alloc_loop (k : nat) (i : Z) : VMM unit :=
  match k with
  | O => pure tt
  | S k' => memset i 0 ;; alloc_loop k' (i + 1)
  end.

Definition alloc : VMM unit :=
  len <- pop ;;
  l <- get locals ;;
  modify (set_locals (s16 (l - len))) ;;
  rpush len ;;
  l <- get locals ;;
  alloc_loop (Z.to_nat len) l ;;
  l <- get locals ;;
  h <- get here ;;
  when (l <? h) (error VM_ERROR_OUT_OF_MEMORY).

Definition free : VMM unit :=
  x <- rpop ;;
  l <- get locals ;;
  modify (set_locals (s16 (l + x))).

Definition tail : VMM unit := free ;; rpush 0.

Definition local : VMM unit :=
  x <- pop ;; l <- get locals ;; push (l + x).

Definition localFetch16 : VMM unit := local ;; fetch16.
Definition localStore16 : VMM unit := local ;; store16.

Definition call : VMM unit :=
  pc <- get p ;; rpush pc ;; x <- pop ;; modify (set_p x).

Definition branch : VMM unit :=
  pc <- get p ;;
  b <- mem pc ;;
  pc <- get p ;;
  modify (set_p (s16 (pc + s8 b))).

Definition zbranch : VMM unit :=
  x <- pop ;;
  if x =? 0 then branch else _ <- post_incr p set_p ;; pure tt.

Definition quote : VMM unit :=
  a <- post_incr p set_p ;;
  len <- mem a ;;
  pc <- get p ;;
  push pc ;;
  pc <- get p ;;
  modify (set_p (s16 (pc + u8 len))).

Definition choice : VMM unit :=
  f <- pop ;; t <- pop ;;
  pc <- get p ;; rpush pc ;;
  c <- pop ;;
  modify (set_p (if c =? 0 then f else t)).

Definition chooseIf : VMM unit :=
  t <- pop ;;
  c <- pop ;;
  if negb (c =? 0)
  then pc <- get p ;; rpush pc ;; modify (set_p t)
  else pure tt.

Definition loopTicks : VMM unit :=
  n <- get loopIterations ;; push (Z.land n 0x7FFF).

Definition setLoop : VMM unit :=
  modify (set_loopIterations 0) ;;
  x <- pop ;; modify (set_loopword x).

Definition stopLoop : VMM unit := modify (set_loopword (-1)).

Definition resetBoard : VMM unit :=
  clr ;;
  modify (set_last 0) ;;
  modify (set_here 0) ;;
  modify (set_locals (s16 MEM_SIZE)) ;;
  modify (set_loopword (-1)) ;;
  modify (set_loopIterations 0) ;;
  reflecta_reset.

Definition pinMode : VMM unit :=
  b <- pop ;; a <- pop ;; _ <- arduino (PinMode (u8 a) (u8 b)) ;; pure tt.

Definition digitalRead : VMM unit :=
  a <- pop ;; x <- arduino (DigitalRead (u8 a)) ;;
  push (if x =? 0 then 0 else -1).

Definition digitalWrite : VMM unit :=
  v <- pop ;; a <- pop ;;
  _ <- arduino (DigitalWrite (u8 a) (if v =? 0 then 0 else 1)) ;; pure tt.

Definition analogRead : VMM unit :=
  a <- pop ;; x <- arduino (AnalogRead (u8 a)) ;; push x.

Definition analogWrite : VMM unit :=
  v <- pop ;; a <- pop ;; _ <- arduino (AnalogWrite (u8 a) v) ;; pure tt.

Definition attachISR : VMM unit :=
  m <- pop ;;
  let mode := u8 m in
  i <- pop ;;
  let interrupt := u8 i in
  w <- pop ;;
  isrs_put interrupt w ;;
  if interrupt <=? 6
  then foldr (fun k rest => _ <- arduino (AttachInterrupt k mode) ;; rest)
             (pure tt)
             (map (fun k => interrupt + Z.of_nat k)
                  (seq 0 (Z.to_nat (7 - interrupt))))
  else pure tt.

Definition detachISR : VMM unit :=
  interrupt <- pop ;;
  isrs_put interrupt (-1) ;;
  _ <- arduino (DetachInterrupt (u8 interrupt)) ;; pure tt.

Definition milliseconds : VMM unit := x <- arduino Millis ;; push x.

Definition pulseIn : VMM unit :=
  b <- pop ;; a <- pop ;; x <- arduino (PulseIn (u8 a) (u8 b)) ;; push x.

(** ** The instruction table as bound by [setup] *)
Definition instructions (i : Z) : option (VMM unit) :=
  match i with
  | 0 => Some ret | 1 => Some lit8 | 2 => Some lit16
  | 3 => Some branch | 4 => Some zbranch | 5 => Some quote
  | 6 => Some eventHeader | 7 => Some eventBody8 | 8 => Some eventBody16
  | 9 => Some eventFooter | 10 => Some eventOp
  | 11 => Some fetch8 | 12 => Some store8 | 13 => Some fetch16
  | 14 => Some store16
  | 15 => Some add | 16 => Some sub | 17 => Some mul | 18 => Some div
  | 19 => Some mod_ | 20 => Some andb | 21 => Some orb | 22 => Some xorb
  | 23 => Some shift
  | 24 => Some eq | 25 => Some neq | 26 => Some gt | 27 => Some geq
  | 28 => Some lt | 29 => Some leq
  | 30 => Some notb | 31 => Some neg | 32 => Some inc | 33 => Some dec
  | 34 => Some drop | 35 => Some dup | 36 => Some swap | 37 => Some pick
  | 38 => Some roll | 39 => Some clr
  | 40 => Some pushr | 41 => Some popr | 42 => Some peekr
  | 43 => Some forget | 44 => Some alloc | 45 => Some free
  | 46 => Some tail | 47 => Some local | 48 => Some localFetch16
  | 49 => Some localStore16
  | 50 => Some call | 51 => Some choice | 52 => Some chooseIf
  | 53 => Some loopTicks | 54 => Some setLoop | 55 => Some stopLoop
  | 56 => Some resetBoard
  | 57 => Some pinMode | 58 => Some digitalRead | 59 => Some digitalWrite
  | 60 => Some analogRead | 61 => Some analogWrite
  | 62 => Some attachISR | 63 => Some detachISR
  | 64 => Some milliseconds | 65 => Some pulseIn
  | _ => None
  end.

(** ** The interpreter *)

Definition step : VMM unit :=
  a <- post_incr p set_p ;;
  i <- mem a ;;
  if Z.land i 0x80 =? 0
  then match instructions i with
       | Some f => f
       | None => crash (UnboundInstruction i)
       end
  else pc <- get p ;;
       nxt <- mem (pc + 1) ;;
       when (negb (nxt =? 0)) (pc <- get p ;; rpush (pc + 1)) ;;
       pc <- get p ;;
       lo <- mem pc ;;
       modify (set_p (s16 (Z.lor (Z.land (Z.shiftl i 8) 0x7F00) lo))).

Fixpoint run (steps : nat) : VMM unit :=
  match steps with
  | O => fun _ => OutOfFuel
  | S steps' =>
      step ;;
      pc <- get p ;;
      if pc >=? 0 then run steps' else pure tt
  end.

Definition exec (steps : nat) (address : Z) : VMM unit :=
  modify (set_r (-1)) ;;
  modify (set_p (s16 address)) ;;
  rpush (-1) ;;
  run steps.

(** [void interrupt(int16_t n)] *)
Definition interrupt (steps : nat) (n : Z) : VMM unit :=
  w <- isrs_at n ;;
  if negb (w =? -1) then exec steps w else pure tt.

(** [uint8_t frameAllocation(uint8_t** frameBuffer)]: the buffer starts at
    [memory + here]; the result is its length. *)
Definition frameAllocation : VMM Z :=
  h <- get here ;; pure (u8 (Z.min 255 (MEM_SIZE - h))).

(** [void frameReceived(uint8_t sequence, uint8_t frameLength,
    uint8_t* frame)]: the frame, its flag byte last, already sits in
    [memory] from [here] on. *)
Definition frameReceived (steps : nat) (sequence frameLength : Z)
    : VMM unit :=
  let frameLength := u8 frameLength in
  h <- get here ;;
  modify (set_last h) ;;
  modify (set_here (s16 (h + (frameLength - 1)))) ;;
  h <- get here ;;
  flag <- memory_at h ;;
  let isExec := flag =? 0 in
  when isExec (a <- post_incr here set_here ;; memset a 0) ;;
  h <- get here ;;
  l <- get locals ;;
  if h >? l
  then error VM_ERROR_OUT_OF_MEMORY
  else if isExec
       then l <- get last ;;
            modify (set_here l) ;;
            h <- get here ;;
            exec steps h
       else pure tt.

(** [void loop()] *)
Definition loop (steps : nat) : VMM unit :=
  w <- get loopword ;;
  if w >=? 0
  then exec steps w ;;
       n <- get loopIterations ;;
       modify (set_loopIterations (s16 (n + 1)))
  else pure tt.

Definition setup : VMM unit :=
  resetBoard ;;
  modify (set_isrs (replicate (Z.to_nat MAX_INTERRUPTS) (-1))) ;;
  event BOOT_EVENT_ID 0.

End WithError.

(** [void error(uint8_t code)] pushes the code and [VM_EVENT_ID] and sends
    them as a packed event; [fuel] bounds the recursion through [push],
    [pop] and [memset]. *)
Fixpoint error (fuel : nat) (code : Z) : VMM unit :=
  match fuel with
  | O => fun _ => OutOfFuel
  | S fuel' => error_body (error fuel') code
  end.

End Machine.
End Firmware.

(** * Reflecta framing: [ReflectaFramesSerial.cpp]

    The sending half ([writeEscaped], [sendFrame]) is in [Firmware], where
    [eventFooter] uses it.  This module adds [sendError] and the receiving
    half, with the callbacks that [brief::setup] installs:
    [Firmware.frameAllocation] and [Firmware.frameReceived]. *)

Module Reflecta.

Definition FRAMES_ERROR : Z := 0x7F.
Definition FRAMES_WARNING_OUT_OF_SEQUENCE : Z := 0x00.
Definition FRAMES_ERROR_UNEXPECTED_ESCAPE : Z := 0x01.
Definition FRAMES_ERROR_CRC_MISMATCH : Z := 0x02.
Definition FRAMES_ERROR_UNEXPECTED_END : Z := 0x03.
Definition FRAMES_ERROR_BUFFER_OVERFLOW : Z := 0x04.

Definition WAITING_FOR_SEQUENCE : Z := 0.
Definition WAITING_FOR_BYTECODE : Z := 1.
Definition PROCESS_PAYLOAD : Z := 2.
Definition WAITING_FOR_RECOVERY : Z := 3.

(** The globals of the receiving half next to the machine.  [frameBuffer]
    is the offset in [memory] of the buffer handed out by the allocation
    callback; [rx] is what [Serial.read] will return. *)
Record Link : Type := mkLink {
  vm : Firmware.VM;
  readChecksum : Z;
  escaped : Z;
  state : Z;
  frameBuffer : Z;
  frameBufferLength : Z;
  frameIndex : Z;
  sequence : Z;
  lastFrameReceived : Z;
  rx : list Z
}.

Definition set_vm (v : Firmware.VM) (l : Link) : Link :=
  mkLink v (readChecksum l) (escaped l) (state l) (frameBuffer l)
         (frameBufferLength l) (frameIndex l) (sequence l)
         (lastFrameReceived l) (rx l).
Definition set_readChecksum (v : Z) (l : Link) : Link :=
  mkLink (vm l) v (escaped l) (state l) (frameBuffer l)
         (frameBufferLength l) (frameIndex l) (sequence l)
         (lastFrameReceived l) (rx l).
Definition set_escaped (v : Z) (l : Link) : Link :=
  mkLink (vm l) (readChecksum l) v (state l) (frameBuffer l)
         (frameBufferLength l) (frameIndex l) (sequence l)
         (lastFrameReceived l) (rx l).
Definition set_state (v : Z) (l : Link) : Link :=
  mkLink (vm l) (readChecksum l) (escaped l) v (frameBuffer l)
         (frameBufferLength l) (frameIndex l) (sequence l)
         (lastFrameReceived l) (rx l).
Definition set_frameBuffer (v : Z) (l : Link) : Link :=
  mkLink (vm l) (readChecksum l) (escaped l) (state l) v
         (frameBufferLength l) (frameIndex l) (sequence l)
         (lastFrameReceived l) (rx l).
Definition set_frameBufferLength (v : Z) (l : Link) : Link :=
  mkLink (vm l) (readChecksum l) (escaped l) (state l) (frameBuffer l)
         v (frameIndex l) (sequence l) (lastFrameReceived l) (rx l).
Definition set_frameIndex (v : Z) (l : Link) : Link :=
  mkLink (vm l) (readChecksum l) (escaped l) (state l) (frameBuffer l)
         (frameBufferLength l) v (sequence l) (lastFrameReceived l) (rx l).
Definition set_sequence (v : Z) (l : Link) : Link :=
  mkLink (vm l) (readChecksum l) (escaped l) (state l) (frameBuffer l)
         (frameBufferLength l) (frameIndex l) v (lastFrameReceived l) (rx l).
Definition set_lastFrameReceived (v : Z) (l : Link) : Link :=
  mkLink (vm l) (readChecksum l) (escaped l) (state l) (frameBuffer l)
         (frameBufferLength l) (frameIndex l) (sequence l) v (rx l).
Definition set_rx (v : list Z) (l : Link) : Link :=
  mkLink (vm l) (readChecksum l) (escaped l) (state l) (frameBuffer l)
         (frameBufferLength l) (frameIndex l) (sequence l)
         (lastFrameReceived l) v.

Abbreviation LM := (M Link).

(** A computation of the machine run inside the link. *)
Definition lift {A} (m : Firmware.VMM A) : LM A :=
  fun l =>
    match m (vm l) with
    | Ok x v => Ok x (set_vm v l)
    | Fault f v => Fault f (set_vm v l)
    | OutOfFuel => OutOfFuel
    end.

Section Frames.
Context {cfg : Config}.

(** [sendFrame] applied to a local array that holds exactly [frame]. *)
Definition sendFrame_local (frame : list Z) : Firmware.VMM Z :=
  modify (Firmware.set_writeChecksum 0) ;;
  q <- get Firmware.writeSequence ;;
  Firmware.writeEscaped q ;;
  foldr (fun b rest => Firmware.writeEscaped b ;; rest) (pure tt) frame ;;
  c <- get Firmware.writeChecksum ;;
  Firmware.writeEscaped c ;;
  Firmware.Serial_write Firmware.END ;;
  q <- get Firmware.writeSequence ;;
  modify (Firmware.set_writeSequence (u8 (q + 1))) ;;
  pure q.

(** [void sendError(byte eventId)] *)
Definition sendError (eventId : Z) : LM unit :=
  _ <- lift (sendFrame_local [FRAMES_ERROR; u8 eventId]) ;; pure tt.

(** [Serial.read()] inside [while (Serial.available())]. *)
Definition Serial_read : LM Z :=
  fun l =>
    match rx l with
    | b :: rest => Ok (u8 b) (set_rx rest l)
    | [] => Fault SerialStarved l
    end.

(** [int readUnescaped(byte &b)]: the result and the byte left in [b]. *)
Definition readUnescaped : LM (Z * Z) :=
  b <- Serial_read ;;
  e <- get escaped ;;
  if negb (e =? 0)
  then
    b' <- (if b =? Firmware.ESCAPED_END then pure Firmware.END
           else if b =? Firmware.ESCAPED_ESCAPE then pure Firmware.ESCAPE
           else sendError FRAMES_ERROR_UNEXPECTED_ESCAPE ;;
                modify (set_state WAITING_FOR_RECOVERY) ;;
                pure b) ;;
    modify (set_escaped 0) ;;
    c <- get readChecksum ;;
    modify (set_readChecksum (Z.lxor c b')) ;;
    pure (1, b')
  else
    if b =? Firmware.ESCAPE
    then modify (set_escaped 1) ;; pure (0, b)
    else
      (if b =? Firmware.END
       then
         st <- get state ;;
         if st =? WAITING_FOR_RECOVERY
         then modify (set_readChecksum 0) ;;
              modify (set_state WAITING_FOR_SEQUENCE)
         else if st =? WAITING_FOR_BYTECODE
         then modify (set_state PROCESS_PAYLOAD)
         else sendError FRAMES_ERROR_UNEXPECTED_END ;;
              modify (set_state WAITING_FOR_RECOVERY)
       else
         c <- get readChecksum ;;
         modify (set_readChecksum (Z.lxor c b))) ;;
      pure (1, b).

Section WithError.
Variable error : Z -> Firmware.VMM unit.

(** The [switch (state)] of [loop], entered with the unescaped byte [b]. *)
Definition dispatch (steps : nat) (b : Z) : LM unit :=
  st <- get state ;;
  if st =? WAITING_FOR_RECOVERY then pure tt
  else if st =? WAITING_FOR_SEQUENCE then
    modify (set_sequence b) ;;
    q <- lift (get Firmware.readSequence) ;;
    lift (modify (Firmware.set_readSequence (u8 (q + 1)))) ;;
    q <- lift (get Firmware.readSequence) ;;
    sq <- get sequence ;;
    (if negb (q =? sq)
     then lift (modify (Firmware.set_readSequence sq)) ;;
          sendError FRAMES_WARNING_OUT_OF_SEQUENCE
     else pure tt) ;;
    h <- lift (get Firmware.here) ;;
    n <- lift Firmware.frameAllocation ;;
    modify (set_frameBuffer h) ;;
    modify (set_frameBufferLength n) ;;
    modify (set_frameIndex 0) ;;
    modify (set_state WAITING_FOR_BYTECODE)
  else if st =? WAITING_FOR_BYTECODE then
    i <- get frameIndex ;;
    n <- get frameBufferLength ;;
    if i =? n
    then sendError FRAMES_ERROR_BUFFER_OVERFLOW ;;
         modify (set_state WAITING_FOR_RECOVERY) ;;
         modify (set_readChecksum 0)
    else fb <- get frameBuffer ;;
         modify (set_frameIndex (u8 (i + 1))) ;;
         lift (Firmware.memory_put (fb + i) b)
  else if st =? PROCESS_PAYLOAD then
    t <- lift (Firmware.arduino Millis) ;;
    modify (set_lastFrameReceived t) ;;
    c <- get readChecksum ;;
    (if c =? 0
     then q <- lift (get Firmware.readSequence) ;;
          i <- get frameIndex ;;
          lift (Firmware.frameReceived error steps q (i - 1))
     else sendError FRAMES_ERROR_CRC_MISMATCH ;;
          modify (set_state WAITING_FOR_RECOVERY) ;;
          modify (set_readChecksum 0)) ;;
    modify (set_state WAITING_FOR_SEQUENCE)
  else pure tt.

(** One turn of the [while] of [loop]. *)
Definition turn (steps : nat) : LM unit :=
  rb <- readUnescaped ;;
  if negb (fst rb =? 0) then dispatch steps (snd rb) else pure tt.

(** [while (Serial.available())], every turn reads one byte. *)
Fixpoint turns (steps : nat) (n : nat) : LM unit :=
  match n with
  | O => pure tt
  | S n' =>
      input <- get rx ;;
      if bool_decide (input = []) then pure tt
      else turn steps ;; turns steps n'
  end.

(** [void loop()] *)
Definition loop (steps : nat) : LM unit :=
  input <- get rx ;; turns steps (length input).

End WithError.

(** ** Vocabulary of the statements *)

(** What [writeEscaped] writes for one byte. *)
Definition slip (b : Z) : list Z :=
  if b =? Firmware.END then [Firmware.ESCAPE; Firmware.ESCAPED_END]
  else if b =? Firmware.ESCAPE then [Firmware.ESCAPE; Firmware.ESCAPED_ESCAPE]
  else [b].

Definition checksum (l : list Z) : Z := foldl Z.lxor 0 l.

(** A frame on the wire: sequence number, payload and checksum, escaped,
    then [END]. *)
Definition framed (seq : Z) (payload : list Z) : list Z :=
  flat_map slip (seq :: payload ++ [checksum (seq :: payload)])
  ++ [Firmware.END].

Definition bytes (l : list Z) : Prop := Forall (fun b => 0 <= b < 256) l.

(** The machine after one frame with [payload] has gone out. *)
Definition after_frame (payload : list Z) (v : Firmware.VM) : Firmware.VM :=
  Firmware.set_writeSequence (u8 (Firmware.writeSequence v + 1))
    (Firmware.set_writeChecksum 0
       (Firmware.set_tx
          (Firmware.tx v ++ framed (Firmware.writeSequence v) payload) v)).

(** The machine after [Firmware.error code] found room for its report:
    two cells of the stack and two bytes at [here] were used. *)
Definition reported (code : Z) (v : Firmware.VM) : Firmware.VM :=
  after_frame [VM_EVENT_ID; code]
    (Firmware.set_eventBuffer (Firmware.here v + 2)
       (Firmware.set_memory
          (Brief.stage [VM_EVENT_ID; code] (Firmware.here v)
             (Firmware.memory v))
          (Firmware.set_dstack
             (<[Z.to_nat (Firmware.s v + 2) := VM_EVENT_ID]>
                (<[Z.to_nat (Firmware.s v + 1) := code]>
                   (Firmware.dstack v)))
             v))).

End Frames.
End Reflecta.

(** * A concrete configuration and sample states

    The sizes are those of [Firmware/libraries/Brief/Brief.h]; the
    environment answers every call with 0. *)

Definition brief_h : Config :=
  {| MEM_SIZE := 512;
     DATA_STACK_SIZE := 4;
     RETURN_STACK_SIZE := 4;
     platform := fun _ _ => 0;
     indeterminate := 0 |}.

Module Samples.
Import Brief.

(** The later copy after reset, nothing received. *)
Definition idle : VM := boot (cfg := brief_h) [].

(** One cell, 5, on the data stack. *)
Definition one_cell : VM := set_dstack [5; 0; 0; 0] (set_s 0 idle).

(** A full data stack. *)
Definition full : VM := set_dstack [1; 2; 3; 4] (set_s 3 idle).

(** A call to address [0x0102] at 0, followed by [follow]. *)
Definition at_call (follow : Z) : VM :=
  set_memory ([0x81; 0x02; follow] ++ replicate 509 0) idle.

(** [lit8 0xFF] at 0, the opcode fetched. *)
Definition at_lit8 : VM :=
  set_p 1 (set_memory ([1; 0xFF] ++ replicate 510 0) idle).

(** The definition frame [lit8 5; ret] waiting on the serial line. *)
Definition defining : VM := boot (cfg := brief_h) [3; 1; 5; 0].

(** The immediate frame [lit16 0xFFFF; forget] waiting on the serial
    line. *)
Definition forgetting : VM :=
  boot (cfg := brief_h) [0x84; 2; 0xFF; 0xFF; 41].

(** The packet [7, 0x01, 0x2C] packed at [here = 0], the cursor after
    it. *)
Definition packed : VM :=
  set_eventBuffer 3 (set_memory ([7; 1; 44] ++ replicate 509 0) idle).

(** The earlier copy after reset, with a full stack, and with [lit8 0xFF]
    at 0, the opcode fetched. *)
Definition fw_idle : Firmware.VM := Firmware.boot (cfg := brief_h).
Definition fw_full : Firmware.VM :=
  Firmware.set_dstack [1; 2; 3; 4] (Firmware.set_s 3 fw_idle).
Definition fw_at_lit8 : Firmware.VM :=
  Firmware.set_p 1
    (Firmware.set_memory ([1; 0xFF] ++ replicate 510 0) fw_idle).

(** The earlier copy holding the frame [lit8 5; ret] with flag byte 1. *)
Definition fw_frame : Firmware.VM :=
  Firmware.set_memory ([1; 5; 0; 1] ++ replicate 508 0) fw_idle.

End Samples.

(** * Further sample states *)

Module Cases.
Import Brief.

(** Two cells on the data stack, 5 below 7. *)
Definition two_cells : VM :=
  set_dstack [5; 7; 0; 0] (set_s 1 Samples.idle).

(** A full return stack. *)
Definition rfull : VM := set_rstack [1; 2; 3; 4] (set_r 3 Samples.idle).

(** [lit16 0x1234] at 0, the opcode fetched. *)
Definition at_lit16 : VM :=
  set_p 1 (set_memory ([2; 0x12; 0x34] ++ replicate 509 0) Samples.idle).

(** A call to address 0 at address 0, followed by a zero byte. *)
Definition spinning : VM :=
  set_memory ([0x80; 0; 0] ++ replicate 509 0) Samples.idle.

(** The stack pointer past the end of the data stack. *)
Definition overrun : VM := set_s 4 Samples.idle.

(** [here] at the end of [memory]. *)
Definition brimful : VM := set_here 512 Samples.idle.

(** The iteration counter at its most negative value. *)
Definition wrapped : VM := set_loopIterations (-32768) Samples.idle.

(** The immediate frame [lit8 5] waiting on the serial line. *)
Definition immediate : VM := boot (cfg := brief_h) [0x82; 1; 5].

(** The state a computation ends in. *)
Definition outcome (m : VMM unit) (st : VM) : VM :=
  match m st with
  | Ok _ st' | Fault _ st' => st'
  | OutOfFuel => st
  end.

(** The later copy when [setup] has run, boot event included, with [input]
    on the serial line. *)
Definition started (input : list Z) : VM :=
  outcome (setup (cfg := brief_h) (error (cfg := brief_h) 1))
    (boot (cfg := brief_h) input).

(** [n] runs of [m] in a row. *)
Fixpoint times (n : nat) (m : VMM unit) : VMM unit :=
  match n with
  | O => pure tt
  | S n' => m ;; times n' m
  end.

(** After [setup], the definition [lit8 5; ret] and the immediate frame
    [lit8 0]: 0 is on the stack, [here = last = 3]. *)
Definition before_forget : VM :=
  outcome (loop (cfg := brief_h) (error (cfg := brief_h) 1) 8 ;;
           loop (cfg := brief_h) (error (cfg := brief_h) 1) 8)
    (started ([3; 1; 5; 0] ++ [0x82; 1; 0])).

(** After [setup] and the immediate frame [lit16 9]: 9 is on the stack. *)
Definition started_with_9 : VM :=
  outcome (loop (cfg := brief_h) (error (cfg := brief_h) 1) 8)
    (started [0x83; 2; 0; 9]).

(** The earlier copy with the stack pointer past the end, with a length of
    3 on the stack, and holding the immediate frame [lit8 5] with flag byte
    0. *)
Definition fw_overrun : Firmware.VM := Firmware.set_s 4 Samples.fw_idle.
Definition fw_alloc : Firmware.VM :=
  Firmware.set_dstack [3; 0; 0; 0] (Firmware.set_s 0 Samples.fw_idle).
Definition fw_immediate : Firmware.VM :=
  Firmware.set_memory ([1; 5; 0] ++ replicate 509 0) Samples.fw_idle.

(** The earlier copy with [END], [ESCAPE] and 7 at [here]. *)
Definition fw_escapes : Firmware.VM :=
  Firmware.set_memory ([0xC0; 0xDB; 7] ++ replicate 509 0) Samples.fw_idle.

(** The link after reset with [input] on the serial line, waiting for a
    sequence number, and in recovery. *)
Definition listening (input : list Z) : Reflecta.Link :=
  Reflecta.mkLink Samples.fw_idle 0 0 Reflecta.WAITING_FOR_SEQUENCE
    0 0 0 0 0 input.
Definition recovering (input : list Z) : Reflecta.Link :=
  Reflecta.mkLink Samples.fw_idle 0 0 Reflecta.WAITING_FOR_RECOVERY
    0 0 0 0 0 input.

End Cases.

(** * Facts shared by the two copies *)

Lemma s16_id (x : Z) : -32768 <= x <= 32767 -> s16 x = x.
Proof. intros H. unfold s16. rewrite Z.mod_small; lia. Qed.

Lemma u8_id (x : Z) : 0 <= x < 256 -> u8 x = x.
Proof. intros H. unfold u8. apply Z.mod_small; lia. Qed.

Lemma u8_range (x : Z) : 0 <= u8 x < 256.
Proof. unfold u8. apply Z.mod_pos_bound. lia. Qed.

Lemma u8_u8 (x : Z) : u8 (u8 x) = u8 x.
Proof. apply u8_id, u8_range. Qed.

Lemma s16_u8 (x : Z) : s16 (u8 x) = u8 x.
Proof. pose proof (u8_range x). apply s16_id. lia. Qed.

Lemma s16_range (x : Z) : -32768 <= s16 x <= 32767.
Proof.
  unfold s16. pose proof (Z.mod_pos_bound (x + 32768) 65536). lia.
Qed.

Lemma bind_Ok {S A B} (m : M S A) (k : A -> M S B) st x st' :
  m st = Ok x st' -> bind m k st = k x st'.
Proof. intros H. unfold bind. now rewrite H. Qed.

Lemma bind_Fault {S A B} (m : M S A) (k : A -> M S B) st f st' :
  m st = Fault f st' -> bind m k st = Fault f st'.
Proof. intros H. unfold bind. now rewrite H. Qed.

Lemma bind_OutOfFuel {S A B} (m : M S A) (k : A -> M S B) st :
  m st = OutOfFuel -> bind m k st = OutOfFuel.
Proof. intros H. unfold bind. now rewrite H. Qed.

Lemma bind_get {S A B} (f : S -> A) (k : A -> M S B) st :
  bind (get f) k st = k (f st) st.
Proof. reflexivity. Qed.

Lemma bind_modify {S B} (f : S -> S) (k : unit -> M S B) st :
  bind (modify f) k st = k tt (f st).
Proof. reflexivity. Qed.

Lemma bind_pure {S A B} (x : A) (k : A -> M S B) st :
  bind (pure x) k st = k x st.
Proof. reflexivity. Qed.

Lemma bind_bind {S A B C} (m : M S A) (f : A -> M S B) (g : B -> M S C) st :
  bind (bind m f) g st = bind m (fun x => bind (f x) g) st.
Proof. unfold bind. destruct (m st); reflexivity. Qed.

Create Rewrite HintDb vm.
#[export] Hint Rewrite @bind_get @bind_modify @bind_pure @bind_bind : vm.

Ltac vm_norm := repeat (progress (autorewrite with vm; simpl)).

Lemma array_get_Some {S} (a : array) size (l : list Z) i v (st : S) :
  0 <= i < size -> l !! Z.to_nat i = Some v ->
  array_get a size l i st = Ok v st.
Proof.
  intros Hi Hl. unfold array_get.
  destruct (Z.leb_spec 0 i); [|lia]. destruct (Z.ltb_spec i size); [|lia].
  simpl. now rewrite Hl.
Qed.

Lemma array_set_in {S} (a : array) size (l : list Z) i v store (st : S) :
  0 <= i < size ->
  array_set a size l i v store st = Ok tt (store (<[Z.to_nat i := v]> l) st).
Proof.
  intros Hi. unfold array_set.
  destruct (Z.leb_spec 0 i); [|lia]. destruct (Z.ltb_spec i size); [|lia].
  reflexivity.
Qed.

Lemma array_set_out {S} (a : array) size (l : list Z) i v store (st : S) :
  i < 0 \/ size <= i ->
  array_set a size l i v store st = Fault (OutOfBounds a i) st.
Proof.
  intros Hi. unfold array_set.
  destruct (Z.leb_spec 0 i); destruct (Z.ltb_spec i size); try lia;
    reflexivity.
Qed.


Lemma forall_below (n : nat) (f : Z -> bool) :
  forallb f (map Z.of_nat (seq 0 n)) = true ->
  forall b, 0 <= b < Z.of_nat n -> f b = true.
Proof.
  intros H b Hb. rewrite forallb_forall in H. apply H.
  apply in_map_iff. exists (Z.to_nat b). split; [lia|]. apply in_seq. lia.
Qed.

Lemma call_flag (b0 : Z) :
  0 <= b0 < 256 -> (Z.land b0 0x80 =? 0) = (b0 <? 128).
Proof.
  intros H.
  pose proof (forall_below 256
    (fun b => Bool.eqb (Z.land b 0x80 =? 0) (b <? 128))
    ltac:(vm_compute; reflexivity) b0 H) as E.
  now apply Bool.eqb_prop in E.
Qed.

Lemma call_target (b0 b1 : Z) :
  0 <= b0 < 256 -> 0 <= b1 < 256 ->
  s16 (Z.lor (Z.land (Z.shiftl b0 8) 0x7F00) b1) =
  Z.lor (Z.shiftl (Z.land b0 0x7F) 8) b1.
Proof.
  intros H0 H1.
  pose proof (forall_below 256
    (fun x => forallb (fun y =>
       s16 (Z.lor (Z.land (Z.shiftl x 8) 0x7F00) y) =?
       Z.lor (Z.shiftl (Z.land x 0x7F) 8) y) (map Z.of_nat (seq 0 256)))
    ltac:(vm_compute; reflexivity) b0 H0) as E.
  cbv beta in E. apply (forall_below 256 _ E) in H1. now apply Z.eqb_eq.
Qed.

Lemma call_target_range (b0 b1 : Z) :
  0 <= b0 < 256 -> 0 <= b1 < 256 ->
  0 <= Z.lor (Z.shiftl (Z.land b0 0x7F) 8) b1 < 32768.
Proof.
  intros H0 H1.
  pose proof (forall_below 256
    (fun x => forallb (fun y =>
       (0 <=? Z.lor (Z.shiftl (Z.land x 0x7F) 8) y) &&
       (Z.lor (Z.shiftl (Z.land x 0x7F) 8) y <? 32768))
       (map Z.of_nat (seq 0 256)))
    ltac:(vm_compute; reflexivity) b0 H0) as E.
  cbv beta in E. apply (forall_below 256 _ E) in H1.
  apply andb_prop in H1 as [Ha Hb]. lia.
Qed.

Lemma header_byte (b : Z) :
  0 <= b < 256 ->
  (Z.land (s8 b) 0x80 =? 0x80) = (128 <=? b) /\
  s8 (Z.land (s8 b) 0x7F) = b mod 128.
Proof.
  intros H.
  pose proof (forall_below 256
    (fun b => Bool.eqb (Z.land (s8 b) 0x80 =? 0x80) (128 <=? b) &&
              (s8 (Z.land (s8 b) 0x7F) =? b mod 128))
    ltac:(vm_compute; reflexivity) b H) as E.
  cbv beta in E. apply andb_prop in E as [E1 E2].
  split; [now apply Bool.eqb_prop | now apply Z.eqb_eq].
Qed.

(** * Facts about the later copy *)

Module BriefFacts.
Import Brief.

(** Two states are equal when their fields are. *)
Lemma VM_ext (a b : VM) :
  memory a = memory b -> dstack a = dstack b -> s a = s b ->
  rstack a = rstack b -> r a = r b -> p a = p b ->
  here a = here b -> last a = last b -> eventBuffer a = eventBuffer b ->
  loopword a = loopword b -> loopIterations a = loopIterations b ->
  isrs a = isrs b -> tx a = tx b -> rx a = rx b -> calls a = calls b ->
  a = b.
Proof. destruct a, b; simpl; intros; subst; reflexivity. Qed.

Ltac vm_fields :=
  try match goal with |- Ok _ _ = Ok _ _ => f_equal end;
  apply VM_ext; simpl.

Section Facts.
Context {cfg : Config}.
Variable err : Z -> VMM unit.


Lemma push_room x st :
  -1 <= s st < DATA_STACK_SIZE - 1 ->
  push err x st =
  Ok tt (set_dstack (<[Z.to_nat (s st + 1) := s16 x]> (dstack st))
           (set_s (s st + 1) st)).
Proof.
  intros H. unfold push, bind, get, modify.
  destruct (Z.geb_spec (s st) DATA_STACK_SIZE); [lia|].
  unfold dstack_put. rewrite array_set_in by (simpl; lia). reflexivity.
Qed.

Lemma pop_some x st :
  0 <= s st < DATA_STACK_SIZE ->
  dstack st !! Z.to_nat (s st) = Some x ->
  pop err st = Ok x (set_s (s st - 1) st).
Proof.
  intros H Hx. unfold pop, bind, get, modify, pure.
  destruct (Z.ltb_spec (s st) 0); [lia|].
  unfold dstack_at. rewrite (array_get_Some _ _ _ _ x) by assumption.
  reflexivity.
Qed.

Lemma memset_below a v st :
  0 <= s16 a < MEM_SIZE ->
  memset err a v st =
  Ok tt (set_memory (<[Z.to_nat (s16 a) := u8 v]> (memory st)) st).
Proof.
  intros H. unfold memset.
  destruct (Z.geb_spec (s16 a) MEM_SIZE); [lia|].
  unfold memory_put. now rewrite array_set_in.
Qed.

Lemma memget_inside a b st :
  0 <= s16 a < MEM_SIZE ->
  memory st !! Z.to_nat (s16 a) = Some b ->
  memget err a st = Ok b st.
Proof.
  intros H Hb. unfold memget.
  destruct (Z.ltb_spec (s16 a) 0); [lia|].
  destruct (Z.geb_spec (s16 a) MEM_SIZE); [lia|].
  simpl. unfold memory_at. now apply array_get_Some.
Qed.

(** ** Sending an event *)

(** The bytes [eventFooter] reads back are [bytes], stored from
    [here + i] on. *)
Lemma eventFooter_loop_sends (bytes : list Z) : forall i st,
  MEM_SIZE <= 32767 ->
  0 <= here st + i ->
  here st + i + Z.of_nat (length bytes) <= MEM_SIZE ->
  (forall j : nat, (j < length bytes)%nat ->
     memory st !! (Z.to_nat (here st + i) + j)%nat = bytes !! j) ->
  eventFooter_loop err (length bytes) i st =
  Ok tt (set_tx (tx st ++ map u8 bytes) st).
Proof.
  induction bytes as [|b bytes IH]; intros i st HM Hlo Hhi Hmem.
  - simpl. rewrite app_nil_r. unfold pure. now destruct st.
  - simpl length in *. cbn [eventFooter_loop]. vm_norm.
    assert (Hb : memory st !! Z.to_nat (here st + i) = Some b).
    { specialize (Hmem 0%nat ltac:(lia)). now rewrite Nat.add_0_r in Hmem. }
    erewrite bind_Ok; cycle 1.
    { apply memget_inside; rewrite s16_id by lia; [lia | exact Hb]. }
    unfold Serial_write. vm_norm.
    rewrite IH; simpl; try lia.
    + vm_fields; auto. now rewrite <- app_assoc.
    + intros j Hj. specialize (Hmem (S j) ltac:(lia)). simpl in Hmem.
      rewrite <- Hmem. f_equal. lia.
Qed.

Lemma eventFooter_sends (bytes : list Z) st :
  MEM_SIZE <= 32767 ->
  0 <= here st ->
  here st + Z.of_nat (length bytes) <= MEM_SIZE ->
  u8 (eventBuffer st - here st) = Z.of_nat (length bytes) ->
  (forall j : nat, (j < length bytes)%nat ->
     memory st !! (Z.to_nat (here st) + j)%nat = bytes !! j) ->
  eventFooter err st =
  Ok tt (set_tx (tx st ++ u8 (Z.of_nat (length bytes) - 1) :: map u8 bytes)
           st).
Proof.
  intros HM Hlo Hhi Hlen Hmem. unfold eventFooter. vm_norm.
  rewrite Hlen, Nat2Z.id. unfold Serial_write. vm_norm.
  rewrite eventFooter_loop_sends; simpl; rewrite ?Z.add_0_r; try lia; auto.
  vm_fields; auto. rewrite <- app_assoc. reflexivity.
Qed.


Lemma body_length (val : Z) : (length (body val) <= 2)%nat.
Proof.
  unfold body. destruct (val =? 0); [simpl; lia|].
  destruct (_ && _); simpl; lia.
Qed.

Lemma event_sends id val st :
  sized st -> MEM_SIZE <= 32767 ->
  0 <= here st -> here st + 2 < MEM_SIZE ->
  -1 <= s st < DATA_STACK_SIZE - 1 ->
  0 <= id < 256 -> -32768 <= val <= 32767 ->
  event err id val st = Ok tt (sent id val st).
Proof.
  intros (Hm & Hd & Hr) HM Hlo Hhi Hs Hid Hval.
  unfold event. rewrite (u8_id id), (s16_id val) by lia.
  rewrite (bind_Ok _ _ _ _ _ (push_room _ _ Hs)).
  unfold eventHeader. vm_norm.
  erewrite (bind_Ok (pop err)); cycle 1.
  { apply pop_some; simpl; [lia|]. apply list_lookup_insert_eq. lia. }
  unfold post_incr. vm_norm.
  erewrite (bind_Ok (memset err _ _)); cycle 1.
  { apply memset_below. rewrite s16_id; simpl; lia. }
  simpl. rewrite !(s16_id (here st)), (s16_id id), (u8_id id) by lia.
  rewrite (s16_id (here st + 1)) by lia.
  replace (s st + 1 - 1) with (s st) by lia.
  unfold sent, body.
  destruct (Z.eqb_spec val 0) as [->|Hnz].
  - vm_norm.
    rewrite (eventFooter_sends [id]); simpl; try lia.
    + vm_fields; auto; try lia. now rewrite (u8_id id) by lia.
    + rewrite u8_id; lia.
    + intros [|j] Hj; [|lia]. rewrite Nat.add_0_r.
      apply list_lookup_insert_eq. lia.
  - destruct ((val >=? INT8_MIN) && (val <=? INT8_MAX)).
    + rewrite bind_bind.
      erewrite (bind_Ok (push err _)); cycle 1.
      { apply push_room. simpl. lia. }
      unfold eventBody8, post_incr. vm_norm.
      erewrite (bind_Ok (pop err)); cycle 1.
      { apply pop_some; simpl; [lia|]. apply list_lookup_insert_eq.
        rewrite length_insert. lia. }
      vm_norm.
      erewrite (bind_Ok (memset err _ _)); cycle 1.
      { apply memset_below. rewrite s16_id; simpl; lia. }
      simpl. rewrite !(s16_id val), (s16_id (here st + 1)) by lia.
      rewrite (s16_id (here st + 1 + 1)) by lia.
      rewrite (eventFooter_sends [id; u8 val]); simpl; try lia.
      * vm_fields; auto; try lia.
        -- now rewrite list_insert_insert_eq.
        -- now rewrite (u8_id id), u8_u8 by lia.
      * rewrite u8_id; lia.
      * intros [|[|j]] Hj; [| |lia]; simpl.
        -- rewrite Nat.add_0_r, list_lookup_insert_ne by lia.
           apply list_lookup_insert_eq. lia.
        -- replace (Z.to_nat (here st) + 1)%nat
             with (Z.to_nat (here st + 1)) by lia.
           apply list_lookup_insert_eq. rewrite length_insert. lia.
    + rewrite bind_bind.
      erewrite (bind_Ok (push err _)); cycle 1.
      { apply push_room. simpl. lia. }
      unfold eventBody16, post_incr. vm_norm.
      erewrite (bind_Ok (pop err)); cycle 1.
      { apply pop_some; simpl; [lia|]. apply list_lookup_insert_eq.
        rewrite length_insert. lia. }
      vm_norm.
      erewrite (bind_Ok (memset err _ _)); cycle 1.
      { apply memset_below. rewrite s16_id; simpl; lia. }
      vm_norm.
      erewrite (bind_Ok (memset err _ _)); cycle 1.
      { apply memset_below. rewrite !s16_id; simpl; rewrite ?s16_id; lia. }
      simpl. rewrite !(s16_id val), (s16_id (here st + 1)) by lia.
      rewrite !(s16_id (here st + 1 + 1)) by lia.
      rewrite (s16_id (here st + 1 + 1 + 1)) by lia.
      rewrite (eventFooter_sends [id; u8 (Z.shiftr val 8); u8 val]);
        simpl; try lia.
      * vm_fields; auto; try lia.
        -- now rewrite list_insert_insert_eq.
        -- now rewrite (u8_id id), !u8_u8 by lia.
      * rewrite u8_id; lia.
      * intros [|[|[|j]]] Hj; [| | |lia]; simpl.
        -- rewrite Nat.add_0_r, !list_lookup_insert_ne by lia.
           apply list_lookup_insert_eq. lia.
        -- replace (Z.to_nat (here st) + 1)%nat
             with (Z.to_nat (here st + 1)) by lia.
           rewrite list_lookup_insert_ne by lia.
           apply list_lookup_insert_eq. rewrite length_insert. lia.
        -- replace (Z.to_nat (here st) + 2)%nat
             with (Z.to_nat (here st + 1 + 1)) by lia.
           apply list_lookup_insert_eq. rewrite !length_insert. lia.
Qed.

(** ** Memory access outside the dictionary *)


Lemma memset_above a v st :
  MEM_SIZE <= s16 a ->
  memset err a v st = err VM_ERROR_OUT_OF_MEMORY st.
Proof.
  intros H. unfold memset.
  destruct (Z.geb_spec (s16 a) MEM_SIZE); [reflexivity | lia].
Qed.

(** A store at a negative address passes the only test there is and
    indexes [memory] below its first element. *)
Lemma memset_negative a v st :
  s16 a < 0 -> 0 <= MEM_SIZE ->
  memset err a v st = Fault (OutOfBounds Memory (s16 a)) st.
Proof.
  intros H HM. unfold memset.
  destruct (Z.geb_spec (s16 a) MEM_SIZE); [lia|].
  unfold memory_put. apply array_set_out. lia.
Qed.

(** ** The data stack at its limits *)

Lemma push_full x st :
  s st = DATA_STACK_SIZE - 1 -> 0 <= DATA_STACK_SIZE ->
  push err x st =
  Fault (OutOfBounds Dstack DATA_STACK_SIZE) (set_s DATA_STACK_SIZE st).
Proof.
  intros Hs HN. unfold push. vm_norm.
  destruct (Z.geb_spec (s st) DATA_STACK_SIZE); [lia|]. vm_norm.
  unfold dstack_put. rewrite array_set_out by lia.
  rewrite Hs. now replace (DATA_STACK_SIZE - 1 + 1) with DATA_STACK_SIZE by lia.
Qed.

Lemma pop_empty st :
  s st < 0 ->
  pop err st =
  (err VM_ERROR_DATA_STACK_UNDERFLOW ;; pure indeterminate)%vm st.
Proof.
  intros Hs. unfold pop. vm_norm.
  destruct (Z.ltb_spec (s st) 0); [reflexivity | lia].
Qed.

Lemma rpush_room x st :
  -1 <= r st < RETURN_STACK_SIZE - 1 ->
  rpush err x st =
  Ok tt (set_rstack (<[Z.to_nat (r st + 1) := s16 x]> (rstack st))
           (set_r (r st + 1) st)).
Proof.
  intros H. unfold rpush. vm_norm.
  destruct (Z.geb_spec (r st) RETURN_STACK_SIZE); [lia|]. vm_norm.
  unfold rstack_put. rewrite array_set_in by (simpl; lia). reflexivity.
Qed.

(** ** Decoding a call *)




Lemma step_call b0 b1 nxt st :
  MEM_SIZE <= 32767 ->
  0 <= p st -> p st + 2 < MEM_SIZE ->
  memory st !! Z.to_nat (p st) = Some b0 ->
  memory st !! Z.to_nat (p st + 1) = Some b1 ->
  memory st !! Z.to_nat (p st + 2) = Some nxt ->
  128 <= b0 < 256 -> 0 <= b1 < 256 ->
  let target := Z.lor (Z.shiftl (Z.land b0 0x7F) 8) b1 in
  (nxt = 0 -> step err st = Ok tt (set_p target st)) /\
  (nxt <> 0 -> -1 <= r st < RETURN_STACK_SIZE - 1 ->
   step err st =
   Ok tt (set_p target
            (set_rstack (<[Z.to_nat (r st + 1) := p st + 2]> (rstack st))
               (set_r (r st + 1) st)))).
Proof.
  intros HM Hlo Hhi E0 E1 E2 H0 H1 target.
  assert (Hstep : step err st =
    (when (negb (nxt =? 0)) (pc <- get p ;; rpush err (pc + 1)) ;;
     pc <- get p ;; lo <- memget err pc ;;
     modify (set_p (s16 (Z.lor (Z.land (Z.shiftl b0 8) 0x7F00) lo))))%vm
    (set_p (p st + 1) st)).
  { unfold step, post_incr. vm_norm.
    rewrite (s16_id (p st + 1)) by lia.
    erewrite (bind_Ok (memget err _)); cycle 1.
    { apply memget_inside; rewrite s16_id by lia; simpl; [lia | exact E0]. }
    rewrite call_flag by lia. destruct (Z.ltb_spec b0 128); [lia|].
    vm_norm.
    erewrite (bind_Ok (memget err _)); cycle 1.
    { apply memget_inside; rewrite s16_id by lia; simpl; [lia|].
      replace (p st + 1 + 1) with (p st + 2) by lia. exact E2. }
    reflexivity. }
  rewrite Hstep. split.
  - intros ->. simpl. vm_norm.
    erewrite (bind_Ok (memget err _)); cycle 1.
    { apply memget_inside; rewrite s16_id by (simpl; lia); simpl;
        [lia | exact E1]. }
    rewrite call_target by lia. unfold modify. vm_fields; auto.
  - intros Hn Hr. destruct (Z.eqb_spec nxt 0); [contradiction|]. simpl.
    vm_norm.
    erewrite (bind_Ok (rpush err _)); cycle 1.
    { apply rpush_room. simpl. lia. }
    vm_norm.
    erewrite (bind_Ok (memget err _)); cycle 1.
    { apply memget_inside; rewrite s16_id by (simpl; lia); simpl;
        [lia | exact E1]. }
    rewrite call_target by lia. unfold modify. vm_fields; auto.
    rewrite s16_id by lia. f_equal. lia.
Qed.

(** ** Frame intake *)

Lemma Serial_read_cons b l st :
  rx st = b :: l -> Serial_read st = Ok (u8 b) (set_rx l st).
Proof. intros H. unfold Serial_read. now rewrite H. Qed.

Lemma receive_stores (payload : list Z) : forall st rest,
  MEM_SIZE <= 32767 ->
  0 <= here st ->
  here st + Z.of_nat (length payload) <= MEM_SIZE ->
  rx st = payload ++ rest ->
  receive err (length payload) st =
  Ok tt (set_rx rest
           (set_here (here st + Z.of_nat (length payload))
              (set_memory (stage (map u8 payload) (here st) (memory st))
                 st))).
Proof.
  induction payload as [|b payload IH]; intros st rest HM Hlo Hhi Hrx.
  - simpl in *. unfold pure. vm_fields; auto. lia.
  - simpl length in *. cbn [receive]. simpl in Hrx.
    rewrite (bind_Ok _ _ _ _ _ (Serial_read_cons _ _ _ Hrx)).
    unfold post_incr. vm_norm.
    erewrite (bind_Ok (memset err _ _)); cycle 1.
    { apply memset_below. rewrite s16_id; simpl; lia. }
    rewrite (IH _ rest); simpl; rewrite ?(s16_id (here st + 1)) by lia;
      try lia; auto.
    vm_fields; auto; [|lia].
    now rewrite (s16_id (here st)), u8_u8 by lia.
Qed.


(** A definition frame: header [b < 128], then [b] payload bytes. *)
Lemma loop_definition steps b (payload rest : list Z) st :
  MEM_SIZE <= 32767 ->
  0 <= here st ->
  0 <= b < 128 -> Z.of_nat (length payload) = b ->
  here st + b <= MEM_SIZE ->
  rx st = b :: payload ++ rest ->
  loopword st < 0 ->
  loop err steps st =
  Ok tt (set_last (here st + b)
           (set_rx rest
              (set_here (here st + b)
                 (set_memory (stage (map u8 payload) (here st) (memory st))
                    st)))).
Proof.
  intros HM Hlo Hb Hlen Hhi Hrx Hw. unfold loop. vm_norm.
  rewrite Hrx. rewrite bool_decide_eq_false_2 by discriminate.
  rewrite bind_bind.
  rewrite (bind_Ok _ _ _ _ _ (Serial_read_cons _ _ _ Hrx)).
  rewrite (u8_id b) by lia.
  destruct (header_byte b ltac:(lia)) as [-> ->].
  destruct (Z.leb_spec 128 b); [lia|].
  rewrite Z.mod_small by lia. rewrite <- Hlen, Nat2Z.id.
  rewrite bind_bind.
  erewrite (bind_Ok (receive err _)); cycle 1.
  { apply receive_stores; simpl; try lia. reflexivity. }
  vm_norm.
  destruct (Z.geb_spec (loopword st) 0); [lia|].
  unfold pure. vm_fields; auto.
Qed.

(** ** Literals and the dictionary pointer *)

(** [lit8] of this copy pushes the operand byte as it is. *)
Lemma lit8_pushes b st :
  MEM_SIZE <= 32767 ->
  0 <= p st < MEM_SIZE ->
  memory st !! Z.to_nat (p st) = Some b ->
  0 <= b < 256 ->
  -1 <= s st < DATA_STACK_SIZE - 1 ->
  lit8 err st =
  Ok tt (set_dstack (<[Z.to_nat (s st + 1) := b]> (dstack st))
           (set_s (s st + 1) (set_p (p st + 1) st))).
Proof.
  intros HM Hp Hb Hr Hs. unfold lit8, post_incr. vm_norm.
  erewrite (bind_Ok (memget err _)); cycle 1.
  { apply memget_inside; rewrite s16_id by lia; simpl; [lia | exact Hb]. }
  rewrite push_room by (simpl; lia). simpl.
  rewrite (s16_id (p st + 1)), (s16_id b) by lia.
  reflexivity.
Qed.

Lemma forget_moves addr st :
  0 <= s st < DATA_STACK_SIZE ->
  dstack st !! Z.to_nat (s st) = Some addr ->
  forget err st =
  Ok tt (if addr <? here st
         then set_here addr (set_s (s st - 1) st)
         else set_s (s st - 1) st).
Proof.
  intros Hs Hx. unfold forget.
  erewrite (bind_Ok (pop err)); cycle 1.
  { apply pop_some; eauto. }
  vm_norm. now destruct (addr <? here st).
Qed.

Lemma resetBoard_resets st :
  resetBoard st =
  Ok tt (set_loopIterations 0
           (set_loopword (-1) (set_here 0 (set_last 0 (set_s (-1) st))))).
Proof. reflexivity. Qed.

End Facts.

Section ErrorFacts.
Context {cfg : Config}.

(** ** Reporting an error *)

(** [error] hands the code to [event] as the id and [VM_EVENT_ID] as the
    value. *)
Lemma error_sends fuel code st :
  sized st -> MEM_SIZE <= 32767 ->
  0 <= here st -> here st + 2 < MEM_SIZE ->
  -1 <= s st < DATA_STACK_SIZE - 1 ->
  0 <= code < 256 ->
  error (S fuel) code st = Ok tt (sent code VM_EVENT_ID st).
Proof.
  intros Hsz HM Hlo Hhi Hs Hc. cbn [error]. rewrite (u8_id code) by lia.
  apply (event_sends (error fuel)); auto. unfold VM_EVENT_ID. lia.
Qed.

Lemma body_VM_EVENT_ID : body VM_EVENT_ID = [0; 254].
Proof. reflexivity. Qed.

(** The state an error report leaves, field by field. *)
Lemma sent_error code st :
  sent code VM_EVENT_ID st =
  mkVM (<[Z.to_nat (here st + 2) := 254]>
          (<[Z.to_nat (here st + 1) := 0]>
             (<[Z.to_nat (here st) := code]> (memory st))))
       (<[Z.to_nat (s st + 1) := 254]> (dstack st))
       (s st) (rstack st) (r st) (p st) (here st) (last st) (here st + 3)
       (loopword st) (loopIterations st) (isrs st)
       (tx st ++ [2; code; 0; 254]) (rx st) (calls st).
Proof.
  unfold sent. rewrite body_VM_EVENT_ID. vm_fields; auto; try lia.
  now replace (here st + 1 + 1) with (here st + 2) by lia.
Qed.

(** ** Which instructions move the dictionary cursors *)


Lemma keeps_pure {A} (x : A) : keeps (pure x).
Proof. intros st. simpl. auto. Qed.

Lemma keeps_get {A} (f : VM -> A) : keeps (get f).
Proof. intros st. simpl. auto. Qed.

Lemma keeps_crash {A} (f : fault) : keeps (@crash VM A f).
Proof. intros st. simpl. auto. Qed.

Lemma keeps_modify (f : VM -> VM) :
  (forall st, here (f st) = here st /\ last (f st) = last st) ->
  keeps (modify f).
Proof. intros H st. simpl. auto. Qed.

Lemma keeps_bind {A B} (m : VMM A) (k : A -> VMM B) :
  keeps m -> (forall x, keeps (k x)) -> keeps (bind m k).
Proof.
  intros Hm Hk st. unfold bind. specialize (Hm st).
  destruct (m st) as [x st1|f st1|]; auto.
  specialize (Hk x st1). destruct (k x st1); auto; split; intuition congruence.
Qed.

Lemma keeps_when (b : bool) (m : VMM unit) : keeps m -> keeps (when b m).
Proof. destruct b; simpl; auto using keeps_pure. Qed.

Lemma keeps_array_get a size (g : VM -> list Z) i :
  keeps (fun st => array_get a size (g st) i st).
Proof.
  intros st. unfold array_get.
  destruct (_ && _); [destruct (_ !! _)|]; simpl; auto.
Qed.

Lemma keeps_array_set a size (g : VM -> list Z) i v store :
  (forall l st, here (store l st) = here st /\ last (store l st) = last st) ->
  keeps (fun st => array_set a size (g st) i v store st).
Proof.
  intros H st. unfold array_set. destruct (_ && _); simpl; auto.
Qed.

Lemma keeps_arduino c : keeps (arduino c).
Proof. intros st. simpl. auto. Qed.

Section Keeps.
Variable err : Z -> VMM unit.
Hypothesis err_keeps : forall c, keeps (err c).

Ltac keeps_step :=
  match goal with
  | |- keeps (bind _ _) => apply keeps_bind; [|intros ?]
  | |- keeps (pure _) => apply keeps_pure
  | |- keeps (get _) => apply keeps_get
  | |- keeps (crash _) => apply keeps_crash
  | |- keeps (modify _) =>
      apply keeps_modify; intros ?; split; reflexivity
  | |- keeps (when _ _) => apply keeps_when
  | |- keeps (arduino _) => apply keeps_arduino
  | |- keeps (err _) => apply err_keeps
  | |- keeps (memory_at _) => apply keeps_array_get
  | |- keeps (dstack_at _) => apply keeps_array_get
  | |- keeps (rstack_at _) => apply keeps_array_get
  | |- keeps (memory_put _ _) =>
      apply keeps_array_set; intros ? ?; split; reflexivity
  | |- keeps (dstack_put _ _) =>
      apply keeps_array_set; intros ? ?; split; reflexivity
  | |- keeps (rstack_put _ _) =>
      apply keeps_array_set; intros ? ?; split; reflexivity
  | |- keeps (isrs_put _ _) =>
      apply keeps_array_set; intros ? ?; split; reflexivity
  | |- keeps (if ?b then _ else _) => destruct b
  | |- keeps (let _ := _ in _) => cbv zeta
  end.

Ltac keeps_go := cbv zeta; repeat keeps_step.

Lemma keeps_memget a : keeps (memget err a).
Proof. unfold memget. keeps_go. Qed.

Lemma keeps_memset a v : keeps (memset err a v).
Proof. unfold memset. keeps_go. Qed.

Lemma keeps_push x : keeps (push err x).
Proof. unfold push. keeps_go. Qed.

Lemma keeps_pop : keeps (pop err).
Proof. unfold pop. keeps_go. Qed.

Lemma keeps_rpush x : keeps (rpush err x).
Proof. unfold rpush. keeps_go. Qed.

Lemma keeps_rpop : keeps (rpop err).
Proof. unfold rpop. keeps_go. Qed.

Lemma keeps_next_p : keeps (post_incr p set_p).
Proof. unfold post_incr. keeps_go. Qed.

Lemma keeps_next_eventBuffer : keeps (post_incr eventBuffer set_eventBuffer).
Proof. unfold post_incr. keeps_go. Qed.

Lemma keeps_top : keeps top.
Proof. unfold top. keeps_go. Qed.

Lemma keeps_set_top v : keeps (set_top v).
Proof. unfold set_top. keeps_go. Qed.

Ltac keeps_op :=
  first [ apply keeps_memget | apply keeps_memset | apply keeps_push
        | apply keeps_pop | apply keeps_rpush | apply keeps_rpop
        | apply keeps_next_p | apply keeps_next_eventBuffer
        | apply keeps_top | apply keeps_set_top | keeps_step ].

Ltac keeps_all := cbv zeta; repeat keeps_op.

Lemma keeps_eventFooter_loop n : forall i, keeps (eventFooter_loop err n i).
Proof.
  induction n as [|n IH]; intros i; cbn [eventFooter_loop]; keeps_all.
  apply IH.
Qed.

Lemma keeps_eventHeader : keeps (eventHeader err).
Proof. unfold eventHeader. keeps_all. Qed.

Lemma keeps_eventBody8 : keeps (eventBody8 err).
Proof. unfold eventBody8. keeps_all. Qed.

Lemma keeps_eventBody16 : keeps (eventBody16 err).
Proof. unfold eventBody16. keeps_all. Qed.

Lemma keeps_eventFooter : keeps (eventFooter err).
Proof.
  unfold eventFooter, Serial_write. keeps_all. apply keeps_eventFooter_loop.
Qed.

Lemma keeps_event id val : keeps (event err id val).
Proof.
  unfold event. keeps_all;
    first [ apply keeps_eventHeader | apply keeps_eventBody8
          | apply keeps_eventBody16 | apply keeps_eventFooter ].
Qed.

Lemma keeps_mem16 a : keeps (mem16 err a).
Proof. unfold mem16. keeps_all. Qed.

Lemma keeps_binary op : keeps (binary err op).
Proof. unfold binary. keeps_all. Qed.

Lemma keeps_unary op : keeps (unary op).
Proof. unfold unary. keeps_all. Qed.

Lemma keeps_roll_loop k : forall i, keeps (roll_loop k i).
Proof.
  induction k as [|k IH]; intros i; cbn [roll_loop]; keeps_all. apply IH.
Qed.

Lemma keeps_attach (mode : Z) (lines : list Z) :
  keeps (foldr (fun k rest => _ <- arduino (AttachInterrupt k mode) ;; rest)
               (pure tt) lines).
Proof. induction lines as [|k lines IH]; simpl; keeps_all. apply IH. Qed.

(** Every bound instruction except [forget] (41) and [resetBoard] (48). *)
Lemma instructions_keep i f :
  instructions err i = Some f -> i <> 41 -> i <> 48 -> keeps f.
Proof.
  intros H H41 H48. unfold instructions in H.
  destruct i as [|q|q]; try discriminate;
    repeat (match goal with
            | q : positive |- _ => destruct q; try discriminate
            end);
    try contradiction; injection H as <-;
    unfold ret, eventOp, fetch8, store8, fetch16, store16, lit8, lit16,
      add, sub, mul, div, mod_, andb, orb, xorb, shift, eq, neq, gt, geq,
      lt, leq, notb, neg, inc, dec, drop, dup, swap, pick, roll, clr,
      pushr, popr, peekr, call, quote, choice, chooseIf, next, nop,
      loopTicks, setLoop, stopLoop, pinMode, digitalRead, digitalWrite,
      analogRead, analogWrite, attachISR, detachISR, milliseconds, pulseIn;
    keeps_all;
    first [ apply keeps_eventHeader | apply keeps_eventBody8
          | apply keeps_eventBody16 | apply keeps_eventFooter
          | apply keeps_event | apply keeps_mem16 | apply keeps_binary
          | apply keeps_unary | apply keeps_roll_loop | apply keeps_attach
          | idtac ].
Qed.

End Keeps.

Lemma error_keeps fuel : forall c, keeps (error fuel c).
Proof.
  induction fuel as [|fuel IH]; intros c; cbn [error].
  - intros st. exact I.
  - now apply keeps_event.
Qed.

End ErrorFacts.
End BriefFacts.

(** * Facts about the earlier copy *)

Module FirmwareFacts.
Import Firmware.

Lemma fw_VM_ext (a b : VM) :
  memory a = memory b -> dstack a = dstack b -> s a = s b ->
  rstack a = rstack b -> r a = r b -> p a = p b ->
  here a = here b -> last a = last b -> locals a = locals b ->
  eventBuffer a = eventBuffer b ->
  loopword a = loopword b -> loopIterations a = loopIterations b ->
  isrs a = isrs b -> readSequence a = readSequence b ->
  writeSequence a = writeSequence b -> writeChecksum a = writeChecksum b ->
  tx a = tx b -> calls a = calls b ->
  a = b.
Proof. destruct a, b; simpl; intros; subst; reflexivity. Qed.

Ltac vm_fields :=
  try match goal with |- Ok _ _ = Ok _ _ => f_equal end;
  apply fw_VM_ext; simpl.

Section Facts.
Context {cfg : Config}.
Variable err : Z -> VMM unit.

Lemma fw_push_room x st :
  -1 <= s st < DATA_STACK_SIZE - 1 ->
  push err x st =
  Ok tt (set_dstack (<[Z.to_nat (s st + 1) := s16 x]> (dstack st))
           (set_s (s st + 1) st)).
Proof.
  intros H. unfold push. vm_norm.
  destruct (Z.geb_spec (s st) DATA_STACK_SIZE); [lia|]. vm_norm.
  unfold dstack_put. rewrite array_set_in by (simpl; lia). reflexivity.
Qed.

(** The same test as in the later copy, one cell late. *)
Lemma fw_push_full x st :
  s st = DATA_STACK_SIZE - 1 -> 0 <= DATA_STACK_SIZE ->
  push err x st =
  Fault (OutOfBounds Dstack DATA_STACK_SIZE) (set_s DATA_STACK_SIZE st).
Proof.
  intros Hs HN. unfold push. vm_norm.
  destruct (Z.geb_spec (s st) DATA_STACK_SIZE); [lia|]. vm_norm.
  unfold dstack_put. rewrite array_set_out by lia.
  rewrite Hs. now replace (DATA_STACK_SIZE - 1 + 1) with DATA_STACK_SIZE by lia.
Qed.

Lemma mem_inside a b st :
  0 <= s16 a < MEM_SIZE ->
  memory st !! Z.to_nat (s16 a) = Some b ->
  mem err a st = Ok b st.
Proof.
  intros H Hb. unfold mem.
  destruct (Z.ltb_spec (s16 a) 0); [lia|].
  destruct (Z.geb_spec (s16 a) MEM_SIZE); [lia|].
  simpl. unfold memory_at. now apply array_get_Some.
Qed.

(** [lit8] of this copy casts the operand to [int8_t]. *)
Lemma fw_lit8_pushes b st :
  MEM_SIZE <= 32767 ->
  0 <= p st < MEM_SIZE ->
  memory st !! Z.to_nat (p st) = Some b ->
  0 <= b < 256 ->
  -1 <= s st < DATA_STACK_SIZE - 1 ->
  lit8 err st =
  Ok tt (set_dstack (<[Z.to_nat (s st + 1) := s8 b]> (dstack st))
           (set_s (s st + 1) (set_p (p st + 1) st))).
Proof.
  intros HM Hp Hb Hr Hs. unfold lit8, post_incr. vm_norm.
  erewrite (bind_Ok (mem err _)); cycle 1.
  { apply mem_inside; rewrite s16_id by lia; simpl; [lia | exact Hb]. }
  rewrite fw_push_room by (simpl; lia). simpl.
  rewrite (s16_id (p st + 1)) by lia.
  rewrite (s16_id (s8 b)). 2:{ unfold s8.
    pose proof (Z.mod_pos_bound (b + 128) 256). lia. }
  reflexivity.
Qed.

(** A definition frame: [frameLength - 1] bytes of code followed by a
    non-zero flag byte, below [locals]. *)
Lemma frameReceived_definition steps sequence frameLength flag st :
  MEM_SIZE <= 32767 ->
  0 <= here st ->
  1 <= frameLength < 256 ->
  here st + (frameLength - 1) < MEM_SIZE ->
  memory st !! Z.to_nat (here st + (frameLength - 1)) = Some flag ->
  flag <> 0 ->
  here st + (frameLength - 1) <= locals st ->
  frameReceived err steps sequence frameLength st =
  Ok tt (set_here (here st + (frameLength - 1)) (set_last (here st) st)).
Proof.
  intros HM Hlo Hlen Hhi Hflag Hnz Hloc. unfold frameReceived.
  rewrite (u8_id frameLength) by lia. vm_norm.
  rewrite (s16_id (here st + (frameLength - 1))) by lia.
  unfold memory_at at 1.
  erewrite (bind_Ok (fun st => array_get _ _ _ _ st)); cycle 1.
  { apply array_get_Some; simpl; [lia | exact Hflag]. }
  destruct (Z.eqb_spec flag 0); [contradiction|]. simpl. vm_norm.
  destruct (Z.gtb_spec (here st + (frameLength - 1)) (locals st)); [lia|].
  reflexivity.
Qed.

End Facts.
End FirmwareFacts.

(** * Main results *)

Section Results.
Context {cfg : Config}.

(** C10.  [drop] takes no error handler and only decrements the stack
    pointer: from any state, also an empty stack, it ends in the same state
    with [s] one lower and nothing sent.  When the stack held at most one
    cell, the [pop] that follows finds the pointer below the stack and is
    the one that raises the data-stack underflow. *)
Theorem drop_never_raises (err : Z -> Brief.VMM unit) (st : Brief.VM) :
  Brief.drop st = Ok tt (Brief.set_s (Brief.s st - 1) st) /\
  (Brief.s st <= 0 ->
   Brief.pop err (Brief.set_s (Brief.s st - 1) st) =
   (err VM_ERROR_DATA_STACK_UNDERFLOW ;; pure indeterminate)%vm
     (Brief.set_s (Brief.s st - 1) st)).
Proof.
  split; [reflexivity|]. intros Hs.
  apply BriefFacts.pop_empty. simpl. lia.
Qed.

(** C4 (code bug).  With [DATA_STACK_SIZE] cells on the stack the pointer is
    at the last cell; the test [s >= dstack + DATA_STACK_SIZE] of [push] does
    not fire, no error is reported and the store goes to the cell one past
    the array, in both copies. *)
Theorem push_on_full_stack_overruns
    (err : Z -> Brief.VMM unit) (ferr : Z -> Firmware.VMM unit) (x : Z) :
  (forall st, Brief.s st = DATA_STACK_SIZE - 1 -> 0 <= DATA_STACK_SIZE ->
     Brief.push err x st =
     Fault (OutOfBounds Dstack DATA_STACK_SIZE)
           (Brief.set_s DATA_STACK_SIZE st)) /\
  (forall st, Firmware.s st = DATA_STACK_SIZE - 1 -> 0 <= DATA_STACK_SIZE ->
     Firmware.push ferr x st =
     Fault (OutOfBounds Dstack DATA_STACK_SIZE)
           (Firmware.set_s DATA_STACK_SIZE st)).
Proof.
  split; intros st Hs HN.
  - now apply BriefFacts.push_full.
  - now apply FirmwareFacts.fw_push_full.
Qed.

(** C5 (code bug in [src/Brief.cpp]).  [lit8] of the later copy pushes its
    operand byte [b] unchanged, a value in 0..255; [lit8] of the earlier
    copy pushes [(int8_t) b]. *)
Theorem lit8_operand_extension
    (err : Z -> Brief.VMM unit) (ferr : Z -> Firmware.VMM unit) (b : Z) :
  MEM_SIZE <= 32767 -> 0 <= b < 256 ->
  (forall st,
     0 <= Brief.p st < MEM_SIZE ->
     Brief.memory st !! Z.to_nat (Brief.p st) = Some b ->
     -1 <= Brief.s st < DATA_STACK_SIZE - 1 ->
     Brief.lit8 err st =
     Ok tt (Brief.set_dstack
              (<[Z.to_nat (Brief.s st + 1) := b]> (Brief.dstack st))
              (Brief.set_s (Brief.s st + 1)
                 (Brief.set_p (Brief.p st + 1) st)))) /\
  (forall st,
     0 <= Firmware.p st < MEM_SIZE ->
     Firmware.memory st !! Z.to_nat (Firmware.p st) = Some b ->
     -1 <= Firmware.s st < DATA_STACK_SIZE - 1 ->
     Firmware.lit8 ferr st =
     Ok tt (Firmware.set_dstack
              (<[Z.to_nat (Firmware.s st + 1) := s8 b]> (Firmware.dstack st))
              (Firmware.set_s (Firmware.s st + 1)
                 (Firmware.set_p (Firmware.p st + 1) st)))).
Proof.
  intros HM Hb. split; intros st Hp Hm Hs.
  - now apply BriefFacts.lit8_pushes.
  - now apply FirmwareFacts.fw_lit8_pushes.
Qed.

(** C2.  A fetched byte [b0] with the top bit set starts a two-byte call to
    [((b0 & 0x7F) << 8) | b1], a 15-bit address.  When the byte after the
    low byte is 0 the only change is the program counter; otherwise the
    address of that byte, one past the low byte, is pushed on the return
    stack first. *)
Theorem call_pushes_return_address_unless_tail
    (err : Z -> Brief.VMM unit) (b0 b1 nxt : Z) (st : Brief.VM) :
  MEM_SIZE <= 32767 ->
  0 <= Brief.p st -> Brief.p st + 2 < MEM_SIZE ->
  Brief.memory st !! Z.to_nat (Brief.p st) = Some b0 ->
  Brief.memory st !! Z.to_nat (Brief.p st + 1) = Some b1 ->
  Brief.memory st !! Z.to_nat (Brief.p st + 2) = Some nxt ->
  128 <= b0 < 256 -> 0 <= b1 < 256 ->
  let target := Z.lor (Z.shiftl (Z.land b0 0x7F) 8) b1 in
  0 <= target < 32768 /\
  (nxt = 0 -> Brief.step err st = Ok tt (Brief.set_p target st)) /\
  (nxt <> 0 -> -1 <= Brief.r st < RETURN_STACK_SIZE - 1 ->
   Brief.step err st =
   Ok tt (Brief.set_p target
            (Brief.set_rstack
               (<[Z.to_nat (Brief.r st + 1) := Brief.p st + 2]>
                  (Brief.rstack st))
               (Brief.set_r (Brief.r st + 1) st)))).
Proof.
  intros HM Hlo Hhi E0 E1 E2 H0 H1 target. split.
  - apply call_target_range; lia.
  - now apply BriefFacts.step_call.
Qed.

(** C1 (code bug).  [error] calls [event(code, VM_EVENT_ID)] although
    [event] takes the id first: the packet sent has length 2, the error
    code in the id byte and [0x00 0xFE] as body, instead of id [0xFE] with
    the code as body.  A [pop] from the empty stack sends
    [2, 2, 0x00, 0xFE]. *)
Theorem error_event_has_code_as_id (fuel : nat) (code : Z) (st : Brief.VM) :
  Brief.sized st -> MEM_SIZE <= 32767 ->
  0 <= Brief.here st -> Brief.here st + 2 < MEM_SIZE ->
  -1 <= Brief.s st < DATA_STACK_SIZE - 1 ->
  0 <= code < 256 ->
  (exists st',
     Brief.error (S fuel) code st = Ok tt st' /\
     Brief.tx st' = Brief.tx st ++ [2; code; 0; VM_EVENT_ID]) /\
  (Brief.s st < 0 ->
   exists st',
     Brief.pop (Brief.error (S fuel)) st = Ok indeterminate st' /\
     Brief.tx st' =
     Brief.tx st ++ [2; VM_ERROR_DATA_STACK_UNDERFLOW; 0; VM_EVENT_ID]).
Proof.
  intros Hsz HM Hlo Hhi Hs Hc. split.
  - eexists. split; [now apply BriefFacts.error_sends|].
    now rewrite BriefFacts.sent_error.
  - intros Hneg. eexists. split.
    + rewrite BriefFacts.pop_empty by assumption.
      erewrite bind_Ok; [reflexivity|].
      apply BriefFacts.error_sends; auto.
      unfold VM_ERROR_DATA_STACK_UNDERFLOW. lia.
    + now rewrite BriefFacts.sent_error.
Qed.


(** C7 (amended).  [eventFooter] keeps the length of the packet, id
    included, in one byte: for a body of fewer than 255 bytes it sends the
    length of the body, then the id and the body that were packed from
    [here] on.  A scalar event is packed as the
    id followed by no byte for 0, by the low byte of a value in
    [-128, 127] (which read as a signed byte is that value), and by the
    high then the low byte of any other value. *)
Theorem event_wire_format
    (err : Z -> Brief.VMM unit) (id val : Z) (st : Brief.VM) :
  Brief.sized st -> MEM_SIZE <= 32767 ->
  0 <= Brief.here st -> Brief.here st + 2 < MEM_SIZE ->
  -1 <= Brief.s st < DATA_STACK_SIZE - 1 ->
  0 <= id < 256 -> -32768 <= val <= 32767 ->
  (exists st',
     Brief.event err id val st = Ok tt st' /\
     Brief.tx st' =
     Brief.tx st ++
       (if val =? 0 then [0; id]
        else if (val >=? -128) && (val <=? 127) then [1; id; u8 val]
        else [2; id; u8 (Z.shiftr val 8); u8 val])) /\
  (-128 <= val <= 127 -> s8 (u8 val) = val) /\
  (forall (payload : list Z) (st2 : Brief.VM),
     0 <= Brief.here st2 ->
     Z.of_nat (length payload) < 255 ->
     Brief.here st2 + 1 + Z.of_nat (length payload) <= MEM_SIZE ->
     Brief.eventBuffer st2 =
     Brief.here st2 + 1 + Z.of_nat (length payload) ->
     (forall j : nat, (j < S (length payload))%nat ->
        Brief.memory st2 !! (Z.to_nat (Brief.here st2) + j)%nat =
        (id :: payload) !! j) ->
     Brief.eventFooter err st2 =
     Ok tt (Brief.set_tx
              (Brief.tx st2 ++
                 Z.of_nat (length payload) :: map u8 (id :: payload))
              st2)).
Proof.
  intros Hsz HM Hlo Hhi Hs Hid Hval. split; [|split].
  - eexists. split; [now apply BriefFacts.event_sends|].
    unfold Brief.sent, Brief.body, INT8_MIN, INT8_MAX. simpl Brief.tx.
    destruct (val =? 0); [reflexivity|].
    destruct ((val >=? -128) && (val <=? 127)); reflexivity.
  - intros Hb. unfold s8, u8.
    destruct (Z.ltb_spec val 0).
    + replace (val mod 256) with (val + 256).
      * rewrite <- (Z.mod_unique (val + 256 + 128) 256 1 (val + 128)); lia.
      * rewrite (Z.mod_unique val 256 (-1) (val + 256)); lia.
    + rewrite (Z.mod_small val) by lia. rewrite Z.mod_small; lia.
  - intros payload st2 Hlo2 Hlen Hhi2 He Hmem.
    rewrite (BriefFacts.eventFooter_sends err (id :: payload));
      simpl length; try lia; auto.
    + replace (u8 (Z.of_nat (S (length payload)) - 1))
        with (Z.of_nat (length payload)) by (rewrite u8_id; lia).
      reflexivity.
    + rewrite He, u8_id; lia.
Qed.

(** C9 (code bug).  [setup] ends with the boot event, whose [eventHeader]
    leaves the event cursor at [here + 1 = 1], and [resetBoard] does not
    touch the cursor: no instruction ever runs with the cursor at
    [MEM_SIZE].  With the cursor inside [memory], a body write without a
    header stores its bytes at the cursor and raises nothing, whatever the
    handler. *)
Theorem body_without_header_stores :
  (forall fuel input,
     2 < MEM_SIZE -> MEM_SIZE <= 32767 -> 0 < DATA_STACK_SIZE ->
     exists st',
       Brief.setup (Brief.error fuel) (Brief.boot input) = Ok tt st' /\
       Brief.eventBuffer st' = 1 /\ Brief.here st' = 0 /\
       Brief.tx st' = [0; BOOT_EVENT_ID]) /\
  (forall st, exists st',
     Brief.resetBoard st = Ok tt st' /\
     Brief.eventBuffer st' = Brief.eventBuffer st) /\
  (forall (err : Z -> Brief.VMM unit) x st,
     MEM_SIZE <= 32767 ->
     0 <= Brief.eventBuffer st < MEM_SIZE ->
     0 <= Brief.s st < DATA_STACK_SIZE ->
     Brief.dstack st !! Z.to_nat (Brief.s st) = Some x ->
     Brief.eventBody8 err st =
     Ok tt (Brief.set_memory
              (<[Z.to_nat (Brief.eventBuffer st) := u8 x]> (Brief.memory st))
              (Brief.set_eventBuffer (Brief.eventBuffer st + 1)
                 (Brief.set_s (Brief.s st - 1) st)))) /\
  (forall (err : Z -> Brief.VMM unit) x st,
     MEM_SIZE <= 32767 ->
     0 <= Brief.eventBuffer st -> Brief.eventBuffer st + 1 < MEM_SIZE ->
     0 <= Brief.s st < DATA_STACK_SIZE ->
     Brief.dstack st !! Z.to_nat (Brief.s st) = Some x ->
     Brief.eventBody16 err st =
     Ok tt (Brief.set_memory
              (<[Z.to_nat (Brief.eventBuffer st + 1) := u8 x]>
                 (<[Z.to_nat (Brief.eventBuffer st) := u8 (Z.shiftr x 8)]>
                    (Brief.memory st)))
              (Brief.set_eventBuffer (Brief.eventBuffer st + 2)
                 (Brief.set_s (Brief.s st - 1) st)))).
Proof.
  split; [|split; [|split]].
  - intros fuel input H2 HM HD. unfold Brief.setup.
    rewrite (bind_Ok _ _ _ _ _ (BriefFacts.resetBoard_resets _)).
    vm_norm. eexists. split.
    + apply BriefFacts.event_sends; simpl; try lia.
      * unfold Brief.sized. simpl. rewrite !length_replicate. auto.
      * unfold BOOT_EVENT_ID. lia.
    + simpl. auto.
  - intros st. eexists. split; [apply BriefFacts.resetBoard_resets|].
    reflexivity.
  - intros err x st HM He Hs Hx. unfold Brief.eventBody8.
    erewrite (bind_Ok (Brief.pop err)); cycle 1.
    { apply BriefFacts.pop_some; eauto. }
    unfold Brief.post_incr. vm_norm.
    rewrite BriefFacts.memset_below by (rewrite s16_id; simpl; lia).
    rewrite (s16_id (Brief.eventBuffer st)) by lia.
    rewrite (s16_id (Brief.eventBuffer st + 1)) by lia.
    reflexivity.
  - intros err x st HM He0 He1 Hs Hx. unfold Brief.eventBody16.
    erewrite (bind_Ok (Brief.pop err)); cycle 1.
    { apply BriefFacts.pop_some; eauto. }
    unfold Brief.post_incr. vm_norm.
    erewrite (bind_Ok (Brief.memset err _ _)); cycle 1.
    { apply BriefFacts.memset_below. rewrite s16_id; simpl; lia. }
    vm_norm.
    rewrite BriefFacts.memset_below
      by (rewrite !s16_id; simpl; rewrite ?s16_id; lia).
    simpl.
    rewrite (s16_id (Brief.eventBuffer st)) by lia.
    rewrite !(s16_id (Brief.eventBuffer st + 1)) by lia.
    rewrite (s16_id (Brief.eventBuffer st + 1 + 1)) by lia.
    replace (Brief.eventBuffer st + 1 + 1) with (Brief.eventBuffer st + 2)
      by lia.
    reflexivity.
Qed.

(** C6 (amended).  The intake of a definition frame with [L] payload bytes
    moves [here] to the old [here + L].  In the earlier copy
    ([frameReceived]) [last] is the old [here], the first byte of the new
    definition; in the later copy ([loop]) [last] is the new [here], the
    byte that follows the definition. *)
Theorem definition_frame_cursors :
  (forall (err : Z -> Brief.VMM unit) steps b (payload rest : list Z) st,
     MEM_SIZE <= 32767 ->
     0 <= Brief.here st ->
     0 <= b < 128 -> Z.of_nat (length payload) = b ->
     Brief.here st + b <= MEM_SIZE ->
     Brief.rx st = b :: payload ++ rest ->
     Brief.loopword st < 0 ->
     exists st',
       Brief.loop err steps st = Ok tt st' /\
       Brief.here st' = Brief.here st + b /\
       Brief.last st' = Brief.here st + b /\
       Brief.memory st' =
       Brief.stage (map u8 payload) (Brief.here st) (Brief.memory st) /\
       Brief.rx st' = rest) /\
  (forall (ferr : Z -> Firmware.VMM unit) steps sequence frameLength flag st,
     MEM_SIZE <= 32767 ->
     0 <= Firmware.here st ->
     1 <= frameLength < 256 ->
     Firmware.here st + (frameLength - 1) < MEM_SIZE ->
     Firmware.memory st !! Z.to_nat (Firmware.here st + (frameLength - 1)) =
       Some flag ->
     flag <> 0 ->
     Firmware.here st + (frameLength - 1) <= Firmware.locals st ->
     exists st',
       Firmware.frameReceived ferr steps sequence frameLength st = Ok tt st' /\
       Firmware.last st' = Firmware.here st /\
       Firmware.here st' = Firmware.here st + (frameLength - 1)).
Proof.
  split.
  - intros err steps b payload rest st HM Hlo Hb Hlen Hhi Hrx Hw.
    eexists. split; [apply BriefFacts.loop_definition; eassumption|].
    simpl. auto.
  - intros ferr steps sequence frameLength flag st HM Hlo Hlen Hhi Hf Hnz Hl.
    eexists.
    split; [eapply FirmwareFacts.frameReceived_definition; eassumption|].
    simpl. auto.
Qed.

(** C8 (code bug).  [resetBoard] sets [here = last = 0], every bound
    instruction other than [forget] leaves the invariant
    [0 <= last <= here <= MEM_SIZE] in place (all but [forget] and
    [resetBoard] do not touch the two cursors), and so does the intake of
    a definition frame that fits below [MEM_SIZE].  [forget] pops [addr],
    leaves [last] alone and sets [here] to [addr] exactly when
    [addr < here].  [loop] runs bytecode with [here = last]: from such a
    state every [forget] that moves [here] ends with [here < last], the
    invariant broken. *)
Theorem forget_leaves_last_behind (fuel : nat) :
  let err := Brief.error fuel in
  (forall st, exists st',
     Brief.resetBoard st = Ok tt st' /\
     Brief.here st' = 0 /\ Brief.last st' = 0) /\
  (forall i f, Brief.instructions err i = Some f -> i <> 41 -> i <> 48 ->
     Brief.keeps f) /\
  (forall i f st, Brief.instructions err i = Some f -> i <> 41 ->
     Brief.cursors_ok st ->
     match f st with
     | Ok _ st' | Fault _ st' => Brief.cursors_ok st'
     | OutOfFuel => True
     end) /\
  (forall st addr,
     0 <= Brief.s st < DATA_STACK_SIZE ->
     Brief.dstack st !! Z.to_nat (Brief.s st) = Some addr ->
     exists st',
       Brief.forget err st = Ok tt st' /\
       Brief.last st' = Brief.last st /\
       Brief.here st' =
       (if addr <? Brief.here st then addr else Brief.here st) /\
       (Brief.here st = Brief.last st -> addr < Brief.here st ->
        Brief.here st' < Brief.last st' /\ ~ Brief.cursors_ok st')) /\
  (forall steps b (payload rest : list Z) st,
     Brief.cursors_ok st -> MEM_SIZE <= 32767 ->
     0 <= b < 128 -> Z.of_nat (length payload) = b ->
     Brief.here st + b <= MEM_SIZE ->
     Brief.rx st = b :: payload ++ rest ->
     Brief.loopword st < 0 ->
     exists st', Brief.loop err steps st = Ok tt st' /\ Brief.cursors_ok st').
Proof.
  intros err.
  assert (Hkeep : forall i f, Brief.instructions err i = Some f ->
                    i <> 41 -> i <> 48 -> Brief.keeps f).
  { intros i f Hi H41 H48.
    eapply BriefFacts.instructions_keep; eauto.
    apply BriefFacts.error_keeps. }
  split; [|split; [|split; [|split]]].
  - intros st. eexists. split; [apply BriefFacts.resetBoard_resets|].
    simpl. auto.
  - exact Hkeep.
  - intros i f st Hi H41 Hok.
    destruct (Z.eq_dec i 48) as [->|H48].
    + injection Hi as <-. rewrite BriefFacts.resetBoard_resets.
      unfold Brief.cursors_ok in *. simpl. lia.
    + specialize (Hkeep i f Hi H41 H48 st).
      unfold Brief.cursors_ok in *.
      destruct (f st); auto; lia.
  - intros st addr Hs Hx. eexists. split.
    + apply (BriefFacts.forget_moves err addr); assumption.
    + unfold Brief.cursors_ok.
      destruct (Z.ltb_spec addr (Brief.here st)); simpl;
        repeat split; auto; lia.
  - intros steps b payload rest st Hok HM Hb Hlen Hhi Hrx Hw.
    unfold Brief.cursors_ok in *. eexists. split.
    + apply BriefFacts.loop_definition; eauto. lia.
    + simpl. lia.
Qed.

End Results.

(** * Further results on the later copy *)

Module BriefMore.
Import Brief BriefFacts.

Section Stacks.
Context {cfg : Config}.
Variable err : Z -> VMM unit.

Lemma top_some x st :
  0 <= s st < DATA_STACK_SIZE ->
  dstack st !! Z.to_nat (s st) = Some x ->
  top st = Ok x st.
Proof.
  intros H Hx. unfold top. vm_norm. unfold dstack_at.
  now apply array_get_Some.
Qed.

Lemma set_top_in v st :
  0 <= s st < DATA_STACK_SIZE ->
  set_top v st =
  Ok tt (set_dstack (<[Z.to_nat (s st) := s16 v]> (dstack st)) st).
Proof.
  intros H. unfold set_top. vm_norm. unfold dstack_put.
  now rewrite array_set_in.
Qed.

(** X1.  With room on the data stack, [push x] followed by [pop] hands
    back [x] wrapped to sixteen bits and leaves the stack pointer where it
    was; the only trace is the cell above the top. *)
Lemma push_then_pop x st :
  -1 <= s st < DATA_STACK_SIZE - 1 ->
  length (dstack st) = Z.to_nat DATA_STACK_SIZE ->
  (push err x ;; pop err)%vm st =
  Ok (s16 x)
     (set_dstack (<[Z.to_nat (s st + 1) := s16 x]> (dstack st)) st).
Proof.
  intros Hs Hd. rewrite (bind_Ok _ _ _ _ _ (push_room err _ _ Hs)).
  rewrite (pop_some err (s16 x)); simpl; try lia.
  - vm_fields; auto. lia.
  - apply list_lookup_insert_eq. lia.
Qed.

(** X2.  With [RETURN_STACK_SIZE] cells on the return stack the pointer is
    not yet past the end, so [rpush] raises nothing: it moves the pointer
    to [rstack + RETURN_STACK_SIZE] and stores one cell behind the
    array. *)
Lemma rpush_full x st :
  r st = RETURN_STACK_SIZE - 1 -> 0 <= RETURN_STACK_SIZE ->
  rpush err x st =
  Fault (OutOfBounds Rstack RETURN_STACK_SIZE) (set_r RETURN_STACK_SIZE st).
Proof.
  intros Hr HN. unfold rpush. vm_norm.
  destruct (Z.geb_spec (r st) RETURN_STACK_SIZE); [lia|]. vm_norm.
  unfold rstack_put. rewrite array_set_out by lia.
  rewrite Hr.
  now replace (RETURN_STACK_SIZE - 1 + 1) with RETURN_STACK_SIZE by lia.
Qed.

Lemma swap_cells t n st :
  1 <= s st < DATA_STACK_SIZE ->
  dstack st !! Z.to_nat (s st) = Some t ->
  dstack st !! Z.to_nat (s st - 1) = Some n ->
  swap st =
  Ok tt (set_dstack
           (<[Z.to_nat (s st - 1) := t]>
              (<[Z.to_nat (s st) := n]> (dstack st))) st).
Proof.
  intros Hs Ht Hn. unfold swap. vm_norm. unfold dstack_at.
  erewrite bind_Ok by (apply array_get_Some; [lia | exact Ht]).
  erewrite bind_Ok by (apply array_get_Some; [lia | exact Hn]).
  unfold dstack_put.
  erewrite bind_Ok by (apply array_set_in; lia).
  rewrite array_set_in by lia. simpl. reflexivity.
Qed.

(** X3.  With two cells on the data stack, [swap] twice leaves the whole
    machine as it was. *)
Lemma swap_twice st :
  1 <= s st < DATA_STACK_SIZE ->
  length (dstack st) = Z.to_nat DATA_STACK_SIZE ->
  (swap ;; swap)%vm st = Ok tt st.
Proof.
  intros Hs Hd.
  destruct (lookup_lt_is_Some_2 (dstack st) (Z.to_nat (s st))) as [t Ht];
    [lia|].
  destruct (lookup_lt_is_Some_2 (dstack st) (Z.to_nat (s st - 1)))
    as [n Hn]; [lia|].
  rewrite (bind_Ok _ _ _ _ _ (swap_cells t n st Hs Ht Hn)).
  rewrite (swap_cells n t); simpl; try lia.
  - vm_fields; auto. apply list_eq. intros i.
    destruct (decide (i = Z.to_nat (s st - 1))) as [->|Hi1].
    + rewrite list_lookup_insert_eq by (rewrite !length_insert; lia).
      now rewrite Hn.
    + rewrite list_lookup_insert_ne by auto.
      destruct (decide (i = Z.to_nat (s st))) as [->|Hi2].
      * rewrite list_lookup_insert_eq by (rewrite !length_insert; lia).
        now rewrite Ht.
      * now rewrite !list_lookup_insert_ne by auto.
  - rewrite list_lookup_insert_ne by lia.
    apply list_lookup_insert_eq. lia.
  - apply list_lookup_insert_eq. rewrite length_insert. lia.
Qed.

End Stacks.

Section Words.
Context {cfg : Config}.
Variable err : Z -> VMM unit.

(** Big-endian pairs, checked on all of them. *)
Lemma be16_join (hi lo : Z) :
  0 <= hi < 256 -> 0 <= lo < 256 ->
  s16 (Z.lor (s16 (Z.shiftl hi 8)) lo) = s16 (hi * 256 + lo).
Proof.
  intros H0 H1.
  pose proof (forall_below 256
    (fun x => forallb (fun y =>
       s16 (Z.lor (s16 (Z.shiftl x 8)) y) =? s16 (x * 256 + y))
       (map Z.of_nat (seq 0 256)))
    ltac:(vm_compute; reflexivity) hi H0) as E.
  cbv beta in E. apply (forall_below 256 _ E) in H1. now apply Z.eqb_eq.
Qed.

Lemma be16_split (v : Z) :
  -32768 <= v <= 32767 ->
  s16 (Z.lor (s16 (Z.shiftl (u8 (Z.shiftr v 8)) 8)) (u8 v)) = v.
Proof.
  intros H.
  set (h := (v + 32768) / 256). set (l := (v + 32768) mod 256).
  assert (Hv : v = (h - 128) * 256 + l).
  { pose proof (Z.div_mod (v + 32768) 256 ltac:(lia)). unfold h, l. lia. }
  assert (Hh : 0 <= h < 256).
  { unfold h. split; [apply Z.div_pos; lia|].
    apply Z.div_lt_upper_bound; lia. }
  assert (Hl : 0 <= l < 256) by (apply Z.mod_pos_bound; lia).
  pose proof (forall_below 256
    (fun x => forallb (fun y =>
       s16 (Z.lor (s16 (Z.shiftl
                          (u8 (Z.shiftr ((x - 128) * 256 + y) 8)) 8))
                  (u8 ((x - 128) * 256 + y))) =? (x - 128) * 256 + y)
       (map Z.of_nat (seq 0 256)))
    ltac:(vm_compute; reflexivity) h Hh) as E.
  cbv beta in E. apply (forall_below 256 _ E) in Hl.
  rewrite Hv. now apply Z.eqb_eq.
Qed.

Lemma mem16_reads hi lo a st :
  MEM_SIZE <= 32767 ->
  0 <= a -> a + 1 < MEM_SIZE ->
  memory st !! Z.to_nat a = Some hi ->
  memory st !! Z.to_nat (a + 1) = Some lo ->
  mem16 err a st = Ok (s16 (Z.lor (s16 (Z.shiftl hi 8)) lo)) st.
Proof.
  intros HM Hlo Hhi E0 E1. unfold mem16. rewrite (s16_id a) by lia.
  erewrite (bind_Ok (memget err _)); cycle 1.
  { apply memget_inside; rewrite s16_id by lia; [lia | exact E0]. }
  erewrite (bind_Ok (memget err _)); cycle 1.
  { apply memget_inside; rewrite s16_id by lia; [lia | exact E1]. }
  reflexivity.
Qed.

(** X4.  [lit16] reads its operand high byte first, pushes
    [hi * 256 + lo] wrapped to sixteen bits and moves [p] by two. *)
Lemma lit16_pushes hi lo st :
  MEM_SIZE <= 32767 ->
  0 <= p st -> p st + 1 < MEM_SIZE ->
  memory st !! Z.to_nat (p st) = Some hi ->
  memory st !! Z.to_nat (p st + 1) = Some lo ->
  0 <= hi < 256 -> 0 <= lo < 256 ->
  -1 <= s st < DATA_STACK_SIZE - 1 ->
  lit16 err st =
  Ok tt (set_dstack
           (<[Z.to_nat (s st + 1) := s16 (hi * 256 + lo)]> (dstack st))
           (set_s (s st + 1) (set_p (p st + 2) st))).
Proof.
  intros HM Hlo Hhi E0 E1 H0 H1 Hs. unfold lit16, post_incr. vm_norm.
  rewrite (s16_id (p st + 1)) by lia.
  erewrite (bind_Ok (mem16 err _)); cycle 1.
  { apply (mem16_reads hi lo); simpl; auto. }
  erewrite (bind_Ok (push err _)); cycle 1.
  { apply push_room. simpl. lia. }
  vm_norm. unfold pure. vm_fields; auto.
  - rewrite be16_join by lia. f_equal. apply s16_id, s16_range.
  - rewrite s16_id by lia. lia.
Qed.

(** X5.  [store16] writes the cell below the top to the address on top,
    high byte first, and drops both; [mem16] at that address reads the
    value back. *)
Lemma store16_then_mem16 a v st :
  MEM_SIZE <= 32767 ->
  length (memory st) = Z.to_nat MEM_SIZE ->
  1 <= s st < DATA_STACK_SIZE ->
  dstack st !! Z.to_nat (s st) = Some a ->
  dstack st !! Z.to_nat (s st - 1) = Some v ->
  0 <= a -> a + 1 < MEM_SIZE ->
  -32768 <= v <= 32767 ->
  let st1 :=
    set_memory (<[Z.to_nat (a + 1) := u8 v]>
                  (<[Z.to_nat a := u8 (Z.shiftr v 8)]> (memory st)))
      (set_s (s st - 2) st) in
  store16 err st = Ok tt st1 /\ mem16 err a st1 = Ok v st1.
Proof.
  intros HM Hm Hs Ha Hv Hlo Hhi Hr st1. split.
  - unfold store16.
    erewrite (bind_Ok (pop err)) by (apply pop_some; eauto; lia).
    erewrite (bind_Ok (pop err)); cycle 1.
    { apply pop_some; simpl; [lia | exact Hv]. }
    erewrite (bind_Ok (memset err _ _)); cycle 1.
    { apply memset_below. rewrite s16_id; lia. }
    rewrite memset_below by (rewrite s16_id; lia).
    rewrite !s16_id by lia. subst st1. vm_fields; auto. lia.
  - rewrite (mem16_reads (u8 (Z.shiftr v 8)) (u8 v)); subst st1; simpl;
      try lia.
    + now rewrite be16_split.
    + rewrite list_lookup_insert_ne by lia.
      apply list_lookup_insert_eq. lia.
    + apply list_lookup_insert_eq. rewrite length_insert. lia.
Qed.

(** ** The interpreter loop *)

Lemma set_p_same st : set_p (p st) st = st.
Proof. now destruct st. Qed.

(** X6.  A call whose target is its own address and which is followed by
    a zero byte pushes no return address: [step] leaves the machine as it
    was, and [run] never comes back. *)
Lemma tail_call_spins b0 b1 st :
  MEM_SIZE <= 32767 ->
  0 <= p st -> p st + 2 < MEM_SIZE ->
  memory st !! Z.to_nat (p st) = Some b0 ->
  memory st !! Z.to_nat (p st + 1) = Some b1 ->
  memory st !! Z.to_nat (p st + 2) = Some 0 ->
  128 <= b0 < 256 -> 0 <= b1 < 256 ->
  Z.lor (Z.shiftl (Z.land b0 0x7F) 8) b1 = p st ->
  step err st = Ok tt st /\ forall n, run err n st = OutOfFuel.
Proof.
  intros HM Hlo Hhi E0 E1 E2 H0 H1 Ht.
  assert (Hstep : step err st = Ok tt st).
  { destruct (step_call err b0 b1 0 st) as [Hs _]; auto.
    rewrite Hs by reflexivity. now rewrite Ht, set_p_same. }
  split; [exact Hstep|].
  induction n as [|n IH]; [reflexivity|].
  cbn [run]. rewrite (bind_Ok _ _ _ _ _ Hstep). vm_norm.
  destruct (Z.geb_spec (p st) 0); [exact IH | lia].
Qed.

Lemma run_exits_below_zero n : forall st st',
  run err n st = Ok tt st' -> p st' < 0.
Proof.
  induction n as [|n IH]; intros st st'; [discriminate|].
  cbn [run]. unfold bind at 1.
  destruct (step err st) as [[] st1| |]; try discriminate.
  vm_norm. destruct (Z.geb_spec (p st1) 0).
  - apply IH.
  - unfold pure. intros [= <-]. lia.
Qed.

(** X7.  Whenever [exec] comes back, [p] is negative: only the [-1] that
    [exec] put on the return stack, or another negative address, ends
    [run]. *)
Lemma exec_exits_below_zero n a st st' :
  exec err n a st = Ok tt st' -> p st' < 0.
Proof.
  unfold exec. vm_norm. unfold bind at 1.
  destruct (rpush err (-1) _) as [[] st1| |]; try discriminate.
  vm_norm. apply run_exits_below_zero.
Qed.

End Words.

Section Overflow.
Context {cfg : Config}.

(** X8.  With the stack pointer past the end of the data stack, [error]
    never comes back: its [event] starts with a [push], which calls
    [error] again, whatever the fuel. *)
Lemma overflow_report_diverges fuel : forall code st,
  DATA_STACK_SIZE <= s st -> error fuel code st = OutOfFuel.
Proof.
  induction fuel as [|fuel IH]; intros code st Hs; [reflexivity|].
  cbn [error]. unfold event. cbv zeta.
  apply bind_OutOfFuel. unfold push. vm_norm.
  destruct (Z.geb_spec (s st) DATA_STACK_SIZE); [|lia].
  now apply IH.
Qed.

End Overflow.

Section Exhaustion.
Context {cfg : Config}.

(** X9.  With [here] at or past [MEM_SIZE], [error] never comes back:
    [eventHeader] stores the id at [here], [memset] calls [error] again,
    whatever the fuel. *)
Lemma memory_full_report_diverges fuel : forall code st,
  0 <= MEM_SIZE -> MEM_SIZE <= here st <= 32767 ->
  -1 <= s st < DATA_STACK_SIZE - 1 ->
  length (dstack st) = Z.to_nat DATA_STACK_SIZE ->
  error fuel code st = OutOfFuel.
Proof.
  induction fuel as [|fuel IH]; intros code st HM Hh Hs Hd; [reflexivity|].
  cbn [error]. unfold event. cbv zeta.
  rewrite (bind_Ok _ _ _ _ _ (push_room _ _ _ Hs)).
  apply bind_OutOfFuel. unfold eventHeader. vm_norm.
  erewrite (bind_Ok (pop _)); cycle 1.
  { apply pop_some; simpl; [lia|]. apply list_lookup_insert_eq. lia. }
  unfold post_incr. vm_norm.
  rewrite memset_above by (rewrite s16_id; simpl; lia).
  apply IH; simpl; try lia. rewrite length_insert. lia.
Qed.

End Exhaustion.

Section Logic.
Context {cfg : Config}.
Variable err : Z -> VMM unit.

Lemma binary_cells op a x st :
  1 <= s st < DATA_STACK_SIZE ->
  dstack st !! Z.to_nat (s st) = Some x ->
  dstack st !! Z.to_nat (s st - 1) = Some a ->
  binary err op st =
  Ok tt (set_dstack (<[Z.to_nat (s st - 1) := s16 (op a x)]> (dstack st))
           (set_s (s st - 1) st)).
Proof.
  intros Hs Hx Ha. unfold binary.
  erewrite (bind_Ok (pop err)) by (apply pop_some; eauto; lia).
  erewrite (bind_Ok top); cycle 1.
  { apply top_some; simpl; [lia | exact Ha]. }
  rewrite set_top_in by (simpl; lia). reflexivity.
Qed.

Lemma unary_cell f a st :
  0 <= s st < DATA_STACK_SIZE ->
  dstack st !! Z.to_nat (s st) = Some a ->
  unary f st =
  Ok tt (set_dstack (<[Z.to_nat (s st) := s16 (f a)]> (dstack st)) st).
Proof.
  intros Hs Ha. unfold unary.
  erewrite (bind_Ok top) by (apply top_some; eauto).
  now rewrite set_top_in.
Qed.

Lemma not_boolval (b : bool) :
  s16 (Z.lnot (s16 (boolval b))) = s16 (boolval (negb b)).
Proof. destruct b; vm_compute; reflexivity. Qed.

Lemma binary_then_notb (c : Z -> Z -> bool) st :
  1 <= s st < DATA_STACK_SIZE ->
  length (dstack st) = Z.to_nat DATA_STACK_SIZE ->
  (binary err (fun a x => boolval (c a x)) ;; notb)%vm st =
  binary err (fun a x => boolval (negb (c a x))) st.
Proof.
  intros Hs Hd.
  destruct (lookup_lt_is_Some_2 (dstack st) (Z.to_nat (s st))) as [x Hx];
    [lia|].
  destruct (lookup_lt_is_Some_2 (dstack st) (Z.to_nat (s st - 1)))
    as [a Ha]; [lia|].
  rewrite (bind_Ok _ _ _ _ _ (binary_cells _ a x st Hs Hx Ha)).
  rewrite (binary_cells _ a x st Hs Hx Ha).
  unfold notb. erewrite unary_cell; simpl; try lia.
  2:{ apply list_lookup_insert_eq. lia. }
  vm_fields; auto. now rewrite list_insert_insert_eq, not_boolval.
Qed.

Lemma land_15_bits (n : Z) : 0 <= Z.land n 0x7FFF <= 32767.
Proof.
  assert (E : Z.land n 0x7FFF = n mod 32768).
  { change 0x7FFF with (Z.ones 15). now rewrite Z.land_ones by lia. }
  rewrite E.
  assert (0 <= n mod 32768 < 32768) by (apply Z.mod_pos_bound; reflexivity).
  lia.
Qed.

Lemma binary_ext (op op' : Z -> Z -> Z) st :
  (forall a x, op a x = op' a x) ->
  binary err op st = binary err op' st.
Proof.
  intros H. unfold binary, bind.
  destruct (pop err st) as [x st1| |]; try reflexivity.
  destruct (top st1) as [a st2| |]; try reflexivity.
  now rewrite H.
Qed.

(** X10.  With two cells on the data stack, a comparison followed by
    [notb] is the opposite comparison: [eq] gives [neq], [lt] gives [geq]
    and [gt] gives [leq]. *)
Lemma comparisons_complement st :
  1 <= s st < DATA_STACK_SIZE ->
  length (dstack st) = Z.to_nat DATA_STACK_SIZE ->
  (eq err ;; notb)%vm st = neq err st /\
  (lt err ;; notb)%vm st = geq err st /\
  (gt err ;; notb)%vm st = leq err st.
Proof.
  intros Hs Hd. unfold eq, neq, lt, geq, gt, leq.
  rewrite !(binary_then_notb _ st Hs Hd).
  repeat split; try reflexivity; apply binary_ext; intros a x; f_equal.
  - rewrite Z.geb_leb. symmetry. apply Z.leb_antisym.
  - rewrite Z.gtb_ltb. symmetry. apply Z.leb_antisym.
Qed.

(** X11.  [loopTicks] pushes the low fifteen bits of the iteration
    counter, a value in [0, 32767] whatever the counter holds. *)
Lemma loopTicks_pushes st :
  -1 <= s st < DATA_STACK_SIZE - 1 ->
  loopTicks err st =
  Ok tt (set_dstack
           (<[Z.to_nat (s st + 1) := Z.land (loopIterations st) 0x7FFF]>
              (dstack st))
           (set_s (s st + 1) st)) /\
  0 <= Z.land (loopIterations st) 0x7FFF <= 32767.
Proof.
  intros Hs. pose proof (land_15_bits (loopIterations st)) as Hr.
  split; [|exact Hr].
  unfold loopTicks. vm_norm. rewrite push_room by exact Hs.
  now rewrite s16_id by lia.
Qed.

End Logic.

Section Intake.
Context {cfg : Config}.
Variable err : Z -> VMM unit.

Lemma stage_app (l1 l2 : list Z) : forall a m,
  stage (l1 ++ l2) a m = stage l2 (a + Z.of_nat (length l1)) (stage l1 a m).
Proof.
  induction l1 as [|b l1 IH]; intros a m; simpl.
  - f_equal. lia.
  - rewrite IH. f_equal. lia.
Qed.

(** X12.  An immediate frame, header [b >= 128] and [b - 128] payload
    bytes: [loop] stores the payload and a closing zero from [here] on,
    sets [here] back to [last], runs the code at [last] and then the loop
    word. *)
Lemma loop_immediate steps b (payload rest : list Z) st :
  MEM_SIZE <= 32767 ->
  0 <= here st ->
  128 <= b < 256 -> Z.of_nat (length payload) = b - 128 ->
  here st + (b - 128) < MEM_SIZE ->
  rx st = b :: payload ++ rest ->
  loop err steps st =
  (exec err steps (last st) ;; tick err steps)%vm
    (set_here (last st)
       (set_memory (stage (map u8 payload ++ [0]) (here st) (memory st))
          (set_rx rest st))).
Proof.
  intros HM Hlo Hb Hlen Hhi Hrx. unfold loop. vm_norm.
  rewrite Hrx. rewrite bool_decide_eq_false_2 by discriminate.
  rewrite bind_bind.
  rewrite (bind_Ok _ _ _ _ _ (Serial_read_cons _ _ _ Hrx)).
  rewrite (u8_id b) by lia.
  destruct (header_byte b ltac:(lia)) as [-> ->].
  destruct (Z.leb_spec 128 b); [|lia].
  replace (b mod 128) with (b - 128).
  2:{ apply (Z.mod_unique b 128 1 (b - 128)); lia. }
  rewrite <- Hlen, Nat2Z.id.
  rewrite bind_bind.
  erewrite (bind_Ok (receive err _)); cycle 1.
  { apply receive_stores; simpl; try lia. reflexivity. }
  unfold post_incr. vm_norm.
  erewrite (bind_Ok (memset err _ _)); cycle 1.
  { apply memset_below. rewrite s16_id; simpl; lia. }
  vm_norm. unfold tick.
  rewrite (s16_id (here st + Z.of_nat (length payload))) by lia.
  rewrite stage_app, length_map. reflexivity.
Qed.

End Intake.

End BriefMore.

(** * Further results on the earlier copy and on Reflecta *)

Module FirmwareMore.
Import Firmware FirmwareFacts Reflecta.

Section Sending.
Context {cfg : Config}.

Lemma lxor_byte a b : 0 <= a < 256 -> 0 <= b < 256 -> 0 <= Z.lxor a b < 256.
Proof.
  intros Ha Hb. split; [apply Z.lxor_nonneg; lia|].
  destruct (Z.eq_dec (Z.lxor a b) 0) as [->|Hn]; [lia|].
  assert (0 < Z.lxor a b) by (pose proof (proj2 (Z.lxor_nonneg a b)); lia).
  apply (Z.log2_lt_pow2 _ 8); [lia|].
  pose proof (Z.log2_lxor a b ltac:(lia) ltac:(lia)).
  assert (Z.log2 a < 8).
  { destruct (Z.eq_dec a 0) as [->|]; [reflexivity|].
    apply Z.log2_lt_pow2; lia. }
  assert (Z.log2 b < 8).
  { destruct (Z.eq_dec b 0) as [->|]; [reflexivity|].
    apply Z.log2_lt_pow2; lia. }
  lia.
Qed.

Lemma foldl_lxor_byte l c :
  bytes l -> 0 <= c < 256 -> 0 <= foldl Z.lxor c l < 256.
Proof.
  intros Hl. revert c. induction Hl as [|b l Hb _ IH]; intros c Hc; simpl.
  - exact Hc.
  - apply IH, lxor_byte; assumption.
Qed.

Lemma checksum_byte l : bytes l -> 0 <= checksum l < 256.
Proof. intros Hl. apply foldl_lxor_byte; [exact Hl | lia]. Qed.

(** [writeEscaped] writes the escaped form of its byte and folds the byte
    itself into the checksum. *)
Lemma writeEscaped_sends b st :
  writeEscaped b st =
  Ok tt (set_writeChecksum (Z.lxor (writeChecksum st) (u8 b))
           (set_tx (tx st ++ slip (u8 b)) st)).
Proof.
  unfold writeEscaped, slip, Serial_write. cbv zeta.
  destruct (u8 b =? END); [|destruct (u8 b =? ESCAPE)]; vm_norm;
    unfold modify; vm_fields; try reflexivity.
  - now rewrite <- app_assoc.
  - now rewrite <- app_assoc.
  - now rewrite u8_u8.
Qed.

(** The bytes of a list, escaped one after the other. *)
Lemma sendFrame_loop_sends l : forall base i st,
  0 <= base + i ->
  base + i + Z.of_nat (length l) <= MEM_SIZE ->
  (forall j b, l !! j = Some b ->
     memory st !! (Z.to_nat (base + i) + j)%nat = Some b) ->
  bytes l ->
  sendFrame_loop (length l) base i st =
  Ok tt (set_writeChecksum (foldl Z.lxor (writeChecksum st) l)
           (set_tx (tx st ++ flat_map slip l) st)).
Proof.
  induction l as [|b l IH]; intros base i st Hlo Hhi Hm Hb; simpl.
  - unfold pure. vm_fields; try reflexivity. now rewrite app_nil_r.
  - cbn [length] in Hhi. rewrite Nat2Z.inj_succ in Hhi.
    inversion Hb as [|? ? Hb0 Hbl]; subst.
    unfold memory_at at 1.
    erewrite (bind_Ok (fun st => array_get _ _ _ _ st)); cycle 1.
    { apply array_get_Some; [lia|].
      specialize (Hm 0%nat b eq_refl). rewrite Nat.add_0_r in Hm. exact Hm. }
    rewrite (bind_Ok _ _ _ _ _ (writeEscaped_sends b st)).
    rewrite IH; simpl; try lia; try assumption.
    + rewrite (u8_id b) by lia. vm_fields; try reflexivity.
      now rewrite <- app_assoc.
    + intros j c Hj. specialize (Hm (S j) c Hj).
      replace (Z.to_nat (base + (i + 1)) + j)%nat
        with (Z.to_nat (base + i) + S j)%nat by lia. exact Hm.
Qed.

(** The frame of [sendFrame], from [memory]. *)
Lemma sendFrame_frames l base st :
  0 <= base ->
  base + Z.of_nat (length l) <= MEM_SIZE ->
  Z.of_nat (length l) < 256 ->
  (forall j b, l !! j = Some b ->
     memory st !! (Z.to_nat base + j)%nat = Some b) ->
  bytes l ->
  0 <= writeSequence st < 256 ->
  sendFrame base (Z.of_nat (length l)) st =
  Ok (writeSequence st) (after_frame l st).
Proof.
  intros Hlo Hhi Hlen Hm Hb Hq. unfold sendFrame, after_frame. cbv zeta.
  rewrite (u8_id (Z.of_nat (length l))) by lia. rewrite Nat2Z.id.
  vm_norm.
  rewrite (bind_Ok _ _ _ _ _ (writeEscaped_sends _ _)). simpl.
  rewrite (u8_id (writeSequence st)) by lia.
  erewrite (bind_Ok (sendFrame_loop _ _ _)); cycle 1.
  { apply sendFrame_loop_sends; simpl; try lia; try assumption.
    intros j b Hj. rewrite Z.add_0_r. now apply Hm. }
  vm_norm.
  rewrite (bind_Ok _ _ _ _ _ (writeEscaped_sends _ _)). simpl.
  unfold Serial_write. vm_norm. unfold pure.
  assert (Hc : 0 <= foldl Z.lxor (writeSequence st) l < 256)
    by (apply foldl_lxor_byte; assumption).
  rewrite (u8_id (foldl _ _ _)) by exact Hc.
  f_equal. apply fw_VM_ext; simpl; try reflexivity.
  - apply Z.lxor_nilpotent.
  - unfold framed, checksum. simpl.
    rewrite flat_map_app. simpl. rewrite app_nil_r.
    rewrite <- !app_assoc. reflexivity.
Qed.

Lemma writeEscaped_all frame : forall st,
  bytes frame ->
  foldr (fun b rest => writeEscaped b ;; rest) (pure tt) frame st =
  Ok tt (set_writeChecksum (foldl Z.lxor (writeChecksum st) frame)
           (set_tx (tx st ++ flat_map slip frame) st)).
Proof.
  induction frame as [|b frame IH]; intros st Hb; simpl.
  - unfold pure. vm_fields; try reflexivity. now rewrite app_nil_r.
  - inversion Hb as [|? ? Hb0 Hbl]; subst.
    rewrite (bind_Ok _ _ _ _ _ (writeEscaped_sends b st)).
    rewrite IH by assumption. simpl. rewrite (u8_id b) by lia.
    vm_fields; try reflexivity. now rewrite <- app_assoc.
Qed.

(** The same frame from a local array. *)
Lemma sendFrame_local_frames frame st :
  bytes frame -> 0 <= writeSequence st < 256 ->
  sendFrame_local frame st = Ok (writeSequence st) (after_frame frame st).
Proof.
  intros Hb Hq. unfold sendFrame_local, after_frame. vm_norm.
  rewrite (bind_Ok _ _ _ _ _ (writeEscaped_sends _ _)). simpl.
  rewrite (u8_id (writeSequence st)) by lia.
  rewrite (bind_Ok _ _ _ _ _ (writeEscaped_all frame _ Hb)).
  vm_norm.
  rewrite (bind_Ok _ _ _ _ _ (writeEscaped_sends _ _)). simpl.
  unfold Serial_write. vm_norm. unfold pure.
  assert (Hc : 0 <= foldl Z.lxor (writeSequence st) frame < 256)
    by (apply foldl_lxor_byte; assumption).
  rewrite (u8_id (foldl _ _ _)) by exact Hc.
  f_equal. apply fw_VM_ext; simpl; try reflexivity.
  - apply Z.lxor_nilpotent.
  - unfold framed, checksum. simpl.
    rewrite flat_map_app. simpl. rewrite app_nil_r.
    rewrite <- !app_assoc. reflexivity.
Qed.

Lemma slip_no_END b : Forall (fun x => x <> END) (slip b).
Proof.
  unfold slip. destruct (Z.eqb_spec b END);
    [|destruct (Z.eqb_spec b ESCAPE)]; repeat constructor;
    try discriminate; assumption.
Qed.

Lemma flat_map_slip_no_END l : Forall (fun x => x <> END) (flat_map slip l).
Proof.
  induction l as [|b l IH]; simpl; [constructor|].
  apply Forall_app. split; [apply slip_no_END | exact IH].
Qed.

(** X13.  [sendFrame] puts one frame on the wire: the sequence number, the
    [frameLength] bytes found at [base] and the XOR of all of them, each
    escaped by [writeEscaped], then [END]; no byte before that [END] is an
    [END].  It hands back the sequence number and steps it modulo 256. *)
Lemma sendFrame_wire l base st :
  0 <= base ->
  base + Z.of_nat (length l) <= MEM_SIZE ->
  Z.of_nat (length l) < 256 ->
  (forall j b, l !! j = Some b ->
     memory st !! (Z.to_nat base + j)%nat = Some b) ->
  bytes l ->
  0 <= writeSequence st < 256 ->
  sendFrame base (Z.of_nat (length l)) st =
    Ok (writeSequence st) (after_frame l st) /\
  Forall (fun b => b <> END)
    (flat_map slip
       (writeSequence st :: l ++ [checksum (writeSequence st :: l)])).
Proof.
  intros. split; [now apply sendFrame_frames | apply flat_map_slip_no_END].
Qed.

End Sending.

Section Reporting.
Context {cfg : Config}.
Variable err : Z -> VMM unit.

Lemma fw_pop_some x st :
  0 <= s st < DATA_STACK_SIZE ->
  dstack st !! Z.to_nat (s st) = Some x ->
  pop err st = Ok x (set_s (s st - 1) st).
Proof.
  intros Hs Hx. unfold pop. vm_norm.
  destruct (Z.ltb_spec (s st) 0); [lia|].
  unfold dstack_at.
  erewrite (bind_Ok (fun st => array_get _ _ _ _ st)); cycle 1.
  { apply array_get_Some; [lia | exact Hx]. }
  reflexivity.
Qed.

Lemma fw_memset_below a v st :
  0 <= a < MEM_SIZE -> MEM_SIZE <= 32767 ->
  memset err a v st =
  Ok tt (set_memory (<[Z.to_nat a := u8 v]> (memory st)) st).
Proof.
  intros Ha HM. unfold memset. rewrite (s16_id a) by lia.
  destruct (Z.geb_spec a MEM_SIZE); [lia|].
  unfold memory_put. now rewrite array_set_in by lia.
Qed.

(** The body of [error] when there is room for two cells and two bytes:
    the frame [VM_EVENT_ID; code] goes out, the stack pointer is back
    where it was. *)
Lemma error_body_sends code st :
  MEM_SIZE <= 32767 ->
  0 <= here st -> here st + 2 <= MEM_SIZE ->
  length (memory st) = Z.to_nat MEM_SIZE ->
  -1 <= s st < DATA_STACK_SIZE - 2 ->
  length (dstack st) = Z.to_nat DATA_STACK_SIZE ->
  0 <= code < 256 ->
  0 <= writeSequence st < 256 ->
  error_body err code st =
  Ok tt (reported code st).
Proof.
  intros HM Hh0 Hh2 Hlm Hs Hld Hc Hq. unfold error_body, reported. cbv zeta.
  rewrite (u8_id code) by lia.
  assert (Hs1 : -1 <= s st < DATA_STACK_SIZE - 1) by lia.
  rewrite (bind_Ok _ _ _ _ _ (fw_push_room err code st Hs1)).
  erewrite (bind_Ok (push err _)); cycle 1.
  { apply fw_push_room. simpl. lia. }
  unfold eventHeader, eventBody8, post_incr. vm_norm.
  erewrite (bind_Ok (pop err)); cycle 1.
  { apply fw_pop_some; simpl; [lia|].
    replace (s st + 1 + 1) with (s st + 2) by lia.
    apply list_lookup_insert_eq. rewrite length_insert. lia. }
  vm_norm.
  erewrite (bind_Ok (memset err _ _)); cycle 1.
  { apply fw_memset_below; simpl; lia. }
  vm_norm.
  erewrite (bind_Ok (pop err)); cycle 1.
  { apply fw_pop_some; simpl; [lia|].
    replace (s st + 1 + 1 - 1) with (s st + 1) by lia.
    rewrite list_lookup_insert_ne by lia.
    apply list_lookup_insert_eq. lia. }
  vm_norm.
  rewrite (s16_id (here st + 1)) by lia.
  erewrite (bind_Ok (memset err _ _)); cycle 1.
  { apply fw_memset_below; simpl; lia. }
  unfold eventFooter. vm_norm.
  rewrite (s16_id (here st + 1 + 1)) by lia.
  replace (here st + 1 + 1 - here st)
    with (Z.of_nat (length [VM_EVENT_ID; code]))
    by (simpl; lia).
  assert (E1 : s16 VM_EVENT_ID = VM_EVENT_ID) by reflexivity.
  assert (E2 : u8 VM_EVENT_ID = VM_EVENT_ID) by reflexivity.
  rewrite ?E1, ?E2, ?(s16_id code), ?(u8_id code) by lia.
  erewrite (bind_Ok (sendFrame _ _)); cycle 1.
  { apply sendFrame_frames; simpl; try lia.
    - intros j b Hj.
      destruct j as [|[|j]]; simpl in Hj; inversion Hj; subst.
      + rewrite Nat.add_0_r. rewrite list_lookup_insert_ne by lia.
        apply list_lookup_insert_eq. lia.
      + replace (Z.to_nat (here st) + 1)%nat
          with (Z.to_nat (here st + 1)) by lia.
        apply list_lookup_insert_eq. rewrite length_insert. lia.
    - repeat constructor; try lia; vm_compute; discriminate. }
  unfold pure, after_frame. f_equal.
  apply fw_VM_ext; simpl; try reflexivity; try lia.
  replace (s st + 1 + 1) with (s st + 2) by lia. reflexivity.
Qed.

End Reporting.

Section Recovery.
Context {cfg : Config}.

(** X14.  With room for two cells and two bytes, [error] of the earlier
    copy comes back after one round: the frame [VM_EVENT_ID; code] has
    gone out and the stack pointer is where it was. *)
Lemma error_reports fuel code st :
  MEM_SIZE <= 32767 ->
  0 <= here st -> here st + 2 <= MEM_SIZE ->
  length (memory st) = Z.to_nat MEM_SIZE ->
  -1 <= s st < DATA_STACK_SIZE - 2 ->
  length (dstack st) = Z.to_nat DATA_STACK_SIZE ->
  0 <= code < 256 ->
  0 <= writeSequence st < 256 ->
  error (S fuel) code st = Ok tt (reported code st).
Proof. intros. now apply (error_body_sends (error fuel)). Qed.

(** X15.  [pop] of the earlier copy on an empty stack sets the pointer to
    [-1], sends the underflow report and hands back whatever the register
    holds. *)
Lemma pop_underflow_reports fuel st :
  s st < 0 ->
  MEM_SIZE <= 32767 ->
  0 <= here st -> here st + 2 <= MEM_SIZE ->
  length (memory st) = Z.to_nat MEM_SIZE ->
  2 <= DATA_STACK_SIZE ->
  length (dstack st) = Z.to_nat DATA_STACK_SIZE ->
  0 <= writeSequence st < 256 ->
  pop (error (S fuel)) st =
  Ok indeterminate (reported VM_ERROR_DATA_STACK_UNDERFLOW (set_s (-1) st)).
Proof.
  intros Hs HM Hh0 Hh2 Hlm HD Hld Hq. unfold pop. vm_norm.
  destruct (Z.ltb_spec (s st) 0); [|lia]. vm_norm.
  erewrite (bind_Ok (error_body (error fuel) _)); cycle 1.
  { apply error_body_sends; simpl; try assumption; try lia.
    unfold VM_ERROR_DATA_STACK_UNDERFLOW. lia. }
  reflexivity.
Qed.

(** X16.  [push] of the earlier copy with the pointer past the end drops
    its argument, empties the stack and sends the overflow report; unlike
    the later copy it comes back. *)
Lemma push_overflow_reports fuel x st :
  DATA_STACK_SIZE <= s st ->
  MEM_SIZE <= 32767 ->
  0 <= here st -> here st + 2 <= MEM_SIZE ->
  length (memory st) = Z.to_nat MEM_SIZE ->
  2 <= DATA_STACK_SIZE ->
  length (dstack st) = Z.to_nat DATA_STACK_SIZE ->
  0 <= writeSequence st < 256 ->
  push (error (S fuel)) x st =
  Ok tt (reported VM_ERROR_DATA_STACK_OVERFLOW (set_s (-1) st)).
Proof.
  intros Hs HM Hh0 Hh2 Hlm HD Hld Hq. unfold push. vm_norm.
  destruct (Z.geb_spec (s st) DATA_STACK_SIZE); [|lia]. vm_norm.
  apply error_body_sends; simpl; try assumption; try lia.
  unfold VM_ERROR_DATA_STACK_OVERFLOW. lia.
Qed.

End Recovery.

Section Locals.
Context {cfg : Config}.
Variable err : Z -> VMM unit.

Lemma fw_rpush_room x st :
  -1 <= r st < RETURN_STACK_SIZE - 1 ->
  rpush err x st =
  Ok tt (set_rstack (<[Z.to_nat (r st + 1) := s16 x]> (rstack st))
           (set_r (r st + 1) st)).
Proof.
  intros H. unfold rpush. vm_norm.
  destruct (Z.geb_spec (r st) RETURN_STACK_SIZE); [lia|]. vm_norm.
  unfold rstack_put. rewrite array_set_in by (simpl; lia). reflexivity.
Qed.

Lemma fw_rpop_some x st :
  0 <= r st < RETURN_STACK_SIZE ->
  rstack st !! Z.to_nat (r st) = Some x ->
  rpop err st = Ok x (set_r (r st - 1) st).
Proof.
  intros Hr Hx. unfold rpop. vm_norm.
  destruct (Z.ltb_spec (r st) 0); [lia|].
  unfold rstack_at.
  erewrite (bind_Ok (fun st => array_get _ _ _ _ st)); cycle 1.
  { apply array_get_Some; [lia | exact Hx]. }
  reflexivity.
Qed.

(** The loop of [alloc] clears [k] bytes from [i] on. *)
Lemma alloc_loop_clears k : forall i st,
  MEM_SIZE <= 32767 -> 0 <= i -> i + Z.of_nat k <= MEM_SIZE ->
  alloc_loop err k i st =
  Ok tt (set_memory (Brief.stage (replicate k 0) i (memory st)) st).
Proof.
  induction k as [|k IH]; intros i st HM Hi Hk.
  - simpl. unfold pure. f_equal. apply fw_VM_ext; reflexivity.
  - rewrite Nat2Z.inj_succ in Hk. cbn [alloc_loop].
    assert (Hi' : 0 <= i < MEM_SIZE) by lia.
    rewrite (bind_Ok _ _ _ _ _ (fw_memset_below err i 0 st Hi' HM)).
    rewrite IH by (simpl; lia). reflexivity.
Qed.

(** X17.  [alloc] followed by [free]: the block of [len] bytes below
    [locals] is cleared, [locals] and the return stack pointer are back
    where they were, and the length stays in the cell above the return
    stack. *)
Lemma alloc_then_free len st :
  MEM_SIZE <= 32767 ->
  0 <= s st < DATA_STACK_SIZE ->
  dstack st !! Z.to_nat (s st) = Some len ->
  0 <= len ->
  0 <= here st -> here st <= locals st - len -> locals st <= MEM_SIZE ->
  -1 <= r st < RETURN_STACK_SIZE - 1 ->
  length (rstack st) = Z.to_nat RETURN_STACK_SIZE ->
  (alloc err ;; free err) st =
  Ok tt
    (set_memory
       (Brief.stage (replicate (Z.to_nat len) 0) (locals st - len)
          (memory st))
       (set_rstack (<[Z.to_nat (r st + 1) := len]> (rstack st))
          (set_s (s st - 1) st))).
Proof.
  intros HM Hs Hlen H0 Hh Hroom Hl Hr Hlr. unfold alloc, free.
  rewrite !bind_bind.
  rewrite (bind_Ok _ _ _ _ _ (fw_pop_some err len st Hs Hlen)).
  vm_norm. rewrite (s16_id (locals st - len)) by lia.
  erewrite (bind_Ok (rpush err _)); cycle 1.
  { apply fw_rpush_room. simpl. lia. }
  vm_norm.
  erewrite (bind_Ok (alloc_loop err _ _)); cycle 1.
  { apply alloc_loop_clears; simpl; lia. }
  vm_norm.
  destruct (Z.ltb_spec (locals st - len) (here st)); [lia|]. simpl.
  vm_norm.
  erewrite (bind_Ok (rpop err)); cycle 1.
  { apply fw_rpop_some; simpl; [lia|].
    apply list_lookup_insert_eq. lia. }
  vm_norm. unfold modify. rewrite (s16_id len) by lia.
  f_equal. apply fw_VM_ext; simpl; try reflexivity; try lia.
  replace (locals st - len + len) with (locals st) by lia.
  apply s16_id. lia.
Qed.

(** X18.  An immediate frame, [frameLength - 1] bytes of code followed by
    a zero flag byte, below [locals]: [frameReceived] keeps [here], sets
    [last] to it and runs the code from [here]; the flag cell is the
    closing [ret]. *)
Lemma frameReceived_immediate steps sequence frameLength st :
  MEM_SIZE <= 32767 ->
  0 <= here st ->
  1 <= frameLength < 256 ->
  here st + (frameLength - 1) < MEM_SIZE ->
  memory st !! Z.to_nat (here st + (frameLength - 1)) = Some 0 ->
  here st + frameLength <= locals st ->
  frameReceived err steps sequence frameLength st =
  exec err steps (here st) (set_last (here st) st).
Proof.
  intros HM Hlo Hlen Hhi Hflag Hloc. unfold frameReceived.
  rewrite (u8_id frameLength) by lia. vm_norm.
  rewrite (s16_id (here st + (frameLength - 1))) by lia.
  unfold memory_at at 1.
  erewrite (bind_Ok (fun st => array_get _ _ _ _ st)); cycle 1.
  { apply array_get_Some; simpl; [lia | exact Hflag]. }
  simpl. unfold when, post_incr. vm_norm.
  erewrite (bind_Ok (memset err _ _)); cycle 1.
  { apply fw_memset_below; simpl; lia. }
  vm_norm.
  rewrite (s16_id (here st + (frameLength - 1) + 1)) by lia.
  destruct (Z.gtb_spec (here st + (frameLength - 1) + 1) (locals st)); [lia|].
  vm_norm. f_equal. apply fw_VM_ext; simpl; try reflexivity.
  apply list_insert_id. exact Hflag.
Qed.

End Locals.

Section Receiving.
Context {cfg : Config}.
Variable err : Z -> VMM unit.

Lemma Link_ext (a b : Link) :
  vm a = vm b -> readChecksum a = readChecksum b -> escaped a = escaped b ->
  state a = state b -> frameBuffer a = frameBuffer b ->
  frameBufferLength a = frameBufferLength b -> frameIndex a = frameIndex b ->
  sequence a = sequence b -> lastFrameReceived a = lastFrameReceived b ->
  rx a = rx b -> a = b.
Proof. destruct a, b; simpl; intros; subst; reflexivity. Qed.

Lemma set_vm_same l : set_vm (vm l) l = l.
Proof. now destruct l. Qed.

Lemma bind_lift_get {A B} (f : VM -> A) (k : A -> LM B) l :
  (x <- lift (get f) ;; k x) l = k (f (vm l)) l.
Proof. unfold bind, lift, get. now rewrite set_vm_same. Qed.

Lemma bind_lift_modify {B} (f : VM -> VM) (k : LM B) l :
  (lift (modify f) ;; k) l = k (set_vm (f (vm l)) l).
Proof. reflexivity. Qed.

Lemma lift_Ok {A} (m : VMM A) x v l :
  m (vm l) = Ok x v -> lift m l = Ok x (set_vm v l).
Proof. intros H. unfold lift. now rewrite H. Qed.

Ltac link_norm :=
  repeat (first [ rewrite bind_bind | rewrite bind_get | rewrite bind_modify
                | rewrite bind_pure | rewrite bind_lift_get
                | rewrite bind_lift_modify ]; simpl).

Lemma bind_cong {S A B} (m m' : M S A) (k : A -> M S B) st st' :
  m st = m' st' -> (x <- m ;; k x) st = (x <- m' ;; k x) st'.
Proof. intros H. unfold bind. now rewrite H. Qed.

Lemma bind_unit (m : LM unit) l : (m ;; pure tt) l = m l.
Proof. unfold bind, pure. destruct (m l) as [[] ?| |]; reflexivity. Qed.

Lemma Serial_read_next b rest l :
  rx l = b :: rest -> Serial_read l = Ok (u8 b) (set_rx rest l).
Proof. intros H. unfold Serial_read. now rewrite H. Qed.

(** One byte that needs no escape, read outside an escape. *)
Lemma turn_plain steps b rest l :
  escaped l = 0 -> rx l = b :: rest -> 0 <= b < 256 ->
  b <> END -> b <> ESCAPE ->
  turn err steps l =
  dispatch err steps b
    (set_readChecksum (Z.lxor (readChecksum l) b) (set_rx rest l)).
Proof.
  intros He Hrx Hb HE HS. unfold turn, readUnescaped.
  rewrite !bind_bind.
  rewrite (bind_Ok _ _ _ _ _ (Serial_read_next _ _ _ Hrx)).
  rewrite (u8_id b) by lia. vm_norm. rewrite He. simpl.
  destruct (Z.eqb_spec b ESCAPE); [contradiction|].
  destruct (Z.eqb_spec b END); [contradiction|].
  vm_norm. reflexivity.
Qed.

(** The two bytes of an escape. *)
Lemma turn_escape steps rest l :
  escaped l = 0 -> rx l = ESCAPE :: rest ->
  turn err steps l = Ok tt (set_escaped 1 (set_rx rest l)).
Proof.
  intros He Hrx. unfold turn, readUnescaped.
  rewrite !bind_bind.
  rewrite (bind_Ok _ _ _ _ _ (Serial_read_next _ _ _ Hrx)).
  vm_norm. rewrite He. reflexivity.
Qed.

Lemma turn_escaped steps b c rest l :
  escaped l = 1 -> rx l = c :: rest ->
  (c = ESCAPED_END /\ b = END \/ c = ESCAPED_ESCAPE /\ b = ESCAPE) ->
  turn err steps l =
  dispatch err steps b
    (set_readChecksum (Z.lxor (readChecksum l) b)
       (set_escaped 0 (set_rx rest l))).
Proof.
  intros He Hrx Hc. unfold turn, readUnescaped.
  rewrite !bind_bind.
  rewrite (bind_Ok _ _ _ _ _ (Serial_read_next _ _ _ Hrx)).
  vm_norm. rewrite He. simpl.
  destruct Hc as [[-> ->]|[-> ->]]; vm_norm; reflexivity.
Qed.

Lemma turns_next steps n b rest l :
  rx l = b :: rest ->
  turns err steps (S n) l = (turn err steps ;; turns err steps n) l.
Proof.
  intros H. simpl. rewrite bind_get. rewrite H.
  rewrite bool_decide_eq_false_2 by discriminate. reflexivity.
Qed.

(** An escaped byte reaches [dispatch] as the byte itself, whatever the
    state of the parser. *)
Lemma turns_slip steps b rest l :
  escaped l = 0 -> rx l = slip b ++ rest -> 0 <= b < 256 ->
  turns err steps (length (slip b ++ rest)) l =
  (dispatch err steps b ;; turns err steps (length rest))
    (set_readChecksum (Z.lxor (readChecksum l) b) (set_rx rest l)).
Proof.
  intros He Hrx Hb. unfold slip in *.
  destruct (Z.eqb_spec b END) as [->|HE];
    [|destruct (Z.eqb_spec b ESCAPE) as [->|HS]];
    simpl in Hrx; cbn [app length].
  - rewrite (turns_next _ _ _ _ _ Hrx).
    rewrite (bind_Ok _ _ _ _ _ (turn_escape steps _ _ He Hrx)).
    rewrite (turns_next _ _ ESCAPED_END rest) by reflexivity.
    unfold bind at 1.
    rewrite (turn_escaped steps END ESCAPED_END rest) by (simpl; auto).
    unfold bind. simpl.
    replace (set_readChecksum _ (set_escaped 0 _))
      with (set_readChecksum (Z.lxor (readChecksum l) END) (set_rx rest l));
      [reflexivity|].
    apply Link_ext; simpl; auto.
  - rewrite (turns_next _ _ _ _ _ Hrx).
    rewrite (bind_Ok _ _ _ _ _ (turn_escape steps _ _ He Hrx)).
    rewrite (turns_next _ _ ESCAPED_ESCAPE rest) by reflexivity.
    unfold bind at 1.
    rewrite (turn_escaped steps ESCAPE ESCAPED_ESCAPE rest) by (simpl; auto).
    unfold bind. simpl.
    replace (set_readChecksum _ (set_escaped 0 _))
      with (set_readChecksum (Z.lxor (readChecksum l) ESCAPE) (set_rx rest l));
      [reflexivity|].
    apply Link_ext; simpl; auto.
  - rewrite (turns_next _ _ _ _ _ Hrx).
    unfold bind at 1.
    rewrite (turn_plain steps b rest) by assumption.
    reflexivity.
Qed.

(** The first byte of a frame, when it is the expected sequence number. *)
Lemma dispatch_sequence steps b l :
  state l = WAITING_FOR_SEQUENCE ->
  b = u8 (readSequence (vm l) + 1) ->
  dispatch err steps b l =
  Ok tt
    (set_state WAITING_FOR_BYTECODE
       (set_frameIndex 0
          (set_frameBufferLength (u8 (Z.min 255 (MEM_SIZE - here (vm l))))
             (set_frameBuffer (here (vm l))
                (set_vm (set_readSequence b (vm l)) (set_sequence b l)))))).
Proof.
  intros Hst Hb. unfold dispatch. rewrite bind_get, Hst. simpl.
  link_norm. rewrite <- Hb. rewrite Z.eqb_refl. simpl. link_norm.
  erewrite (bind_Ok (lift frameAllocation)); cycle 1.
  { apply lift_Ok. reflexivity. }
  vm_norm. reflexivity.
Qed.

(** A byte of the frame goes to the next free cell of the buffer. *)
Lemma dispatch_store steps b l :
  state l = WAITING_FOR_BYTECODE ->
  frameIndex l <> frameBufferLength l ->
  0 <= frameBuffer l + frameIndex l < MEM_SIZE ->
  dispatch err steps b l =
  Ok tt
    (set_vm (set_memory
               (<[Z.to_nat (frameBuffer l + frameIndex l) := b]>
                  (memory (vm l))) (vm l))
       (set_frameIndex (u8 (frameIndex l + 1)) l)).
Proof.
  intros Hst Hi Hm. unfold dispatch. rewrite bind_get, Hst. simpl.
  vm_norm.
  destruct (Z.eqb_spec (frameIndex l) (frameBufferLength l)); [contradiction|].
  vm_norm.
  apply lift_Ok. simpl. unfold memory_put.
  now rewrite array_set_in by exact Hm.
Qed.

(** The bytes of a frame, escaped, fill the buffer in order. *)
Lemma turns_payload steps bs : forall rest l,
  escaped l = 0 -> state l = WAITING_FOR_BYTECODE ->
  rx l = flat_map slip bs ++ rest -> bytes bs ->
  0 <= frameIndex l ->
  frameIndex l + Z.of_nat (length bs) <= frameBufferLength l ->
  frameBufferLength l <= 255 ->
  0 <= frameBuffer l + frameIndex l ->
  frameBuffer l + frameIndex l + Z.of_nat (length bs) <= MEM_SIZE ->
  turns err steps (length (flat_map slip bs ++ rest)) l =
  turns err steps (length rest)
    (set_vm (set_memory
               (Brief.stage bs (frameBuffer l + frameIndex l) (memory (vm l)))
               (vm l))
       (set_frameIndex (frameIndex l + Z.of_nat (length bs))
          (set_readChecksum (foldl Z.lxor (readChecksum l) bs)
             (set_rx rest l)))).
Proof.
  induction bs as [|b bs IH]; intros rest l He Hst Hrx Hb Hi0 Hin Hn Hf0 Hfm.
  - simpl in *. f_equal. apply Link_ext; simpl; try reflexivity; try lia.
    + apply fw_VM_ext; reflexivity.
    + now symmetry.
  - inversion Hb as [|? ? Hb0 Hbs]; subst.
    cbn [length] in Hin, Hfm. rewrite Nat2Z.inj_succ in Hin, Hfm.
    cbn [flat_map] in Hrx |- *. rewrite <- app_assoc in Hrx |- *.
    rewrite (turns_slip steps b _ l He Hrx Hb0).
    erewrite (bind_Ok (dispatch err steps b)); cycle 1.
    { apply dispatch_store; simpl; [exact Hst | lia | lia]. }
    rewrite IH; simpl; try assumption; try reflexivity;
      rewrite ?(u8_id (frameIndex l + 1)) by lia; try lia.
    f_equal. apply Link_ext; simpl; try reflexivity.
    + apply fw_VM_ext; simpl; try reflexivity.
      now replace (frameBuffer l + (frameIndex l + 1))
        with (frameBuffer l + frameIndex l + 1) by lia.
    + cbn [length]. lia.
Qed.

(** [END] after the bytes of a frame. *)
Lemma turn_end steps rest l :
  escaped l = 0 -> state l = WAITING_FOR_BYTECODE -> rx l = END :: rest ->
  turn err steps l =
  dispatch err steps END (set_state PROCESS_PAYLOAD (set_rx rest l)).
Proof.
  intros He Hst Hrx. unfold turn, readUnescaped.
  rewrite !bind_bind.
  rewrite (bind_Ok _ _ _ _ _ (Serial_read_next _ _ _ Hrx)).
  vm_norm. rewrite He. simpl. vm_norm. rewrite Hst. simpl. vm_norm.
  reflexivity.
Qed.

(** A frame whose checksum came out even is handed to the machine. *)
Lemma dispatch_deliver steps b l :
  state l = PROCESS_PAYLOAD -> readChecksum l = 0 ->
  dispatch err steps b l =
  (lift (frameReceived err steps (readSequence (vm l)) (frameIndex l - 1)) ;;
   modify (set_state WAITING_FOR_SEQUENCE))
    (set_lastFrameReceived (platform (calls (vm l)) Millis)
       (set_vm (set_calls (calls (vm l) ++ [Millis]) (vm l)) l)).
Proof.
  intros Hst Hc. unfold dispatch. rewrite bind_get, Hst. simpl.
  erewrite (bind_Ok (lift (arduino Millis))); cycle 1.
  { apply lift_Ok. reflexivity. }
  link_norm. rewrite Hc. simpl. link_norm.
  reflexivity.
Qed.

(** X19.  A well-formed frame with the expected sequence number read by
    [loop]: escapes are undone, payload and checksum are stored from
    [here] on, and [frameReceived] gets the sequence number and the length
    of the payload. *)
Lemma loop_accepts steps seq payload l :
  0 <= here (vm l) ->
  state l = WAITING_FOR_SEQUENCE -> escaped l = 0 -> readChecksum l = 0 ->
  seq = u8 (readSequence (vm l) + 1) ->
  bytes payload ->
  Z.of_nat (length payload) + 1 <= 255 ->
  here (vm l) + Z.of_nat (length payload) + 1 <= MEM_SIZE ->
  rx l = framed seq payload ->
  loop err steps l =
  (lift (frameReceived err steps seq (Z.of_nat (length payload))) ;;
   modify (set_state WAITING_FOR_SEQUENCE))
    (mkLink (set_calls (calls (vm l) ++ [Millis])
               (set_memory
                  (Brief.stage (payload ++ [checksum (seq :: payload)])
                     (here (vm l)) (memory (vm l)))
                  (set_readSequence seq (vm l))))
            0 0 PROCESS_PAYLOAD (here (vm l))
            (u8 (Z.min 255 (MEM_SIZE - here (vm l))))
            (Z.of_nat (length payload) + 1) seq
            (platform (calls (vm l)) Millis) []).
Proof.
  intros Hh Hst He Hc Hseq Hb Hlen Hroom Hrx.
  assert (Hq : 0 <= seq < 256) by (subst seq; apply u8_range).
  assert (Hn : u8 (Z.min 255 (MEM_SIZE - here (vm l)))
               = Z.min 255 (MEM_SIZE - here (vm l))) by (apply u8_id; lia).
  assert (Hcrc : checksum (seq :: payload) = foldl Z.lxor seq payload)
    by reflexivity.
  assert (Hb' : bytes (payload ++ [checksum (seq :: payload)])).
  { apply Forall_app. split; [exact Hb|]. constructor; [|constructor].
    apply checksum_byte. now constructor. }
  unfold loop. rewrite bind_get. rewrite Hrx. unfold framed in *.
  cbn [flat_map] in Hrx |- *. rewrite <- app_assoc in Hrx |- *.
  rewrite (turns_slip steps seq _ l He Hrx Hq).
  erewrite (bind_Ok (dispatch err steps seq)); cycle 1.
  { apply dispatch_sequence; [exact Hst | exact Hseq]. }
  rewrite turns_payload
    by (simpl; rewrite ?Hn, ?length_app; simpl;
        first [assumption | reflexivity | lia]).
  change (length [END]) with 1%nat.
  erewrite turns_next by reflexivity.
  erewrite (bind_cong (turn err steps)); cycle 1.
  { apply turn_end; simpl; first [assumption | reflexivity]. }
  change (turns err steps 0) with (pure (S := Link) tt).
  rewrite bind_unit.
  rewrite dispatch_deliver; simpl; try reflexivity.
  2:{ rewrite Hc. simpl. rewrite foldl_app. simpl. rewrite Hcrc.
      apply Z.lxor_nilpotent. }
  rewrite length_app. simpl.
  replace (0 + Z.of_nat (length payload + 1) - 1)
    with (Z.of_nat (length payload)) by lia.
  f_equal. apply Link_ext; simpl; try reflexivity.
  - apply fw_VM_ext; simpl; try reflexivity.
    now rewrite Z.add_0_r.
  - rewrite Hc. simpl. rewrite foldl_app. simpl. rewrite Hcrc.
    apply Z.lxor_nilpotent.
  - exact He.
  - lia.
Qed.

Lemma sendError_sends e l :
  0 <= e < 256 -> 0 <= writeSequence (vm l) < 256 ->
  sendError e l = Ok tt (set_vm (after_frame [FRAMES_ERROR; e] (vm l)) l).
Proof.
  intros He Hq. unfold sendError.
  erewrite (bind_Ok (lift _)); cycle 1.
  { apply lift_Ok. apply sendFrame_local_frames; [|exact Hq].
    repeat constructor; try apply u8_range; vm_compute; discriminate. }
  now rewrite (u8_id e) by lia.
Qed.

(** The first byte of a frame, when it is not the expected sequence
    number: a warning goes out and the frame is taken all the same. *)
Lemma dispatch_sequence_skipped steps b l :
  state l = WAITING_FOR_SEQUENCE ->
  b <> u8 (readSequence (vm l) + 1) ->
  0 <= writeSequence (vm l) < 256 ->
  dispatch err steps b l =
  Ok tt
    (set_state WAITING_FOR_BYTECODE
       (set_frameIndex 0
          (set_frameBufferLength (u8 (Z.min 255 (MEM_SIZE - here (vm l))))
             (set_frameBuffer (here (vm l))
                (set_vm
                   (after_frame [FRAMES_ERROR; FRAMES_WARNING_OUT_OF_SEQUENCE]
                      (set_readSequence b (vm l)))
                   (set_sequence b l)))))).
Proof.
  intros Hst Hb Hq. unfold dispatch. rewrite bind_get, Hst. simpl.
  link_norm.
  destruct (Z.eqb_spec (u8 (readSequence (vm l) + 1)) b); [congruence|].
  simpl. link_norm.
  erewrite (bind_Ok (sendError _)); cycle 1.
  { apply sendError_sends; simpl; [|exact Hq].
    vm_compute; split; [discriminate | reflexivity]. }
  link_norm.
  erewrite (bind_Ok (lift frameAllocation)); cycle 1.
  { apply lift_Ok. reflexivity. }
  vm_norm. reflexivity.
Qed.

(** A frame whose checksum came out odd is answered with an error frame
    and not handed on. *)
Lemma dispatch_mismatch steps b l :
  state l = PROCESS_PAYLOAD -> readChecksum l <> 0 ->
  0 <= writeSequence (vm l) < 256 ->
  dispatch err steps b l =
  Ok tt
    (set_state WAITING_FOR_SEQUENCE
       (set_readChecksum 0
          (set_vm
             (after_frame [FRAMES_ERROR; FRAMES_ERROR_CRC_MISMATCH]
                (set_calls (calls (vm l) ++ [Millis]) (vm l)))
             (set_lastFrameReceived (platform (calls (vm l)) Millis) l)))).
Proof.
  intros Hst Hc Hq. unfold dispatch. rewrite bind_get, Hst. simpl.
  erewrite (bind_Ok (lift (arduino Millis))); cycle 1.
  { apply lift_Ok. reflexivity. }
  link_norm.
  destruct (Z.eqb_spec (readChecksum l) 0); [contradiction|].
  link_norm.
  erewrite (bind_Ok (sendError _)); cycle 1.
  { apply sendError_sends; simpl; [|exact Hq].
    vm_compute; split; [discriminate | reflexivity]. }
  link_norm. reflexivity.
Qed.

(** From the first byte after the sequence number to the [END]. *)
Lemma turns_rest steps bs l :
  escaped l = 0 -> state l = WAITING_FOR_BYTECODE ->
  rx l = flat_map slip bs ++ [END] -> bytes bs ->
  0 <= frameIndex l ->
  frameIndex l + Z.of_nat (length bs) <= frameBufferLength l ->
  frameBufferLength l <= 255 ->
  0 <= frameBuffer l + frameIndex l ->
  frameBuffer l + frameIndex l + Z.of_nat (length bs) <= MEM_SIZE ->
  turns err steps (length (flat_map slip bs ++ [END])) l =
  dispatch err steps END
    (set_state PROCESS_PAYLOAD
       (set_vm (set_memory
                  (Brief.stage bs (frameBuffer l + frameIndex l)
                     (memory (vm l)))
                  (vm l))
          (set_frameIndex (frameIndex l + Z.of_nat (length bs))
             (set_readChecksum (foldl Z.lxor (readChecksum l) bs)
                (set_rx [] l))))).
Proof.
  intros He Hst Hrx Hb Hi0 Hin Hn Hf0 Hfm.
  rewrite turns_payload by assumption.
  change (length [END]) with 1%nat.
  erewrite turns_next by reflexivity.
  erewrite (bind_cong (turn err steps)); cycle 1.
  { apply turn_end; simpl; first [assumption | reflexivity]. }
  change (turns err steps 0) with (pure (S := Link) tt).
  rewrite bind_unit. reflexivity.
Qed.

(** X20.  A frame whose last byte is not the checksum of the others: the
    bytes land above [here], the frame [FRAMES_ERROR; CRC_MISMATCH] goes
    out, [frameReceived] is not called and the parser waits for the next
    sequence number. *)
Lemma loop_rejects steps seq payload c l :
  0 <= here (vm l) ->
  state l = WAITING_FOR_SEQUENCE -> escaped l = 0 -> readChecksum l = 0 ->
  seq = u8 (readSequence (vm l) + 1) ->
  bytes payload -> 0 <= c < 256 ->
  c <> checksum (seq :: payload) ->
  Z.of_nat (length payload) + 1 <= 255 ->
  here (vm l) + Z.of_nat (length payload) + 1 <= MEM_SIZE ->
  0 <= writeSequence (vm l) < 256 ->
  rx l = flat_map slip (seq :: payload ++ [c]) ++ [END] ->
  loop err steps l =
  Ok tt
    (mkLink (after_frame [FRAMES_ERROR; FRAMES_ERROR_CRC_MISMATCH]
               (set_calls (calls (vm l) ++ [Millis])
                  (set_memory
                     (Brief.stage (payload ++ [c]) (here (vm l))
                        (memory (vm l)))
                     (set_readSequence seq (vm l)))))
            0 0 WAITING_FOR_SEQUENCE (here (vm l))
            (u8 (Z.min 255 (MEM_SIZE - here (vm l))))
            (Z.of_nat (length payload) + 1) seq
            (platform (calls (vm l)) Millis) []).
Proof.
  intros Hh Hst He Hc Hseq Hb Hc0 Hne Hlen Hroom Hw Hrx.
  assert (Hq : 0 <= seq < 256) by (subst seq; apply u8_range).
  assert (Hn : u8 (Z.min 255 (MEM_SIZE - here (vm l)))
               = Z.min 255 (MEM_SIZE - here (vm l))) by (apply u8_id; lia).
  assert (Hb' : bytes (payload ++ [c])).
  { apply Forall_app. split; [exact Hb|]. now repeat constructor. }
  unfold loop. rewrite bind_get. rewrite Hrx.
  cbn [flat_map] in Hrx |- *. rewrite <- app_assoc in Hrx |- *.
  rewrite (turns_slip steps seq _ l He Hrx Hq).
  erewrite (bind_Ok (dispatch err steps seq)); cycle 1.
  { apply dispatch_sequence; [exact Hst | exact Hseq]. }
  rewrite turns_rest
    by (simpl; rewrite ?Hn, ?length_app; simpl;
        first [assumption | reflexivity | lia]).
  rewrite dispatch_mismatch; simpl; try reflexivity; try assumption.
  2:{ rewrite Hc. simpl. rewrite foldl_app. simpl.
      intros H. apply Z.lxor_eq in H. apply Hne. now symmetry. }
  f_equal. apply Link_ext; simpl; try reflexivity.
  - unfold after_frame. apply fw_VM_ext; simpl; try reflexivity.
    all: now rewrite Z.add_0_r.
  - exact He.
  - rewrite length_app. simpl. lia.
Qed.

(** X21.  A well-formed frame with another sequence number than the
    expected one: the warning [FRAMES_ERROR; OUT_OF_SEQUENCE] goes out,
    the number is adopted and the frame is delivered all the same. *)
Lemma loop_accepts_skipped steps seq payload l :
  0 <= here (vm l) ->
  state l = WAITING_FOR_SEQUENCE -> escaped l = 0 -> readChecksum l = 0 ->
  0 <= seq < 256 ->
  seq <> u8 (readSequence (vm l) + 1) ->
  bytes payload ->
  Z.of_nat (length payload) + 1 <= 255 ->
  here (vm l) + Z.of_nat (length payload) + 1 <= MEM_SIZE ->
  0 <= writeSequence (vm l) < 256 ->
  rx l = framed seq payload ->
  loop err steps l =
  (lift (frameReceived err steps seq (Z.of_nat (length payload))) ;;
   modify (set_state WAITING_FOR_SEQUENCE))
    (mkLink (set_calls (calls (vm l) ++ [Millis])
               (set_memory
                  (Brief.stage (payload ++ [checksum (seq :: payload)])
                     (here (vm l)) (memory (vm l)))
                  (after_frame
                     [FRAMES_ERROR; FRAMES_WARNING_OUT_OF_SEQUENCE]
                     (set_readSequence seq (vm l)))))
            0 0 PROCESS_PAYLOAD (here (vm l))
            (u8 (Z.min 255 (MEM_SIZE - here (vm l))))
            (Z.of_nat (length payload) + 1) seq
            (platform (calls (vm l)) Millis) []).
Proof.
  intros Hh Hst He Hc Hq Hseq Hb Hlen Hroom Hw Hrx.
  assert (Hn : u8 (Z.min 255 (MEM_SIZE - here (vm l)))
               = Z.min 255 (MEM_SIZE - here (vm l))) by (apply u8_id; lia).
  assert (Hcrc : checksum (seq :: payload) = foldl Z.lxor seq payload)
    by reflexivity.
  assert (Hb' : bytes (payload ++ [checksum (seq :: payload)])).
  { apply Forall_app. split; [exact Hb|]. constructor; [|constructor].
    apply checksum_byte. now constructor. }
  unfold loop. rewrite bind_get. rewrite Hrx. unfold framed in *.
  cbn [flat_map] in Hrx |- *. rewrite <- app_assoc in Hrx |- *.
  rewrite (turns_slip steps seq _ l He Hrx Hq).
  erewrite (bind_Ok (dispatch err steps seq)); cycle 1.
  { apply dispatch_sequence_skipped; [exact Hst | exact Hseq | exact Hw]. }
  rewrite turns_rest
    by (simpl; rewrite ?Hn, ?length_app; simpl;
        first [assumption | reflexivity | lia]).
  rewrite dispatch_deliver; simpl; try reflexivity.
  2:{ rewrite Hc. simpl. rewrite foldl_app. simpl. rewrite Hcrc.
      apply Z.lxor_nilpotent. }
  rewrite length_app. simpl.
  replace (0 + Z.of_nat (length payload + 1) - 1)
    with (Z.of_nat (length payload)) by lia.
  f_equal. apply Link_ext; simpl; try reflexivity.
  - apply fw_VM_ext; simpl; try reflexivity.
    now rewrite Z.add_0_r.
  - rewrite Hc. simpl. rewrite foldl_app. simpl. rewrite Hcrc.
    apply Z.lxor_nilpotent.
  - exact He.
  - lia.
Qed.

(** In recovery everything up to the next [END] is dropped, and that
    [END] is then dispatched in the new state: it is taken as the sequence
    number of a frame.  [junk] holds neither [END] nor [ESCAPE]. *)
Lemma turns_recovery steps junk rest : forall l,
  escaped l = 0 -> state l = WAITING_FOR_RECOVERY ->
  rx l = junk ++ END :: rest ->
  Forall (fun b => 0 <= b < 256 /\ b <> END /\ b <> ESCAPE) junk ->
  END <> u8 (readSequence (vm l) + 1) ->
  0 <= writeSequence (vm l) < 256 ->
  turns err steps (length (junk ++ END :: rest)) l =
  turns err steps (length rest)
    (set_state WAITING_FOR_BYTECODE
       (set_frameIndex 0
          (set_frameBufferLength (u8 (Z.min 255 (MEM_SIZE - here (vm l))))
             (set_frameBuffer (here (vm l))
                (set_vm
                   (after_frame [FRAMES_ERROR; FRAMES_WARNING_OUT_OF_SEQUENCE]
                      (set_readSequence END (vm l)))
                   (set_sequence END
                      (set_readChecksum 0 (set_rx rest l)))))))).
Proof.
  induction junk as [|b junk IH]; intros l He Hst Hrx Hj Hq Hw.
  - simpl in Hrx. cbn [app length].
    rewrite (turns_next _ _ _ _ _ Hrx).
    unfold turn, readUnescaped.
    rewrite !bind_bind.
    rewrite (bind_Ok _ _ _ _ _ (Serial_read_next _ _ _ Hrx)).
    vm_norm. rewrite He. simpl. vm_norm. rewrite Hst. simpl. vm_norm.
    erewrite (bind_Ok (dispatch err steps _)); cycle 1.
    { apply dispatch_sequence_skipped;
        simpl; first [reflexivity | assumption]. }
    reflexivity.
  - inversion Hj as [|? ? [Hb [HE HS]] Hj']; subst.
    simpl in Hrx. cbn [app length].
    rewrite (turns_next _ _ _ _ _ Hrx).
    erewrite (bind_cong (turn err steps)); cycle 1.
    { apply (turn_plain steps b (junk ++ END :: rest)); assumption. }
    erewrite (bind_Ok (dispatch err steps b)); cycle 1.
    { unfold dispatch. rewrite bind_get. simpl. rewrite Hst. reflexivity. }
    rewrite IH; simpl; try assumption; reflexivity.
Qed.

(** X23.  In recovery [loop] drops everything up to the next [END] and
    then dispatches that [END] in the new state, as a sequence number.
    The frame that follows, well formed as it is, is delivered under the
    sequence number [END] with its own sequence number as the first byte
    of the payload. *)
Lemma loop_after_recovery steps junk seq payload l :
  0 <= here (vm l) ->
  escaped l = 0 -> state l = WAITING_FOR_RECOVERY ->
  rx l = junk ++ END :: framed seq payload ->
  Forall (fun b => 0 <= b < 256 /\ b <> END /\ b <> ESCAPE) junk ->
  END <> u8 (readSequence (vm l) + 1) ->
  0 <= writeSequence (vm l) < 256 ->
  0 <= seq < 256 -> bytes payload ->
  Z.of_nat (length payload) + 2 <= 255 ->
  here (vm l) + Z.of_nat (length payload) + 2 <= MEM_SIZE ->
  loop err steps l =
  (lift (frameReceived err steps END (Z.of_nat (length payload) + 1)) ;;
   modify (set_state WAITING_FOR_SEQUENCE))
    (mkLink (set_calls (calls (vm l) ++ [Millis])
               (set_memory
                  (Brief.stage
                     (seq :: payload ++ [checksum (seq :: payload)])
                     (here (vm l)) (memory (vm l)))
                  (after_frame
                     [FRAMES_ERROR; FRAMES_WARNING_OUT_OF_SEQUENCE]
                     (set_readSequence END (vm l)))))
            0 0 PROCESS_PAYLOAD (here (vm l))
            (u8 (Z.min 255 (MEM_SIZE - here (vm l))))
            (Z.of_nat (length payload) + 2) END
            (platform (calls (vm l)) Millis) []).
Proof.
  intros Hh He Hst Hrx Hj Hq Hw Hs Hb Hlen Hroom.
  assert (Hn : u8 (Z.min 255 (MEM_SIZE - here (vm l)))
               = Z.min 255 (MEM_SIZE - here (vm l))) by (apply u8_id; lia).
  assert (Hcrc : checksum (seq :: payload) = foldl Z.lxor seq payload)
    by reflexivity.
  assert (Hb' : bytes (seq :: payload ++ [checksum (seq :: payload)])).
  { constructor; [exact Hs|].
    apply Forall_app. split; [exact Hb|]. constructor; [|constructor].
    apply checksum_byte. now constructor. }
  unfold loop. rewrite bind_get. rewrite Hrx.
  rewrite (turns_recovery steps junk _ l He Hst Hrx Hj Hq Hw).
  unfold framed.
  rewrite turns_rest
    by (simpl; rewrite ?Hn, ?length_app; simpl;
        first [assumption | reflexivity | lia]).
  rewrite dispatch_deliver; simpl; try reflexivity.
  2:{ rewrite foldl_app. simpl. rewrite Hcrc. apply Z.lxor_nilpotent. }
  match goal with
  | |- (lift (frameReceived _ _ _ ?a) ;; _) _ = _ =>
      replace a with (Z.of_nat (length payload) + 1)
        by (rewrite ?length_app; cbn [length]; lia)
  end.
  f_equal. apply Link_ext; simpl; try reflexivity.
  - apply fw_VM_ext; simpl; try reflexivity.
    now rewrite Z.add_0_r.
  - rewrite foldl_app. simpl. rewrite Hcrc. apply Z.lxor_nilpotent.
  - exact He.
  - rewrite length_app. cbn [length]. lia.
Qed.

(** X22.  An [END] where a sequence number is due is answered with the
    frame [FRAMES_ERROR; UNEXPECTED_END] and puts the parser in
    recovery. *)
Lemma loop_stray_end steps l :
  escaped l = 0 -> state l = WAITING_FOR_SEQUENCE -> rx l = [END] ->
  0 <= writeSequence (vm l) < 256 ->
  loop err steps l =
  Ok tt
    (set_state WAITING_FOR_RECOVERY
       (set_vm (after_frame [FRAMES_ERROR; FRAMES_ERROR_UNEXPECTED_END] (vm l))
          (set_rx [] l))).
Proof.
  intros He Hst Hrx Hw. unfold loop. rewrite bind_get, Hrx.
  change (length [END]) with 1%nat.
  rewrite (turns_next _ _ _ _ _ Hrx).
  change (turns err steps 0) with (pure (S := Link) tt).
  rewrite bind_unit. unfold turn, readUnescaped.
  rewrite !bind_bind.
  rewrite (bind_Ok _ _ _ _ _ (Serial_read_next _ _ _ Hrx)).
  vm_norm. rewrite He. simpl. vm_norm. rewrite Hst. simpl. vm_norm.
  erewrite (bind_Ok (sendError _)); cycle 1.
  { apply sendError_sends; simpl; [|exact Hw].
    vm_compute; split; [discriminate | reflexivity]. }
  vm_norm. unfold dispatch. vm_norm. reflexivity.
Qed.

End Receiving.
End FirmwareMore.

(** * The results at concrete inputs *)

#[local] Existing Instance brief_h.

Ltac concrete :=
  vm_compute; repeat split; try reflexivity; try discriminate.

(** Witness of C10: [drop] on the empty stack, then [pop]. *)
Lemma drop_never_raises_witness :
  Brief.s Samples.idle <= 0 /\
  Brief.drop Samples.idle = Ok tt (Brief.set_s (-2) Samples.idle) /\
  Brief.pop (cfg := brief_h) (Brief.error 1) (Brief.set_s (-2) Samples.idle) =
  (Brief.error (cfg := brief_h) 1 VM_ERROR_DATA_STACK_UNDERFLOW ;; pure 0)%vm
    (Brief.set_s (-2) Samples.idle).
Proof.
  assert (H : Brief.s Samples.idle <= 0) by concrete.
  destruct (drop_never_raises (cfg := brief_h) (Brief.error 1) Samples.idle)
    as [Hd Hp].
  split; [exact H|]. split; [exact Hd | exact (Hp H)].
Defined.

(** Witness of C4: a push of 9 on four cells of four. *)
Lemma push_on_full_stack_overruns_witness :
  Brief.push (cfg := brief_h) (Brief.error 1) 9 Samples.full =
    Fault (OutOfBounds Dstack 4) (Brief.set_s 4 Samples.full) /\
  Firmware.push (cfg := brief_h) (Firmware.error 1) 9 Samples.fw_full =
    Fault (OutOfBounds Dstack 4) (Firmware.set_s 4 Samples.fw_full).
Proof.
  destruct (push_on_full_stack_overruns (cfg := brief_h)
              (Brief.error 1) (Firmware.error 1) 9) as [Hb Hf].
  split.
  - apply (Hb Samples.full); concrete.
  - apply (Hf Samples.fw_full); concrete.
Defined.

(** Witness of C5: the bytecode [{1, 0xFF}] leaves 255 on the stack of the
    later copy and -1 on the stack of the earlier one. *)
Lemma lit8_operand_extension_witness :
  (exists st', Brief.lit8 (cfg := brief_h) (Brief.error 1) Samples.at_lit8 =
               Ok tt st' /\ Brief.dstack st' = [255; 0; 0; 0]) /\
  (exists st', Firmware.lit8 (cfg := brief_h) (Firmware.error 1)
                 Samples.fw_at_lit8 = Ok tt st' /\
               Firmware.dstack st' = [-1; 0; 0; 0]).
Proof.
  destruct (lit8_operand_extension (cfg := brief_h)
              (Brief.error 1) (Firmware.error 1) 0xFF) as [Hb Hf];
    [concrete | concrete |].
  split.
  - eexists. split; [apply (Hb Samples.at_lit8); concrete | reflexivity].
  - eexists. split; [apply (Hf Samples.fw_at_lit8); concrete | reflexivity].
Defined.

(** Witness of C2: the call [0x81 0x02] followed by a [ret] byte, and
    followed by the byte 7. *)
Lemma call_pushes_return_address_unless_tail_witness :
  Brief.step (cfg := brief_h) (Brief.error 1) (Samples.at_call 0) =
    Ok tt (Brief.set_p 0x0102 (Samples.at_call 0)) /\
  Brief.step (cfg := brief_h) (Brief.error 1) (Samples.at_call 7) =
    Ok tt (Brief.set_p 0x0102
             (Brief.set_rstack [2; 0; 0; 0]
                (Brief.set_r 0 (Samples.at_call 7)))).
Proof.
  split.
  - apply (call_pushes_return_address_unless_tail (cfg := brief_h)
             (Brief.error 1) 0x81 0x02 0 (Samples.at_call 0)); concrete.
  - apply (call_pushes_return_address_unless_tail (cfg := brief_h)
             (Brief.error 1) 0x81 0x02 7 (Samples.at_call 7)); concrete.
Defined.

(** Witness of C1: the errors raised on an idle machine. *)
Lemma error_event_has_code_as_id_witness :
  (exists st',
     Brief.error 1 VM_ERROR_DATA_STACK_UNDERFLOW Samples.idle = Ok tt st' /\
     Brief.tx st' = [2; 2; 0; 0xFE]) /\
  (exists st',
     Brief.pop (Brief.error 1) Samples.idle = Ok 0 st' /\
     Brief.tx st' = [2; 2; 0; 0xFE]).
Proof.
  destruct (error_event_has_code_as_id 0 VM_ERROR_DATA_STACK_UNDERFLOW
              Samples.idle) as [He Hp]; try solve [concrete].
  split; [exact He | apply Hp; concrete].
Defined.

(** The immediate frame [drop; eventOp] on an idle machine: [drop] leaves
    the pointer two below the stack, the [pop] of [eventOp] reports the
    underflow, and the [push] inside that report stores below [dstack];
    nothing has been sent. *)
Lemma drop_eventOp_frame :
  exists st',
    Brief.loop (Brief.error 1) 4 (Brief.boot [0x82; 32; 8]) =
      Fault (OutOfBounds Dstack (-1)) st' /\
    Brief.s st' = -1 /\ Brief.tx st' = [].
Proof. eexists. split; [vm_compute; reflexivity|]. split; reflexivity. Qed.


(** Witness of C7: the three scalar events of the specification and the
    packet [7, 0x01, 0x2C] sent by [eventFooter]. *)
Lemma event_wire_format_witness :
  (exists st', Brief.event (Brief.error 1) 7 0 Samples.idle = Ok tt st' /\
               Brief.tx st' = [0; 7]) /\
  (exists st', Brief.event (Brief.error 1) 7 (-1) Samples.idle = Ok tt st' /\
               Brief.tx st' = [1; 7; 0xFF]) /\
  (exists st', Brief.event (Brief.error 1) 7 300 Samples.idle = Ok tt st' /\
               Brief.tx st' = [2; 7; 0x01; 0x2C]) /\
  s8 (u8 (-1)) = -1 /\
  Brief.eventFooter (Brief.error 1) Samples.packed =
  Ok tt (Brief.set_tx [2; 7; 0x01; 0x2C] Samples.packed).
Proof.
  destruct (event_wire_format (Brief.error 1) 7 0 Samples.idle)
    as (H0 & _ & _); try solve [concrete].
  destruct (event_wire_format (Brief.error 1) 7 (-1) Samples.idle)
    as (H1 & Hs & _); try solve [concrete].
  destruct (event_wire_format (Brief.error 1) 7 300 Samples.idle)
    as (H2 & _ & Hf); try solve [concrete].
  split; [exact H0|]. split; [exact H1|]. split; [exact H2|].
  split; [apply Hs; concrete|].
  apply (Hf [1; 44] Samples.packed); try solve [concrete].
  intros [|[|[|j]]] Hj; try reflexivity. simpl in Hj. lia.
Defined.

(** Witness of C6 (amended): the definition [lit8 5; ret] received by each
    copy. *)
Lemma definition_frame_cursors_witness :
  (exists st',
     Brief.loop (Brief.error 1) 0 Samples.defining = Ok tt st' /\
     Brief.here st' = 3 /\ Brief.last st' = 3 /\
     Brief.memory st' = [1; 5; 0] ++ replicate 509 0 /\
     Brief.rx st' = []) /\
  (exists st',
     Firmware.frameReceived (Firmware.error 1) 0 1 4 Samples.fw_frame =
       Ok tt st' /\
     Firmware.last st' = 0 /\ Firmware.here st' = 3).
Proof.
  destruct definition_frame_cursors as [Hb Hf]. split.
  - apply (Hb (Brief.error 1) 0%nat 3 [1; 5; 0] [] Samples.defining);
      concrete.
  - apply (Hf (Firmware.error 1) 0%nat 1 4 1 Samples.fw_frame); concrete.
Defined.

(** Witness of C9: after [setup] the cursor is 1.  With the 9 of the
    immediate frame [lit16 9] on the stack, [eventBody8] stores it at
    [memory[1]] under a handler that cannot come back; the immediate
    frame [lit16 9; eventBody8] does the same and sends nothing. *)
Lemma body_without_header_stores_witness :
  (exists st',
     Brief.setup (Brief.error 1) (Brief.boot []) = Ok tt st' /\
     Brief.eventBuffer st' = 1 /\ Brief.here st' = 0 /\
     Brief.tx st' = [0; 0xFF]) /\
  firstn 4 (Brief.memory Cases.started_with_9) = [2; 0; 9; 0] /\
  Brief.eventBuffer Cases.started_with_9 = 1 /\
  Brief.eventBody8 (Brief.error 0) Cases.started_with_9 =
    Ok tt (Brief.set_memory ([2; 9; 9] ++ replicate 509 0)
             (Brief.set_eventBuffer 2
                (Brief.set_s (-1) Cases.started_with_9))) /\
  (exists st',
     Brief.loop (Brief.error 1) 8 (Cases.started [0x84; 2; 0; 9; 5]) =
       Ok tt st' /\
     firstn 5 (Brief.memory st') = [2; 9; 9; 5; 0] /\
     Brief.eventBuffer st' = 2 /\
     Brief.tx st' = Brief.tx (Cases.started [0x84; 2; 0; 9; 5])).
Proof.
  destruct (body_without_header_stores (cfg := brief_h))
    as (Hs & _ & H8 & _).
  split; [apply (Hs 1%nat []); concrete|].
  split; [vm_compute; reflexivity|]. split; [vm_compute; reflexivity|].
  split.
  - rewrite (H8 (Brief.error 0) 9 Cases.started_with_9) by concrete.
    vm_compute. reflexivity.
  - eexists. split; [vm_compute; reflexivity|]. concrete.
Defined.

(** Witness of C8: [forget] with the address 0 on the stack and
    [here = last = 3]; then, after [setup], the definition [lit8 5; ret]
    and the immediate frames [lit8 0; forget] and [lit8 7].  [forget]
    leaves [here = 0] under [last = 3]; the third frame is stored at 0,
    but [loop] sets [here] back to [last] and runs the second frame once
    more: 7 is never pushed. *)
Lemma forget_leaves_last_behind_witness :
  (exists st',
     Brief.forget (Brief.error 1) Cases.before_forget = Ok tt st' /\
     Brief.last st' = 3 /\ Brief.here st' = 0 /\
     ~ Brief.cursors_ok st') /\
  (exists st1 st2 st3,
     Brief.loop (Brief.error 1) 8
       (Cases.started ([3; 1; 5; 0] ++ [0x83; 1; 0; 41] ++ [0x82; 1; 7])) =
       Ok tt st1 /\
     Brief.here st1 = 3 /\ Brief.last st1 = 3 /\
     Brief.loop (Brief.error 1) 8 st1 = Ok tt st2 /\
     Brief.here st2 = 0 /\ Brief.last st2 = 3 /\
     Brief.loop (Brief.error 1) 8 st2 = Ok tt st3 /\
     firstn 7 (Brief.memory st3) = [1; 7; 0; 1; 0; 41; 0] /\
     Brief.here st3 = 0 /\ Brief.last st3 = 3 /\
     Brief.s st3 = -1 /\ Brief.dstack st3 = [0; 0; 0; 0]).
Proof.
  destruct (forget_leaves_last_behind (cfg := brief_h) 1)
    as (_ & _ & _ & Hf & _).
  split.
  - assert (H1 : 0 <= Brief.s Cases.before_forget < DATA_STACK_SIZE)
      by concrete.
    assert (H2 : Brief.dstack Cases.before_forget
                   !! Z.to_nat (Brief.s Cases.before_forget) = Some 0)
      by concrete.
    destruct (Hf Cases.before_forget 0 H1 H2) as (st' & E & El & Eh & Eb).
    exists st'. split; [exact E|].
    split; [rewrite El; vm_compute; reflexivity|].
    split; [rewrite Eh; vm_compute; reflexivity|].
    apply Eb; concrete.
  - do 3 eexists.
    split; [vm_compute; reflexivity|].
    split; [vm_compute; reflexivity|]. split; [vm_compute; reflexivity|].
    split; [vm_compute; reflexivity|].
    split; [vm_compute; reflexivity|]. split; [vm_compute; reflexivity|].
    split; [vm_compute; reflexivity|].
    concrete.
Defined.


(** Counterexample to C6 as stated: after the definition frame
    [lit8 5; ret] is taken in at [here = 0] by the later copy, [last] is 3,
    not 0. *)
Lemma definition_frame_last_cex :
  exists st',
    Brief.loop (Brief.error 1) 0 Samples.defining = Ok tt st' /\
    Brief.here Samples.defining = 0 /\
    Brief.here st' = 3 /\
    Brief.last st' = 3 /\
    Brief.last st' <> Brief.here Samples.defining.
Proof.
  eexists. split; [vm_compute; reflexivity|].
  repeat split. vm_compute. discriminate.
Qed.

(** Counterexample to C7 as stated: after [setup], events packed by hand
    with the id 7 and 255, then 300 body bytes.  The first packet is 256
    bytes long, the byte that holds its length is 0, and [eventFooter]
    sends the byte 255 and nothing else; the second is sent as a packet
    of 44 body bytes. *)
Lemma event_of_255_bytes_cex :
  (exists st',
     (Brief.push (Brief.error 1) 7 ;;
      Brief.eventHeader (Brief.error 1) ;;
      Cases.times 255
        (Brief.push (Brief.error 1) 1 ;; Brief.eventBody8 (Brief.error 1)) ;;
      Brief.eventFooter (Brief.error 1))%vm (Cases.started []) =
       Ok tt st' /\
     firstn 256 (Brief.memory st') = 7 :: replicate 255 1 /\
     Brief.eventBuffer st' - Brief.here st' = 256 /\
     Brief.tx st' = Brief.tx (Cases.started []) ++ [255] /\
     Brief.tx st' <>
     Brief.tx (Cases.started []) ++ 255 :: 7 :: replicate 255 1) /\
  (exists st',
     (Brief.push (Brief.error 1) 7 ;;
      Brief.eventHeader (Brief.error 1) ;;
      Cases.times 300
        (Brief.push (Brief.error 1) 1 ;; Brief.eventBody8 (Brief.error 1)) ;;
      Brief.eventFooter (Brief.error 1))%vm (Cases.started []) =
       Ok tt st' /\
     firstn 301 (Brief.memory st') = 7 :: replicate 300 1 /\
     Brief.tx st' =
     Brief.tx (Cases.started []) ++ 44 :: 7 :: replicate 44 1).
Proof.
  split.
  - eexists. split; [vm_compute; reflexivity|].
    repeat split; try (vm_compute; reflexivity).
    vm_compute. discriminate.
  - eexists. split; [vm_compute; reflexivity|].
    repeat split; vm_compute; reflexivity.
Qed.

(** * The further results at concrete inputs *)

Ltac listed := repeat (constructor; [concrete|]); constructor.

Ltac settle := first [ solve [concrete] | solve [listed] ].

(** Witness of X1: 70000 pushed above the cell 5 comes back as 4464. *)
Lemma push_then_pop_witness :
  (Brief.push (Brief.error 1) 70000 ;; Brief.pop (Brief.error 1))%vm
    Samples.one_cell =
  Ok 4464 (Brief.set_dstack [5; 4464; 0; 0] Samples.one_cell).
Proof.
  rewrite (BriefMore.push_then_pop (cfg := brief_h)) by settle.
  reflexivity.
Defined.

(** Witness of X2: a fifth cell for a return stack of four. *)
Lemma rpush_full_witness :
  Brief.rpush (Brief.error 1) 9 Cases.rfull =
  Fault (OutOfBounds Rstack 4) (Brief.set_r 4 Cases.rfull).
Proof. apply (BriefMore.rpush_full (cfg := brief_h)); settle. Defined.

(** Witness of X3: 5 below 7, swapped twice. *)
Lemma swap_twice_witness :
  (Brief.swap ;; Brief.swap)%vm Cases.two_cells = Ok tt Cases.two_cells.
Proof. apply (BriefMore.swap_twice (cfg := brief_h)); settle. Defined.

(** Witness of X4: the operand [0x12 0x34]. *)
Lemma lit16_pushes_witness :
  Brief.lit16 (Brief.error 1) Cases.at_lit16 =
  Ok tt (Brief.set_dstack [0x1234; 0; 0; 0]
           (Brief.set_s 0 (Brief.set_p 3 Cases.at_lit16))).
Proof.
  rewrite (BriefMore.lit16_pushes (cfg := brief_h) _ 0x12 0x34) by settle.
  reflexivity.
Defined.

(** Witness of X5: 5 stored at address 7. *)
Lemma store16_then_mem16_witness :
  exists st1,
    Brief.store16 (Brief.error 1) Cases.two_cells = Ok tt st1 /\
    Brief.mem16 (Brief.error 1) 7 st1 = Ok 5 st1.
Proof.
  eexists.
  apply (BriefMore.store16_then_mem16 (cfg := brief_h) (Brief.error 1) 7 5
           Cases.two_cells); settle.
Defined.

(** Witness of X6: the word at 0 that calls itself. *)
Lemma tail_call_spins_witness :
  Brief.step (Brief.error 1) Cases.spinning = Ok tt Cases.spinning /\
  forall n, Brief.run (Brief.error 1) n Cases.spinning = OutOfFuel.
Proof.
  apply (BriefMore.tail_call_spins (cfg := brief_h) (Brief.error 1) 0x80 0);
    settle.
Defined.

(** Witness of X7: [exec] of a word that is a single [ret]. *)
Lemma exec_exits_below_zero_witness :
  exists st', Brief.exec (Brief.error 1) 1 0 Samples.idle = Ok tt st' /\
              Brief.p st' < 0.
Proof.
  eexists. split; [vm_compute; reflexivity|].
  apply (BriefMore.exec_exits_below_zero (cfg := brief_h) (Brief.error 1)
           1 0 Samples.idle).
  vm_compute. reflexivity.
Defined.

(** Witness of X8: an error raised with five cells counted on a stack of
    four. *)
Lemma overflow_report_diverges_witness :
  Brief.error 100 VM_ERROR_DATA_STACK_OVERFLOW Cases.overrun = OutOfFuel.
Proof.
  apply (BriefMore.overflow_report_diverges (cfg := brief_h)); settle.
Defined.

(** Witness of X9: an error raised with [here = MEM_SIZE]. *)
Lemma memory_full_report_diverges_witness :
  Brief.error 100 VM_ERROR_OUT_OF_MEMORY Cases.brimful = OutOfFuel.
Proof.
  apply (BriefMore.memory_full_report_diverges (cfg := brief_h)); settle.
Defined.

(** Witness of X10: 5 and 7 compared. *)
Lemma comparisons_complement_witness :
  (Brief.eq (Brief.error 1) ;; Brief.notb)%vm Cases.two_cells =
    Brief.neq (Brief.error 1) Cases.two_cells /\
  (Brief.lt (Brief.error 1) ;; Brief.notb)%vm Cases.two_cells =
    Brief.geq (Brief.error 1) Cases.two_cells /\
  (Brief.gt (Brief.error 1) ;; Brief.notb)%vm Cases.two_cells =
    Brief.leq (Brief.error 1) Cases.two_cells.
Proof.
  apply (BriefMore.comparisons_complement (cfg := brief_h)); settle.
Defined.

(** Witness of X11: the counter at -32768 reads as 0. *)
Lemma loopTicks_pushes_witness :
  Brief.loopTicks (Brief.error 1) Cases.wrapped =
    Ok tt (Brief.set_dstack [0; 0; 0; 0] (Brief.set_s 0 Cases.wrapped)) /\
  0 <= Z.land (Brief.loopIterations Cases.wrapped) 0x7FFF <= 32767.
Proof.
  apply (BriefMore.loopTicks_pushes (cfg := brief_h) (Brief.error 1)
           Cases.wrapped); settle.
Defined.

(** Witness of X12: the immediate frame [lit8 5] leaves 5 on the stack and
    [here] at 0. *)
Lemma loop_immediate_witness :
  exists st', Brief.loop (Brief.error 1) 8 Cases.immediate = Ok tt st' /\
              Brief.dstack st' = [5; 0; 0; 0] /\ Brief.s st' = 0 /\
              Brief.here st' = 0 /\
              firstn 3 (Brief.memory st') = [1; 5; 0].
Proof.
  eexists. split.
  - rewrite (BriefMore.loop_immediate (cfg := brief_h) (Brief.error 1) 8
               0x82 [1; 5] [] Cases.immediate) by settle.
    vm_compute. reflexivity.
  - concrete.
Defined.

(** Witness of X13: [END], [ESCAPE] and 7 sent as frame 0; the checksum is
    [0xC0 xor 0xDB xor 7 = 0x1C]. *)
Lemma sendFrame_wire_witness :
  exists st', Firmware.sendFrame 0 3 Cases.fw_escapes = Ok 0 st' /\
              Firmware.tx st' =
                [0; 0xDB; 0xDC; 0xDB; 0xDD; 7; 0x1C; 0xC0] /\
              Firmware.writeSequence st' = 1.
Proof.
  assert (Hm : forall (j : nat) (b : Z),
             [0xC0; 0xDB; 7] !! j = Some b ->
             Firmware.memory Cases.fw_escapes !! (Z.to_nat 0 + j)%nat
             = Some b).
  { intros j b Hj.
    do 3 (destruct j as [|j]; [inversion Hj; subst; reflexivity|]).
    discriminate. }
  destruct (FirmwareMore.sendFrame_wire (cfg := brief_h) [0xC0; 0xDB; 7] 0
              Cases.fw_escapes) as [H _];
    [settle | settle | settle | exact Hm | settle | settle |].
  eexists. split; [exact H | concrete].
Defined.

(** Witness of X14: an error of code 4 raised on the idle machine. *)
Lemma error_reports_witness :
  exists st', Firmware.error 1 4 Samples.fw_idle = Ok tt st' /\
              Firmware.tx st' = [0; 0xFE; 4; 0xFA; 0xC0] /\
              Firmware.s st' = -1.
Proof.
  eexists. split.
  - apply (FirmwareMore.error_reports (cfg := brief_h) 0 4 Samples.fw_idle);
      settle.
  - concrete.
Defined.

(** Witness of X15: [pop] on the idle machine. *)
Lemma pop_underflow_reports_witness :
  exists st', Firmware.pop (Firmware.error 1) Samples.fw_idle = Ok 0 st' /\
              Firmware.tx st' = [0; 0xFE; 2; 0xFC; 0xC0] /\
              Firmware.s st' = -1.
Proof.
  eexists. split.
  - apply (FirmwareMore.pop_underflow_reports (cfg := brief_h) 0
             Samples.fw_idle); settle.
  - concrete.
Defined.

(** Witness of X16: a push with five cells counted on a stack of four. *)
Lemma push_overflow_reports_witness :
  exists st', Firmware.push (Firmware.error 1) 9 Cases.fw_overrun =
                Ok tt st' /\
              Firmware.tx st' = [0; 0xFE; 3; 0xFD; 0xC0] /\
              Firmware.s st' = -1.
Proof.
  eexists. split.
  - apply (FirmwareMore.push_overflow_reports (cfg := brief_h) 0 9
             Cases.fw_overrun); settle.
  - concrete.
Defined.

(** Witness of X17: three bytes of locals taken and given back. *)
Lemma alloc_then_free_witness :
  exists st', (Firmware.alloc (Firmware.error 1) ;;
               Firmware.free (Firmware.error 1))%vm Cases.fw_alloc =
                Ok tt st' /\
              Firmware.locals st' = 512 /\ Firmware.r st' = -1 /\
              Firmware.s st' = -1 /\ Firmware.rstack st' = [3; 0; 0; 0].
Proof.
  eexists. split.
  - apply (FirmwareMore.alloc_then_free (cfg := brief_h) (Firmware.error 1)
             3 Cases.fw_alloc); settle.
  - concrete.
Defined.

(** Witness of X18: the immediate frame [lit8 5] with its flag byte. *)
Lemma frameReceived_immediate_witness :
  exists st', Firmware.frameReceived (Firmware.error 1) 8 1 3
                Cases.fw_immediate = Ok tt st' /\
              Firmware.dstack st' = [5; 0; 0; 0] /\
              Firmware.here st' = 0 /\ Firmware.last st' = 0.
Proof.
  eexists. split.
  - rewrite (FirmwareMore.frameReceived_immediate (cfg := brief_h)) by settle.
    vm_compute. reflexivity.
  - concrete.
Defined.

(** Witness of X19: the immediate frame [lit8 0xC0] as frame 1, its
    operand and its checksum both escaped on the wire.  The earlier copy
    sign-extends the operand. *)
Lemma loop_accepts_witness :
  Reflecta.framed 1 [1; 0xC0; 0] =
    [1; 1; 0xDB; 0xDC; 0; 0xDB; 0xDC; 0xC0] /\
  exists l', Reflecta.loop (Firmware.error 1) 8
               (Cases.listening (Reflecta.framed 1 [1; 0xC0; 0])) =
               Ok tt l' /\
             Firmware.dstack (Reflecta.vm l') = [-64; 0; 0; 0] /\
             Firmware.readSequence (Reflecta.vm l') = 1 /\
             Reflecta.state l' = Reflecta.WAITING_FOR_SEQUENCE /\
             Firmware.tx (Reflecta.vm l') = [].
Proof.
  split; [reflexivity|]. eexists. split.
  - rewrite (FirmwareMore.loop_accepts (cfg := brief_h) (Firmware.error 1) 8
               1 [1; 0xC0; 0]) by settle.
    vm_compute. reflexivity.
  - concrete.
Defined.

(** Witness of X20: the same frame with 0 for a checksum. *)
Lemma loop_rejects_witness :
  exists l', Reflecta.loop (Firmware.error 1) 8
               (Cases.listening [1; 1; 0xDB; 0xDC; 0; 0; 0xC0]) =
               Ok tt l' /\
             Firmware.dstack (Reflecta.vm l') = [0; 0; 0; 0] /\
             Firmware.tx (Reflecta.vm l') = [0; 0x7F; 2; 0x7D; 0xC0] /\
             Reflecta.state l' = Reflecta.WAITING_FOR_SEQUENCE.
Proof.
  eexists. split.
  - apply (FirmwareMore.loop_rejects (cfg := brief_h) (Firmware.error 1) 8
             1 [1; 0xC0; 0] 0); settle.
  - concrete.
Defined.

(** Witness of X21: the same frame numbered 9 instead of 1. *)
Lemma loop_accepts_skipped_witness :
  exists l', Reflecta.loop (Firmware.error 1) 8
               (Cases.listening (Reflecta.framed 9 [1; 0xC0; 0])) =
               Ok tt l' /\
             Firmware.dstack (Reflecta.vm l') = [-64; 0; 0; 0] /\
             Firmware.readSequence (Reflecta.vm l') = 9 /\
             Firmware.tx (Reflecta.vm l') = [0; 0x7F; 0; 0x7F; 0xC0].
Proof.
  eexists. split.
  - rewrite (FirmwareMore.loop_accepts_skipped (cfg := brief_h)
               (Firmware.error 1) 8 9 [1; 0xC0; 0]) by settle.
    vm_compute. reflexivity.
  - concrete.
Defined.

(** Witness of X22: a lone [END]. *)
Lemma loop_stray_end_witness :
  exists l', Reflecta.loop (Firmware.error 1) 8
               (Cases.listening [0xC0]) = Ok tt l' /\
             Reflecta.state l' = Reflecta.WAITING_FOR_RECOVERY /\
             Firmware.tx (Reflecta.vm l') = [0; 0x7F; 3; 0x7C; 0xC0].
Proof.
  eexists. split.
  - apply (FirmwareMore.loop_stray_end (cfg := brief_h)); settle.
  - concrete.
Defined.

(** Witness of X23: two bytes of a broken frame, its [END], then the
    definition frame [lit8 5; ret] numbered 1 with flag byte 1.  The
    definition is stored with the 1 of its sequence number in front. *)
Lemma loop_after_recovery_witness :
  exists l', Reflecta.loop (Firmware.error 1) 8
               (Cases.recovering
                  ([3; 4] ++ 0xC0 :: Reflecta.framed 1 [1; 5; 0; 1])) =
               Ok tt l' /\
             firstn 5 (Firmware.memory (Reflecta.vm l')) = [1; 1; 5; 0; 1] /\
             Firmware.last (Reflecta.vm l') = 0 /\
             Firmware.here (Reflecta.vm l') = 4 /\
             Firmware.readSequence (Reflecta.vm l') = 0xC0.
Proof.
  eexists. split.
  - rewrite (FirmwareMore.loop_after_recovery (cfg := brief_h)
               (Firmware.error 1) 8 [3; 4] 1 [1; 5; 0; 1]) by settle.
    vm_compute. reflexivity.
  - concrete.
Defined.
